(** * WestBetPro: rule matching, confidence, grading and validation

    A shallow embedding of the analytical core of the backend
    ([engine.py], [golden_rules.py], [api_football.py], [track_results.py],
    [learning_engine.py], [sandbox_evaluator.py], with the odds columns of
    [excel_parser.py] and the polling of [live_score_updater.py]) together
    with the properties of the specification that concern it and further
    properties of the code.

    Conventions of the embedding:
    - Python [int] is [Z]; Python [float] is an exact number ([Q] where the
      code only adds, multiplies and compares, [R] where it takes a square
      root); rounding of binary floating point is not modelled.
    - Python [str] is a [string] holding the UTF-8 bytes of the text; the
      literals below are the bytes of the literals of the source.
    - A [dict] read as a JSON object is a [gmap]; a [dict] that the code
      iterates over is an association list in the order of its literal.
    - An exception is a value of [result]. *)

From Stdlib Require Import ZArith QArith Qabs Qround List String Ascii Bool Lia.
From Stdlib Require Import Permutation Sorted Reals Lra.
From stdpp Require Import gmap strings pretty.

Import ListNotations.
Local Open Scope string_scope.
Local Open Scope list_scope.
Local Open Scope Z_scope.

(** ** Python built-ins on [str] *)

Module PyStr.

(** [c.lower()] and [c.upper()] on one byte: the ASCII letters change
    case, every other byte is kept (the letters outside ASCII that the
    code cares about are handled by its own substitution tables). *)
Definition lower_byte (c : ascii) : ascii :=
  let n := nat_of_ascii c in
  if ((65 <=? n)%nat && (n <=? 90)%nat)%bool then ascii_of_nat (n + 32) else c.

Definition upper_byte (c : ascii) : ascii :=
  let n := nat_of_ascii c in
  if ((97 <=? n)%nat && (n <=? 122)%nat)%bool then ascii_of_nat (n - 32) else c.

Fixpoint lower (s : string) : string :=
  match s with
  | EmptyString => EmptyString
  | String c s' => String (lower_byte c) (lower s')
  end.

Fixpoint upper (s : string) : string :=
  match s with
  | EmptyString => EmptyString
  | String c s' => String (upper_byte c) (upper s')
  end.

(** ASCII white space, as [str.isspace] has it: TAB..CR, FS..US, SPACE. *)
Definition is_space (c : ascii) : bool :=
  let n := nat_of_ascii c in
  (((9 <=? n)%nat && (n <=? 13)%nat) || ((28 <=? n)%nat && (n <=? 32)%nat))%bool.

Fixpoint lstrip (s : string) : string :=
  match s with
  | EmptyString => EmptyString
  | String c s' => if is_space c then lstrip s' else s
  end.

Fixpoint rstrip (s : string) : string :=
  match s with
  | EmptyString => EmptyString
  | String c s' =>
      match rstrip s' with
      | EmptyString => if is_space c then EmptyString else String c EmptyString
      | r => String c r
      end
  end.

(** [s.strip()] *)
Definition strip (s : string) : string := rstrip (lstrip s).

(** [s.startswith(p)] *)
Fixpoint startswith (p s : string) : bool :=
  match p, s with
  | EmptyString, _ => true
  | String a p', String b s' => if Ascii.eqb a b then startswith p' s' else false
  | String _ _, EmptyString => false
  end.

(** [sub in s] *)
Fixpoint contains (sub s : string) : bool :=
  if startswith sub s then true
  else match s with
       | EmptyString => false
       | String _ s' => contains sub s'
       end.

(** [s.replace(old, new)] for a non-empty [old]: occurrences are replaced
    from left to right and do not overlap.  [skip] counts the bytes of an
    occurrence that are still to be dropped. *)
Fixpoint replace_from (skip : nat) (old new s : string) : string :=
  match s with
  | EmptyString => EmptyString
  | String c s' =>
      match skip with
      | S k => replace_from k old new s'
      | O =>
          if startswith old s
          then new +:+ replace_from (String.length old - 1) old new s'
          else String c (replace_from 0 old new s')
      end
  end.

Definition replace (old new s : string) : string := replace_from 0 old new s.

(** [s.split()]: the maximal runs of bytes that are not white space. *)
Fixpoint split_from (cur : string) (s : string) : list string :=
  match s with
  | EmptyString => match cur with EmptyString => [] | _ => [cur] end
  | String c s' =>
      if is_space c
      then match cur with
           | EmptyString => split_from EmptyString s'
           | _ => cur :: split_from EmptyString s'
           end
      else split_from (cur +:+ String c EmptyString) s'
  end.

Definition split (s : string) : list string := split_from EmptyString s.

(** [len(s)]: the number of code points, that is of the bytes that are
    not UTF-8 continuation bytes (10xxxxxx). *)
Fixpoint len (s : string) : Z :=
  match s with
  | EmptyString => 0
  | String c s' =>
      let n := nat_of_ascii c in
      (if ((128 <=? n)%nat && (n <=? 191)%nat)%bool then 0 else 1) + len s'
  end.

(** [x in l] for a list of strings *)
Definition mem (x : string) (l : list string) : bool :=
  existsb (String.eqb x) l.

End PyStr.

(** ** Exceptions as values *)

Inductive PyError := IndexError | StorageError (msg : string).

Inductive result (A : Type) :=
| Ok (a : A)
| Raise (e : PyError).
Arguments Ok {A} a.
Arguments Raise {A} e.

#[global] Instance result_bind : MBind result := fun A B k m =>
  match m with
  | Ok a => k a
  | Raise e => Raise e
  end.

(** ** golden_rules.py: the rule record *)

Record GoldenRule := mkRule {
  id : Z;
  name : string;
  primary_odds : list (string * Q);
  secondary_odds : option (list (string * Q));
  exclude_odds : option (list (string * Q));
  predictions : list string;
  confidence_base : Z;
  importance : string;
  notes : string
}.

(** A fixture as [engine.py] reads it from the [matches] table; its [id]
    is [match_id] here.  [opening_odds] is a JSON object or null; a value of
    the object may be null as well. *)
Record Match := mkMatch {
  match_id : Z;
  home_team : string;
  away_team : string;
  league : string;
  match_date : string;
  match_time : option string;
  opening_odds : option (gmap string (option Q))
}.

(** [d.get(k)] on a JSON object: [None] for a missing key and for null. *)
Definition dict_get (d : gmap string (option Q)) (k : string) : option Q :=
  match d !! k with
  | Some (Some v) => Some v
  | _ => None
  end.

(** [table.get(k, default)] on a dict literal *)
Fixpoint assoc_get {V : Type} (table : list (string * V)) (k : string) (default : V) : V :=
  match table with
  | [] => default
  | (k', v) :: rest => if String.eqb k k' then v else assoc_get rest k default
  end.

(** ** engine.py: SupabaseOpportunityEngine *)

Module Engine.

(** The fields of [self] that the evaluation reads. *)
Record Self := mkSelf {
  min_confidence : Z;
  tolerance : Q;
  golden_rules : list GoldenRule
}.

Definition odds_key_mapping : list (string * string) :=
  [ ("4-5", "oran_45");
    ("2,5 Ü", "oran_25_ust");
    ("3,5 Ü", "oran_35_ust");
    ("3,5 A", "oran_35_alt");
    ("VAR", "oran_var");
    ("1", "oran_1");
    ("0", "oran_0");
    ("2", "oran_2");
    ("İY 0.5", "iy_05");
    ("İY 1.5", "iy_15");
    ("MS 0.5", "ms_05");
    ("MS 1.5", "ms_15");
    ("MS 2.5", "ms_25");
    ("MS 3.5", "ms_35") ].

(** The label of a rule, translated to the key of the snapshot. *)
Definition _convert_odds_key (rule_key : string) : string :=
  assoc_get odds_key_mapping rule_key
            (PyStr.replace " " "_" (PyStr.lower rule_key)).

(** The [for] loop of [check_odds_match]. *)
Fixpoint check_odds_loop (self : Self) (match_odds : gmap string (option Q))
         (rule_odds : list (string * Q)) (is_exclude : bool) : bool :=
  match rule_odds with
  | [] => true
  | (odds_key, required_val) :: rest =>
      let db_key := _convert_odds_key odds_key in
      match dict_get match_odds db_key with
      | None =>
          if is_exclude then check_odds_loop self match_odds rest is_exclude
          else false
      | Some actual_val =>
          let diff := Qabs (actual_val - required_val) in
          let is_match := Qle_bool diff (tolerance self) in
          if is_exclude then
            if is_match then false
            else check_odds_loop self match_odds rest is_exclude
          else
            if negb is_match then false
            else check_odds_loop self match_odds rest is_exclude
      end
  end.

(** [not match_odds] holds for null and for the empty object. *)
Definition check_odds_match (self : Self)
           (match_odds : option (gmap string (option Q)))
           (rule_odds : list (string * Q)) (is_exclude : bool) : bool :=
  match match_odds with
  | None => false
  | Some d =>
      if bool_decide (d = ∅) then false
      else check_odds_loop self d rule_odds is_exclude
  end.

(** Truth value of an [Optional[Dict]]: [None] and [{}] are false. *)
Definition truthy {A} (d : option (list A)) : option (list A) :=
  match d with
  | Some (x :: l) => Some (x :: l)
  | _ => None
  end.

Definition match_rule_to_match (self : Self) (m : Match) (rule : GoldenRule) : bool :=
  let odds := opening_odds m in
  if negb (check_odds_match self odds (primary_odds rule) false) then false
  else
    if match truthy (secondary_odds rule) with
       | Some sec => negb (check_odds_match self odds sec false)
       | None => false
       end
    then false
    else
      if match truthy (exclude_odds rule) with
         | Some exc => negb (check_odds_match self odds exc true)
         | None => false
         end
      then false
      else true.

Definition importance_bonus : list (string * Z) :=
  [ ("çok_önemli", 3); ("önemli", 2); ("özel", 1); ("normal", 0) ].

Definition calculate_confidence (rule : GoldenRule) (prediction : string) : Z :=
  let base := confidence_base rule in
  let base := base + assoc_get importance_bonus (importance rule) 0 in
  let prediction_count := Z.of_nat (List.length (predictions rule)) in
  let base :=
    if prediction_count <=? 2 then base + 2
    else if prediction_count <=? 4 then base + 1
    else base in
  let base :=
    match predictions rule with
    | p0 :: _ => if String.eqb prediction p0 then base + 1 else base
    | [] => base
    end in
  Z.min 100 base.

(** One entry of [all_predictions]. *)
Record PredEntry := mkEntry {
  bet : string;
  confidence : Z;
  rule_id : Z;
  rule_name : string
}.

(** The opportunity dict; the fields copied from the fixture carry the
    prefix [o_]. *)
Record Opportunity := mkOpportunity {
  o_match_id : Z;
  o_home_team : string;
  o_away_team : string;
  o_league : string;
  o_match_date : string;
  o_match_time : option string;
  o_prediction : string;
  o_confidence : Z;
  alternative_predictions : list PredEntry;
  matched_rules : list (Z * string);
  note : string
}.

(** [all_predictions.sort(key=lambda x: x["confidence"], reverse=True)].
    [list.sort] is stable, also with [reverse=True]; the list a stable sort
    returns is determined by its input, and straight insertion computes
    it. *)
Fixpoint insert_desc (x : PredEntry) (l : list PredEntry) : list PredEntry :=
  match l with
  | [] => [x]
  | y :: l' =>
      if confidence x <? confidence y then y :: insert_desc x l' else x :: l
  end.

Definition sort_by_confidence_desc (l : list PredEntry) : list PredEntry :=
  fold_right insert_desc [] l.

(** The first inner loop of [process_matches]: the rules that match. *)
Definition collect_matched_rules (self : Self) (m : Match)
  : list (GoldenRule * list string) :=
  fold_left
    (fun matched rule =>
       if match_rule_to_match self m rule
       then matched ++ [(rule, predictions rule)]
       else matched)
    (golden_rules self) [].

(** The second inner loop: every prediction of every matched rule. *)
Definition collect_predictions (matched : list (GoldenRule * list string))
  : list PredEntry :=
  fold_left
    (fun all (rp : GoldenRule * list string) =>
       fold_left
         (fun all pred =>
            all ++ [ {| bet := pred;
                        confidence := calculate_confidence (fst rp) pred;
                        rule_id := id (fst rp);
                        rule_name := name (fst rp) |} ])
         (snd rp) all)
    matched [].

(** The body of the outer loop for one fixture: the opportunity appended to
    [opportunities], if any.  [all_predictions[0]] raises [IndexError] on an
    empty list. *)
Definition process_match (self : Self) (m : Match) : result (option Opportunity) :=
  let matched := collect_matched_rules self m in
  match matched with
  | [] => Ok None
  | _ :: _ =>
      let all_predictions := sort_by_confidence_desc (collect_predictions matched) in
      match all_predictions with
      | [] => Raise IndexError
      | best :: rest =>
          if min_confidence self <=? confidence best then
            Ok (Some {| o_match_id := match_id m;
                        o_home_team := home_team m;
                        o_away_team := away_team m;
                        o_league := league m;
                        o_match_date := match_date m;
                        o_match_time := match_time m;
                        o_prediction := bet best;
                        o_confidence := confidence best;
                        alternative_predictions := rest;
                        matched_rules :=
                          map (fun rp : GoldenRule * list string =>
                                 (id (fst rp), name (fst rp))) matched;
                        note := pretty (List.length all_predictions)
                                  +:+ " tahmin mevcut" |})
          else Ok None
      end
  end.

Fixpoint process_loop (self : Self) (matches : list Match)
         (opportunities : list Opportunity) : result (list Opportunity) :=
  match matches with
  | [] => Ok opportunities
  | m :: rest =>
      o ← process_match self m;
      process_loop self rest
        (match o with
         | Some opp => opportunities ++ [opp]
         | None => opportunities
         end)
  end.

Definition process_matches (self : Self) (matches : list Match)
  : result (list Opportunity) :=
  process_loop self matches [].

(** *** The run and the tables it writes *)

(** A row of [predictions]: the opportunity with the three fields that
    [save_predictions] adds. *)
Record StoredPrediction := mkStored {
  sp_opportunity : Opportunity;
  sp_run_id : option Z;
  sp_status : string;
  sp_result : string
}.

Record RunRow := mkRun {
  run_row_id : Z;
  run_status : string;
  run_matches_processed : Z;
  run_opportunities_found : Z;
  run_error_message : option string
}.

Record Db := mkDb {
  runs : list RunRow;
  predictions_table : list StoredPrediction
}.

(** What the storage collaborator does during one run: which request
    raises, with the text of its exception, and what the query on [matches]
    answers (the rows left after the start-time filter of
    [load_matches_from_supabase]).  Time stamps and the system log, which
    never raises, are left out. *)
Record Storage := mkStorage {
  insert_run_error : option string;
  delete_error : option string;
  load_answer : result (list Match);
  insert_error : option (nat * string);
  update_run_error : option string
}.

Record RunSummary := mkSummary {
  success : bool;
  summary_run_id : option Z;
  matches_processed : Z;
  opportunities_found : Z;
  error : option string
}.

(** [str(e)] *)
Definition str_of_error (e : PyError) : string :=
  match e with
  | IndexError => "list index out of range"
  | StorageError msg => msg
  end.

Definition create_run (st : Storage) (db : Db) : result Z * Db :=
  match insert_run_error st with
  | Some msg => (Raise (StorageError msg), db)
  | None =>
      let new_id := Z.of_nat (List.length (runs db)) in
      (Ok new_id,
       {| runs := runs db ++ [ {| run_row_id := new_id;
                                  run_status := "running";
                                  run_matches_processed := 0;
                                  run_opportunities_found := 0;
                                  run_error_message := None |} ];
          predictions_table := predictions_table db |})
  end.

Definition complete_run (st : Storage) (current_run_id : option Z) (db : Db)
           (processed found : Z) (err : option string) : Db :=
  match current_run_id with
  | None => db
  | Some rid =>
      match update_run_error st with
      | Some _ => db
      | None =>
          {| runs :=
               map (fun r =>
                      if run_row_id r =? rid
                      then {| run_row_id := rid;
                              run_status :=
                                match err with
                                | Some _ => "failed"
                                | None => "completed"
                                end;
                              run_matches_processed := processed;
                              run_opportunities_found := found;
                              run_error_message := err |}
                      else r)
                   (runs db);
             predictions_table := predictions_table db |}
      end
  end.

(** The filter of the delete request: [status = 'active'] and
    [date_from <= match_date <= date_to], on ISO dates. *)
Definition stale (date_from date_to : string) (p : StoredPrediction) : bool :=
  (String.eqb (sp_status p) "active"
   && String.leb date_from (o_match_date (sp_opportunity p))
   && String.leb (o_match_date (sp_opportunity p)) date_to)%bool.

(** An exception of the delete request is caught and 0 is returned. *)
Definition archive_old_predictions (st : Storage) (db : Db)
           (date_from date_to : string) : Z * Db :=
  match delete_error st with
  | Some _ => (0, db)
  | None =>
      (Z.of_nat (List.length (List.filter (stale date_from date_to)
                                          (predictions_table db))),
       {| runs := runs db;
          predictions_table :=
            List.filter (fun p => negb (stale date_from date_to p))
                        (predictions_table db) |})
  end.

(** [predictions[i:i + batch_size] for i in range(0, len(predictions), batch_size)] *)
Fixpoint batches {A} (fuel : nat) (batch_size : nat) (l : list A) : list (list A) :=
  match fuel, l with
  | S fuel', _ :: _ => firstn batch_size l :: batches fuel' batch_size (skipn batch_size l)
  | _, _ => []
  end.

Fixpoint insert_batches (st : Storage) (i : nat) (bs : list (list StoredPrediction))
         (inserted_count : Z) (db : Db) : result Z * Db :=
  match bs with
  | [] => (Ok inserted_count, db)
  | batch :: rest =>
      match insert_error st with
      | Some (k, msg) =>
          if Nat.eqb k i then (Raise (StorageError msg), db)
          else insert_batches st (S i) rest
                 (inserted_count + Z.of_nat (List.length batch))
                 {| runs := runs db;
                    predictions_table := predictions_table db ++ batch |}
      | None =>
          insert_batches st (S i) rest
            (inserted_count + Z.of_nat (List.length batch))
            {| runs := runs db;
               predictions_table := predictions_table db ++ batch |}
      end
  end.

Definition save_predictions (st : Storage) (current_run_id : option Z) (db : Db)
           (opportunities : list Opportunity) : result Z * Db :=
  match opportunities with
  | [] => (Ok 0, db)
  | _ :: _ =>
      let predictions :=
        map (fun opp => {| sp_opportunity := opp;
                           sp_run_id := current_run_id;
                           sp_status := "active";
                           sp_result := "pending" |}) opportunities in
      insert_batches st 0 (batches (List.length predictions) 100 predictions) 0 db
  end.

(** The [except] branch of [run]. *)
Definition run_failed (st : Storage) (current_run_id : option Z) (db : Db)
           (e : PyError) : RunSummary * Db :=
  ({| success := false; summary_run_id := None; matches_processed := 0;
      opportunities_found := 0; error := Some (str_of_error e) |},
   complete_run st current_run_id db 0 0 (Some (str_of_error e))).

(** [run], with the date range already defaulted. *)
Definition run (self : Self) (st : Storage) (db : Db)
           (date_from date_to : string) : RunSummary * Db :=
  match create_run st db with
  | (Raise e, db1) => run_failed st None db1 e
  | (Ok rid, db1) =>
      let db2 := snd (archive_old_predictions st db1 date_from date_to) in
      match load_answer st with
      | Raise e => run_failed st (Some rid) db2 e
      | Ok [] =>
          ({| success := true; summary_run_id := None; matches_processed := 0;
              opportunities_found := 0; error := None |},
           complete_run st (Some rid) db2 0 0 None)
      | Ok matches =>
          match process_matches self matches with
          | Raise e => run_failed st (Some rid) db2 e
          | Ok opportunities =>
              match save_predictions st (Some rid) db2 opportunities with
              | (Raise e, db3) => run_failed st (Some rid) db3 e
              | (Ok saved_count, db3) =>
                  ({| success := true; summary_run_id := Some rid;
                      matches_processed := Z.of_nat (List.length matches);
                      opportunities_found := saved_count; error := None |},
                   complete_run st (Some rid) db3
                     (Z.of_nat (List.length matches)) saved_count None)
              end
          end
      end
  end.

End Engine.

(** ** Numbers *)

(** [a > b] and [a < b] on floats *)
Definition Qgtb (a b : Q) : bool := negb (Qle_bool a b).
Definition Qltb (a b : Q) : bool := negb (Qle_bool b a).

(** [int(x)] on a float: the integer part, rounding toward zero. *)
Definition py_int (x : Q) : Z := Z.quot (Qnum x) (Z.pos (Qden x)).

(** ** api_football.py *)

Module ApiFootball.

(** A fixture of the score feed, as far as [match_fixture_by_teams] reads
    it: [fixture["teams"]["home"]["name"]] and
    [fixture["teams"]["away"]["name"]]. *)
Record Fixture := mkFixture {
  fixture_id : Z;
  home_name : string;
  away_name : string
}.

(** The substitution table, in the order of the dict literal.  [lower] of
    Python turns the capital dotted I into "i" and a combining dot, which
    the second entry makes an "i"; [PyStr.lower] keeps that capital, and
    the third entry makes it an "i": the same text either way. *)
Definition turkish_chars : list (string * string) :=
  [ ("ı", "i"); ("i̇", "i"); ("İ", "i");
    ("ğ", "g"); ("Ğ", "g");
    ("ü", "u"); ("Ü", "u");
    ("ş", "s"); ("Ş", "s");
    ("ö", "o"); ("Ö", "o");
    ("ç", "c"); ("Ç", "c") ].

Definition replace_turkish (name : string) : string :=
  fold_left (fun n (p : string * string) => PyStr.replace (fst p) (snd p) n)
            turkish_chars name.

Definition normalize (name : string) : string :=
  let name := PyStr.strip (PyStr.lower name) in
  let name := replace_turkish name in
  let name :=
    fold_left (fun n word => PyStr.replace word "" n)
              [" fc"; " cf"; " sc"; " ac"; " club"; " united"; " city"; " f."; " f "]
              name in
  PyStr.replace " " "" (PyStr.replace "." "" (PyStr.replace "-" "" name)).

Definition get_key_words (name : string) : gset string :=
  let name := PyStr.strip (PyStr.lower name) in
  let name := replace_turkish name in
  let words := PyStr.split (PyStr.replace "." " " (PyStr.replace "-" " " name)) in
  let words :=
    List.filter
      (fun w => (2 <? PyStr.len w)
                && negb (PyStr.mem w ["the"; "fc"; "cf"; "sc"; "ac"; "f"]))%bool
      words in
  list_to_set words.

(** [a in b or b in a] *)
Definition either_contains (a b : string) : bool :=
  (PyStr.contains a b || PyStr.contains b a)%bool.

(** The score of one side: 2 for the partial match of the normalized names,
    under the length test of the source, plus the word overlap. *)
Definition side_score (norm api_norm : string) (words api_words : gset string) : Z :=
  let score := 0 in
  let score :=
    if either_contains norm api_norm then
      if ((4 <=? PyStr.len norm)
          && ((4 <=? PyStr.len norm) || (4 <=? PyStr.len api_norm)))%bool
      then score + 2 else score
    else score in
  score + Z.of_nat (size (words ∩ api_words)).

(** The [for] loop of [match_fixture_by_teams], with its two variables. *)
Fixpoint match_loop (home_norm away_norm : string) (home_words away_words : gset string)
         (fixtures : list Fixture) (best_match : option Fixture) (best_score : Z)
  : option Fixture :=
  match fixtures with
  | [] => best_match
  | fixture :: rest =>
      let api_home_norm := normalize (home_name fixture) in
      let api_away_norm := normalize (away_name fixture) in
      let api_home_words := get_key_words (home_name fixture) in
      let api_away_words := get_key_words (away_name fixture) in
      if (String.eqb home_norm api_home_norm && String.eqb away_norm api_away_norm)%bool
      then Some fixture
      else
        let home_score := side_score home_norm api_home_norm home_words api_home_words in
        let away_score := side_score away_norm api_away_norm away_words api_away_words in
        if ((1 <=? home_score) && (1 <=? away_score))%bool then
          let total_score := home_score + away_score in
          if best_score <? total_score
          then match_loop home_norm away_norm home_words away_words rest
                          (Some fixture) total_score
          else match_loop home_norm away_norm home_words away_words rest
                          best_match best_score
        else match_loop home_norm away_norm home_words away_words rest
                        best_match best_score
  end.

Definition match_fixture_by_teams (fixtures : list Fixture)
           (home_team away_team : string) : option Fixture :=
  match_loop (normalize home_team) (normalize away_team)
             (get_key_words home_team) (get_key_words away_team)
             fixtures None 0.

(** *** check_prediction_result *)

(** [float(s)] on decimal text: an optional sign, digits, an optional
    point and digits; [None] stands for [ValueError].  Exponents, [inf],
    [nan] and digit separators, which [float] accepts too, are not
    covered. *)
Definition digit_of (c : ascii) : option Z :=
  let n := nat_of_ascii c in
  if ((48 <=? n)%nat && (n <=? 57)%nat)%bool then Some (Z.of_nat (n - 48)) else None.

(** Reads digits: the number read so far, the count of digits, the rest. *)
Fixpoint read_digits (acc : Z) (count : nat) (s : string) : Z * nat * string :=
  match s with
  | EmptyString => (acc, count, s)
  | String c s' =>
      match digit_of c with
      | Some d => read_digits (10 * acc + d) (S count) s'
      | None => (acc, count, s)
      end
  end.

Definition parse_unsigned (s : string) : option Q :=
  let '(int_part, n1, rest) := read_digits 0 0 s in
  match rest with
  | EmptyString => if Nat.eqb n1 0 then None else Some (inject_Z int_part)
  | String "." rest' =>
      let '(frac, n2, rest'') := read_digits 0 0 rest' in
      match rest'' with
      | EmptyString =>
          if (Nat.eqb n1 0 && Nat.eqb n2 0)%bool then None
          else Some (inject_Z int_part + inject_Z frac / inject_Z (10 ^ Z.of_nat n2))%Q
      | _ => None
      end
  | _ => None
  end.

Definition py_float (s : string) : option Q :=
  match PyStr.strip s with
  | String "-" s' => option_map Qopp (parse_unsigned s')
  | String "+" s' => parse_unsigned s'
  | s' => parse_unsigned s'
  end.

(** One of the six [for i, part in enumerate(parts)] loops: at a marker
    followed by a number the loop returns the comparison of [value] with
    the threshold, [Some b]; a loop that ends without [return] is [None]. *)
Fixpoint threshold_loop (is_marker : string -> bool) (prediction : string)
         (value : Z) (parts : list string) : option bool :=
  match parts with
  | part :: rest =>
      match rest with
      | next :: _ =>
          if is_marker part then
            match py_float next with
            | Some threshold =>
                if PyStr.contains "ÜST" prediction
                then Some (Qltb threshold (inject_Z value))
                else if PyStr.contains "ALT" prediction
                then Some (Qltb (inject_Z value) threshold)
                else threshold_loop is_marker prediction value rest
            | None => threshold_loop is_marker prediction value rest
            end
          else threshold_loop is_marker prediction value rest
      | [] => None
      end
  | [] => None
  end.

(** The three-way choice between the team markers and the scope marker. *)
Definition scoped_loops (is_scope : string -> bool) (prediction : string)
           (home away total : Z) : option bool :=
  let parts := PyStr.split prediction in
  if PyStr.mem "EV" parts
  then threshold_loop (String.eqb "EV") prediction home parts
  else if PyStr.mem "DEP" parts
  then threshold_loop (String.eqb "DEP") prediction away parts
  else threshold_loop is_scope prediction total parts.

Definition has_halftime_marker (prediction : string) : bool :=
  (PyStr.contains "İY" prediction || PyStr.contains "IY" prediction)%bool.

Definition has_var (prediction : string) : bool :=
  (PyStr.contains "KG VAR" prediction || PyStr.contains "VAR" prediction)%bool.

(** The tail of the function, from the "KG VAR" tests on. *)
Definition check_both_scored_and_1x2 (prediction : string) (home_score away_score : Z)
           (halftime : option (Z * Z)) : option bool :=
  match (if (has_halftime_marker prediction && has_var prediction)%bool
         then Some halftime else None) with
  | Some None => None
  | Some (Some (hh, ha)) => Some ((0 <? hh) && (0 <? ha))%bool
  | None =>
      if has_var prediction then Some ((0 <? home_score) && (0 <? away_score))%bool
      else if String.eqb prediction "1" then Some (away_score <? home_score)
      else if String.eqb prediction "X" then Some (home_score =? away_score)
      else if String.eqb prediction "2" then Some (home_score <? away_score)
      else None
  end.

(** [True] is won, [False] is lost, [None] is "cannot determine".  With
    integer scores nothing in the body raises, so the [except] branch is
    not reached. *)
Definition check_prediction_result (prediction : string) (home_score away_score : Z)
           (halftime_home halftime_away : option Z) : option bool :=
  let total_goals := home_score + away_score in
  let halftime :=
    match halftime_home, halftime_away with
    | Some hh, Some ha => Some (hh, ha)
    | _, _ => None
    end in
  match (if PyStr.contains "MS" prediction
         then scoped_loops (String.eqb "MS") prediction home_score away_score total_goals
         else None) with
  | Some b => Some b
  | None =>
      if has_halftime_marker prediction then
        match halftime with
        | None => None
        | Some (hh, ha) =>
            match scoped_loops
                    (fun part => String.eqb part "İY" || String.eqb part "IY")%bool
                    prediction hh ha (hh + ha) with
            | Some b => Some b
            | None => check_both_scored_and_1x2 prediction home_score away_score halftime
            end
        end
      else check_both_scored_and_1x2 prediction home_score away_score halftime
  end.

End ApiFootball.

(** ** track_results.py: ResultTracker *)

Module ResultTracker.

(** [match_data], the dict that [get_match_by_teams_and_date] builds; a
    score that is not known is [None]. *)
Record MatchData := mkMatchData {
  fulltime_home : option Z;
  fulltime_away : option Z;
  halftime_home : option Z;
  halftime_away : option Z
}.

(** ['x UST' in pred or 'x ÜST' in pred] *)
Definition over (x pred : string) : bool :=
  (PyStr.contains (x +:+ " UST") pred || PyStr.contains (x +:+ " ÜST") pred)%bool.

Definition won_if (b : bool) : string := if b then "won" else "lost".

(** The [if/elif] chain under ['IY' in pred]; [None] when no test of the
    chain holds and control falls through. *)
Definition halftime_chain (pred : string) (ht_home ht_away : Z) : option string :=
  let ht_total := ht_home + ht_away in
  if over "0.5" pred then Some (won_if (1 <=? ht_total))
  else if over "1.5" pred then Some (won_if (2 <=? ht_total))
  else if over "2.5" pred then Some (won_if (3 <=? ht_total))
  else if (PyStr.contains "EV" pred && over "0.5" pred)%bool then Some (won_if (1 <=? ht_home))
  else if (PyStr.contains "DEP" pred && over "0.5" pred)%bool then Some (won_if (1 <=? ht_away))
  else None.

Definition fulltime_chain (pred : string) (total_goals : Z) : option string :=
  if over "0.5" pred then Some (won_if (1 <=? total_goals))
  else if over "1.5" pred then Some (won_if (2 <=? total_goals))
  else if over "2.5" pred then Some (won_if (3 <=? total_goals))
  else if over "3.5" pred then Some (won_if (4 <=? total_goals))
  else if over "4.5" pred then Some (won_if (5 <=? total_goals))
  else if over "5.5" pred then Some (won_if (6 <=? total_goals))
  else if PyStr.contains "2.5 ALT" pred then Some (won_if (total_goals <? 3))
  else if PyStr.contains "3.5 ALT" pred then Some (won_if (total_goals <? 4))
  else None.

Definition both_scored_chain (pred : string) (ft_home ft_away : Z) : option string :=
  let both_scored := ((0 <? ft_home) && (0 <? ft_away))%bool in
  if PyStr.contains "VAR" pred then Some (won_if both_scored)
  else if PyStr.contains "YOK" pred then Some (won_if (negb both_scored))
  else None.

Definition first_some {A} (a : option A) (b : option A) : option A :=
  match a with
  | Some x => Some x
  | None => b
  end.

(** An empty or absent [match_data] is [None].  The scores are integers
    already, so the [int(...)] conversions do not raise. *)
Definition check_prediction_result (prediction : string)
           (match_data : option MatchData) : string :=
  match match_data with
  | None => "pending"
  | Some d =>
      let pred := PyStr.strip (PyStr.upper prediction) in
      match fulltime_home d, fulltime_away d with
      | Some ft_home, Some ft_away =>
          let ht_home := match halftime_home d with Some h => h | None => 0 end in
          let ht_away := match halftime_away d with Some h => h | None => 0 end in
          let total_goals := ft_home + ft_away in
          let r1 :=
            if (PyStr.contains "IY" pred || PyStr.contains "ILKY" pred)%bool
            then halftime_chain pred ht_home ht_away else None in
          let r2 :=
            if (PyStr.contains "MS" pred || PyStr.contains "MAC" pred)%bool
            then fulltime_chain pred total_goals else None in
          let r3 :=
            if (PyStr.contains "KG" pred || PyStr.contains "KARSILIKLI" pred)%bool
            then both_scored_chain pred ft_home ft_away else None in
          match first_some r1 (first_some r2 r3) with
          | Some r => r
          | None => "pending"
          end
      | _, _ => "pending"
      end
  end.

(** *** track_results *)

(** A row of [predictions] whose result is still 'pending'. *)
Record PendingRow := mkPending {
  row_id : Z;
  row_home_team : string;
  row_away_team : string;
  row_match_date : string;
  row_prediction : string
}.

(** What the tracker talks to.  [api_football.get_match_by_teams_and_date]
    answers [None] for a match that is not found or not finished and on
    every error; [update_prediction_result] answers whether the update
    request for the row went through. *)
Record World := mkWorld {
  get_match_by_teams_and_date : string -> string -> string -> option MatchData;
  update_prediction_result : Z -> string -> bool
}.

(** The counters of the loop and the updates that went through, each with
    the id of its row and the result written. *)
Record Counters := mkCounters {
  updated_count : Z;
  won_count : Z;
  lost_count : Z;
  written : list (Z * string)
}.

(** The [for pred in pending] loop of [track_results]. *)
Fixpoint track_loop (w : World) (pending : list PendingRow) (c : Counters) : Counters :=
  match pending with
  | [] => c
  | pred :: rest =>
      match get_match_by_teams_and_date w (row_home_team pred) (row_away_team pred)
                                        (row_match_date pred) with
      | None => track_loop w rest c
      | Some match_data =>
          let result := check_prediction_result (row_prediction pred) (Some match_data) in
          if negb (String.eqb result "pending") then
            if update_prediction_result w (row_id pred) result then
              track_loop w rest
                {| updated_count := updated_count c + 1;
                   won_count := if String.eqb result "won"
                                then won_count c + 1 else won_count c;
                   lost_count := if String.eqb result "won" then lost_count c
                                 else if String.eqb result "lost"
                                      then lost_count c + 1 else lost_count c;
                   written := written c ++ [(row_id pred, result)] |}
            else track_loop w rest c
          else track_loop w rest c
      end
  end.

(** The summary that [track_results] returns, without its duration. *)
Record Summary := mkSummary {
  success : bool;
  checked : Z;
  updated : Z;
  won : Z;
  lost : Z
}.

(** [track_results] on the rows that [get_pending_predictions] answered. *)
Definition track_results (w : World) (pending : list PendingRow)
  : Summary * list (Z * string) :=
  match pending with
  | [] => ({| success := true; checked := 0; updated := 0; won := 0; lost := 0 |}, [])
  | _ =>
      let c := track_loop w pending
                 {| updated_count := 0; won_count := 0; lost_count := 0; written := [] |} in
      ({| success := true; checked := Z.of_nat (List.length pending);
          updated := updated_count c; won := won_count c; lost := lost_count c |},
       written c)
  end.

End ResultTracker.

(** ** sandbox_evaluator.py: SandboxEvaluator *)

Module Sandbox.

Definition min_sample_size : Z := 30.

(** The second component of the recommendation is a sentence for the
    reviewer; its constructors carry the numbers the sentence prints. *)
Inductive Reason :=
| OnlyPredictions (sample_size needed : Z)
| NoSignificantImprovement
| ReadyForProduction (win_rate_delta : Q)
| NeedsAdjustment (win_rate_delta : Q)
| NotBetterThanBaseline.

Definition _generate_recommendation (sample_size : Z) (win_rate_delta : Q)
           (is_significant : bool) (win_rate : Q) : string * Reason :=
  if sample_size <? min_sample_size
  then ("insufficient_data", OnlyPredictions sample_size min_sample_size)
  else if negb is_significant
  then ("reject", NoSignificantImprovement)
  else if (Qgtb win_rate_delta 5 && Qgtb win_rate 75)%bool
  then ("approve", ReadyForProduction win_rate_delta)
  else if (Qgtb win_rate_delta 0 && Qgtb win_rate 70)%bool
  then ("needs_tuning", NeedsAdjustment win_rate_delta)
  else ("reject", NotBetterThanBaseline).

(** The outcome of the simulation on one fixture. *)
Record Simulated := mkSimulated {
  predicted : bool;
  result_label : string
}.

Record TestResult := mkTestResult {
  total_matches : Z;
  candidate_predictions : Z;
  candidate_wins : Z;
  candidate_losses : Z;
  candidate_win_rate : Q;
  baseline_predictions : Z;
  baseline_wins : Z;
  baseline_losses : Z;
  baseline_win_rate : Q;
  win_rate_delta : Q;
  p_value : Q;
  is_significant : bool;
  recommendation : string;
  recommendation_reason : Reason
}.

(** [[r for r in results if r and r['predicted']]] *)
Definition predictions_of (results : list (option Simulated)) : list Simulated :=
  flat_map (fun r => match r with
                     | Some x => if predicted x then [x] else []
                     | None => []
                     end) results.

Definition count_label (label : string) (l : list Simulated) : Z :=
  Z.of_nat (List.length (List.filter (fun r => String.eqb (result_label r) label) l)).

(** [(wins / total * 100) if total > 0 else 0.0] *)
Definition win_rate (wins total : Z) : Q :=
  if 0 <? total then (inject_Z wins / inject_Z total * 100)%Q else 0%Q.

Section Metrics.

(** [self._proportion_test]: its value comes from the normal distribution
    of scipy, which is not modelled; the metrics are stated for whatever
    p-value it returns. *)
Variable _proportion_test : Z -> Z -> Q -> Q.

(** The rates are kept as computed; the rounding to two decimals of the
    reported fields, which follows the recommendation, is left out. *)
Definition _calculate_test_metrics
           (candidate_results baseline_results : list (option Simulated)) : TestResult :=
  let candidate_preds := predictions_of candidate_results in
  let candidate_total := Z.of_nat (List.length candidate_preds) in
  let candidate_wins := count_label "won" candidate_preds in
  let candidate_losses := count_label "lost" candidate_preds in
  let candidate_win_rate := win_rate candidate_wins candidate_total in
  let baseline_preds := predictions_of baseline_results in
  let baseline_total := Z.of_nat (List.length baseline_preds) in
  let baseline_wins := count_label "won" baseline_preds in
  let baseline_losses := count_label "lost" baseline_preds in
  let baseline_win_rate := win_rate baseline_wins baseline_total in
  let win_rate_delta := (candidate_win_rate - baseline_win_rate)%Q in
  let p_value :=
    if ((min_sample_size <=? candidate_total) && (min_sample_size <=? baseline_total))%bool
    then _proportion_test candidate_wins candidate_total
           (if 0 <? baseline_total
            then (inject_Z baseline_wins / inject_Z baseline_total)%Q
            else (1 # 2)%Q)
    else 1%Q in
  let is_significant :=
    if ((min_sample_size <=? candidate_total) && (min_sample_size <=? baseline_total))%bool
    then Qltb p_value (5 # 100)
    else false in
  let rec := _generate_recommendation candidate_total win_rate_delta
                                      is_significant candidate_win_rate in
  {| total_matches := Z.of_nat (List.length candidate_results);
     candidate_predictions := candidate_total;
     candidate_wins := candidate_wins;
     candidate_losses := candidate_losses;
     candidate_win_rate := candidate_win_rate;
     baseline_predictions := baseline_total;
     baseline_wins := baseline_wins;
     baseline_losses := baseline_losses;
     baseline_win_rate := baseline_win_rate;
     win_rate_delta := win_rate_delta;
     p_value := p_value;
     is_significant := is_significant;
     recommendation := fst rec;
     recommendation_reason := snd rec |}.

End Metrics.

(** *** The simulation on one fixture *)

(** ['home_odds'] or ['away_odds'] of the conditions: a JSON object that
    may have a ['min'] and a ['max']. *)
Record OddsRange := mkRange {
  range_min : option Q;
  range_max : option Q
}.

(** [candidate.conditions] when it is a JSON object.  [other_keys] tells
    whether the object has a key that [_check_conditions] does not read;
    such an object is not empty. *)
Record Conditions := mkConditions {
  cond_home_odds : option OddsRange;
  cond_away_odds : option OddsRange;
  cond_leagues : option (list string);
  other_keys : bool
}.

(** The fields of a candidate that the simulation reads. *)
Record CandidateRule := mkCandidate {
  rule_type : string;
  prediction_type : string;
  conditions : option Conditions
}.

(** A row of [_fetch_historical_matches]; the two scores are never null
    there. *)
Record HistoricalMatch := mkHistorical {
  hm_home_odds : option Q;
  hm_away_odds : option Q;
  hm_league : option string;
  hm_home_score : Z;
  hm_away_score : Z;
  hm_golden_rule_id : option Z;
  hm_actual_outcome : option bool
}.

(** [not conditions] on an object *)
Definition conditions_empty (c : Conditions) : bool :=
  match cond_home_odds c, cond_away_odds c, cond_leagues c with
  | None, None, None => negb (other_keys c)
  | _, _, _ => false
  end.

(** One of the two blocks on odds of [_check_conditions]: [false] where
    the block returns [False], [true] where control goes on. *)
Definition check_odds_range (odds_cond : option OddsRange) (odds : option Q) : bool :=
  match odds_cond with
  | None => true
  | Some c =>
      match odds with
      | None => false
      | Some v =>
          if match range_min c with Some lo => Qltb v lo | None => false end
          then false
          else if match range_max c with Some hi => Qgtb v hi | None => false end
          then false
          else true
      end
  end.

Definition _check_conditions (conditions : option Conditions) (m : HistoricalMatch) : bool :=
  match conditions with
  | None => false
  | Some c =>
      if conditions_empty c then false
      else if negb (check_odds_range (cond_home_odds c) (hm_home_odds m)) then false
      else if negb (check_odds_range (cond_away_odds c) (hm_away_odds m)) then false
      else match cond_leagues c with
           | Some leagues =>
               match hm_league m with
               | Some l => PyStr.mem l leagues
               | None => false
               end
           | None => true
           end
  end.

Definition _evaluate_prediction_outcome (prediction_type : string)
           (home_score away_score : Z) : string :=
  let total_goals := home_score + away_score in
  if String.eqb prediction_type "MS 2.5 ÜST"
  then if Qgtb (inject_Z total_goals) 2.5 then "won" else "lost"
  else if String.eqb prediction_type "MS 2.5 ALT"
  then if Qltb (inject_Z total_goals) 2.5 then "won" else "lost"
  else if String.eqb prediction_type "İY 0.5 ÜST"
  then "unknown"
  else if String.eqb prediction_type "KG VAR"
  then if ((0 <? home_score) && (0 <? away_score))%bool then "won" else "lost"
  else "unknown".

Definition _evaluate_candidate_on_match (candidate : CandidateRule) (m : HistoricalMatch)
  : option Simulated :=
  if String.eqb (rule_type candidate) "json_conditions" then
    if negb (_check_conditions (conditions candidate) m) then None
    else Some {| predicted := true;
                 result_label :=
                   _evaluate_prediction_outcome (prediction_type candidate)
                     (hm_home_score m) (hm_away_score m) |}
  else None.

(** [match.get('golden_rule_id')] is tested for truth: null and 0 fail. *)
Definition _evaluate_golden_rules_on_match (m : HistoricalMatch) : option Simulated :=
  match hm_golden_rule_id m, hm_actual_outcome m with
  | Some rule_id, Some outcome =>
      if Z.eqb rule_id 0 then None
      else Some {| predicted := true;
                   result_label := if outcome then "won" else "lost" |}
  | _, _ => None
  end.

(** [match.get('golden_rule_id') == rule_id], where both may be null. *)
Definition _evaluate_specific_rule_on_match (rule_id : option Z) (m : HistoricalMatch)
  : option Simulated :=
  if bool_decide (hm_golden_rule_id m = rule_id)
  then Some {| predicted := true;
               result_label := match hm_actual_outcome m with
                               | Some true => "won"
                               | _ => "lost"
                               end |}
  else None.

(** What [test_candidate_rule] returns: the record of
    [_insufficient_data_result], whose counts are 0 and whose sentence
    prints the number of matches, or the metrics. *)
Inductive Tested :=
| InsufficientData (match_count : Z)
| Measured (result : TestResult).

(** The field [recommendation] of what is returned. *)
Definition tested_recommendation (t : Tested) : string :=
  match t with
  | InsufficientData _ => "insufficient_data"
  | Measured r => recommendation r
  end.

Section Testing.

Variable _proportion_test : Z -> Z -> Q -> Q.

(** The choice of the baseline in the loop of [test_candidate_rule]. *)
Definition baseline_on_match (baseline_type : string) (baseline_rule_id : option Z)
           (m : HistoricalMatch) : option Simulated :=
  if String.eqb baseline_type "golden_rules" then _evaluate_golden_rules_on_match m
  else if String.eqb baseline_type "specific_rule"
  then _evaluate_specific_rule_on_match baseline_rule_id m
  else None.

(** [test_candidate_rule] on the candidate and the matches that the two
    queries answered; the writes to the tables of the sandbox are left
    out. *)
Definition test_candidate_rule (candidate : CandidateRule)
           (matches : list HistoricalMatch) (baseline_type : string)
           (baseline_rule_id : option Z) : Tested :=
  if Z.of_nat (List.length matches) <? min_sample_size
  then InsufficientData (Z.of_nat (List.length matches))
  else Measured (_calculate_test_metrics _proportion_test
                   (map (_evaluate_candidate_on_match candidate) matches)
                   (map (baseline_on_match baseline_type baseline_rule_id) matches)).

End Testing.

End Sandbox.

(** ** learning_engine.py: LearningEngine *)

Module Learning.

Record RulePerformance := mkPerf {
  rule_id : Z;
  rule_code : string;
  total_predictions : Z;
  won_count : Z;
  lost_count : Z;
  success_rate : Q;
  baseline_success_rate : Q;
  delta : Q;
  confidence_interval : Q * Q;
  p_value : Q;
  is_significant : bool
}.



Definition _generate_recommendation (perf : RulePerformance) : string :=
  if Qltb (delta perf) (-10)
  then "Disable rule temporarily or reduce confidence_base by "
         +:+ pretty (Z.abs (py_int (delta perf))) +:+ " points immediately"
  else if Qltb (delta perf) (-7)
  then "Consider reducing confidence_base by "
         +:+ pretty (Z.abs (py_int (delta perf * (8 # 10)))) +:+ " points or adding filters"
  else "Monitor closely for another week before action".







(** *** Statistical utilities *)

Section Statistics.

Local Open Scope R_scope.

(** [stats.norm.ppf], the quantile function of the normal distribution. *)
Variable norm_ppf : R -> R.

Definition _wilson_confidence_interval (successes total : Z) (confidence : R) : R * R :=
  if (total =? 0)%Z then (0, 0)
  else
    let p := IZR successes / IZR total in
    let z := norm_ppf ((1 + confidence) / 2) in
    let denominator := 1 + z ^ 2 / IZR total in
    let center := (p + z ^ 2 / (2 * IZR total)) / denominator in
    let margin :=
      z * sqrt ((p * (1 - p) + z ^ 2 / (4 * IZR total)) / IZR total) / denominator in
    (Rmax 0 (center - margin), Rmin 1 (center + margin)).

End Statistics.

Section Significance.

Local Open Scope R_scope.

(** [stats.norm.cdf], the distribution function of the normal
    distribution. *)
Variable norm_cdf : R -> R.

(** On real numbers; for an expected proportion between 0 and 1, where the
    argument of the square root is not negative. *)
Definition _proportion_test (successes total : Z) (expected_proportion : R) : R :=
  if (total =? 0)%Z then 1
  else
    let observed := IZR successes / IZR total in
    let se := sqrt (expected_proportion * (1 - expected_proportion) / IZR total) in
    if Req_dec_T se 0 then 1
    else
      let z_score := (observed - expected_proportion) / se in
      2 * (1 - norm_cdf (Rabs z_score)).

End Significance.

(** *** save_suggestions *)




End Learning.

(** ** golden_rules.py: the catalog *)

Module GoldenRules.

(** [GOLDEN_RULES], rule by rule in the order of the source; a field that a
    rule leaves out has the default of the dataclass. *)
Definition GOLDEN_RULES : list GoldenRule :=
  [ {| id := 30; name := "4-5 gol 2.33";
       primary_odds := [("4-5", 2.33%Q)];
       secondary_odds := None;
       exclude_odds := None;
       predictions := ["İY 0.5 ÜST"; "İY 1.5 ÜST"; "İY EV 0.5 ÜST"];
       confidence_base := 90; importance := "önemli"; notes := "" |};
    {| id := 16; name := "4-5 gol 2.38";
       primary_odds := [("4-5", 2.38%Q)];
       secondary_odds := None;
       exclude_odds := None;
       predictions := ["İY 0.5 ÜST"; "MS 2.5 ÜST"; "MS 3.5 ÜST"; "İY 1.5 ÜST"; "İY EV 0.5 ÜST"; "KG VAR"];
       confidence_base := 91; importance := "önemli"; notes := "" |};
    {| id := 2; name := "4-5 gol 2.40";
       primary_odds := [("4-5", 2.40%Q)];
       secondary_odds := None;
       exclude_odds := None;
       predictions := ["MS 1.5 ÜST"; "MS 2.5 ÜST"; "EV MS 0.5 ÜST"];
       confidence_base := 89; importance := "normal"; notes := "" |};
    {| id := 50; name := "4-5 gol 2.43";
       primary_odds := [("4-5", 2.43%Q)];
       secondary_odds := None;
       exclude_odds := None;
       predictions := ["İY 0.5 ÜST"; "İY 1.5 ÜST"; "İY EV 0.5 ÜST"; "MS 1.5 ÜST"; "MS 2.5 ÜST"; "MS 3.5 ÜST"];
       confidence_base := 88; importance := "önemli"; notes := "" |};
    {| id := 40; name := "4-5 gol 2.48";
       primary_odds := [("4-5", 2.48%Q)];
       secondary_odds := None;
       exclude_odds := None;
       predictions := ["İY 0.5 ÜST"; "MS 1.5 ÜST"; "MS DEP 0.5 ÜST"; "MS EV 0.5 ÜST"; "KG VAR"];
       confidence_base := 88; importance := "normal"; notes := "" |};
    {| id := 48; name := "4-5 gol 2.51 + 2.5 üst 1.23";
       primary_odds := [("4-5", 2.51%Q)];
       secondary_odds := Some [("2,5 Ü", 1.23%Q)];
       exclude_odds := None;
       predictions := ["İY 0.5 ÜST"; "İY EV 0.5 ÜST"; "MS 2.5 ÜST"; "MS 3.5 ÜST"; "MS DEP 1.5 ÜST"; "KG VAR"];
       confidence_base := 90; importance := "normal"; notes := "" |};
    {| id := 44; name := "4-5 gol 2.52";
       primary_odds := [("4-5", 2.52%Q)];
       secondary_odds := None;
       exclude_odds := None;
       predictions := ["İY 0.5 ÜST"; "İY EV 0.5 ÜST"; "İY 1.5 ÜST"; "MS 1.5 ÜST"];
       confidence_base := 87; importance := "normal"; notes := "" |};
    {| id := 47; name := "4-5 gol 2.54";
       primary_odds := [("4-5", 2.54%Q)];
       secondary_odds := None;
       exclude_odds := None;
       predictions := ["İY 0.5 ÜST"; "İY 1.5 ÜST"; "İY EV 0.5 ÜST"; "MS EV 1.5 ÜST"; "MS 2.5 ÜST"; "MS 3.5 ÜST"; "KG VAR"];
       confidence_base := 89; importance := "normal"; notes := "" |};
    {| id := 10; name := "4-5 gol 2.57";
       primary_odds := [("4-5", 2.57%Q)];
       secondary_odds := None;
       exclude_odds := None;
       predictions := ["MS 2.5 ÜST"; "MS 3.5 ÜST"; "MS DEP 1.5 ÜST"; "İY 0.5 ÜST"; "İY DEP 0.5 ÜST"];
       confidence_base := 90; importance := "önemli"; notes := "" |};
    {| id := 23; name := "4-5 gol 2.59";
       primary_odds := [("4-5", 2.59%Q)];
       secondary_odds := None;
       exclude_odds := None;
       predictions := ["MS 2.5 ÜST"; "MS 3.5 ÜST"; "MS EV 1.5 ÜST"; "İY 0.5 ÜST"; "İY 1.5 ÜST"];
       confidence_base := 89; importance := "özel"; notes := "" |};
    {| id := 6; name := "4-5 gol 2.60";
       primary_odds := [("4-5", 2.60%Q)];
       secondary_odds := None;
       exclude_odds := None;
       predictions := ["İY 0.5 ÜST"; "MS EV 0.5 ÜST"; "MS 1.5 ÜST"];
       confidence_base := 88; importance := "normal"; notes := "" |};
    {| id := 61; name := "4-5 gol 2.60 + 2.5 alt 2.83";
       primary_odds := [("4-5", 2.60%Q)];
       secondary_odds := Some [("2,5 A", 2.83%Q)];
       exclude_odds := None;
       predictions := ["İY 0.5 ÜST"; "İY 1.5 ÜST"; "İY EV 0.5 ÜST"; "MS 1.5 ÜST"; "MS 2.5 ÜST"; "MS 3.5 ÜST"];
       confidence_base := 90; importance := "normal"; notes := "" |};
    {| id := 22; name := "4-5 gol 2.61";
       primary_odds := [("4-5", 2.61%Q)];
       secondary_odds := None;
       exclude_odds := None;
       predictions := ["MS 2.5 ÜST"; "MS 1.5 ÜST"; "MS EV 1.5 ÜST"; "MS EV 0.5 ÜST"];
       confidence_base := 88; importance := "özel"; notes := "" |};
    {| id := 36; name := "4-5 gol 2.62";
       primary_odds := [("4-5", 2.62%Q)];
       secondary_odds := None;
       exclude_odds := None;
       predictions := ["İY 0.5 ÜST"; "İY 1.5 ÜST"; "İY EV 0.5 ÜST"; "MS EV 1.5 ÜST"; "MS 2.5 ÜST"];
       confidence_base := 89; importance := "önemli"; notes := "" |};
    {| id := 32; name := "4-5 gol 2.63";
       primary_odds := [("4-5", 2.63%Q)];
       secondary_odds := None;
       exclude_odds := None;
       predictions := ["MS 1.5 ÜST"; "MS 2.5 ÜST"; "MS EV 1.5 ÜST"; "KG VAR"];
       confidence_base := 89; importance := "önemli"; notes := "" |};
    {| id := 25; name := "4-5 gol 2.64";
       primary_odds := [("4-5", 2.64%Q)];
       secondary_odds := None;
       exclude_odds := None;
       predictions := ["MS 1.5 ÜST"; "İY 0.5 ÜST"];
       confidence_base := 87; importance := "önemli"; notes := "" |};
    {| id := 251; name := "4-5 gol 2.64 + 3.5 alt 1.57";
       primary_odds := [("4-5", 2.64%Q)];
       secondary_odds := Some [("3,5 A", 1.57%Q)];
       exclude_odds := None;
       predictions := ["İY 0.5 ÜST"; "İY 1.5 ÜST"; "İY EV 0.5 ÜST"; "MS 2.5 ÜST"; "MS 3.5 ÜST"; "MS EV 1.5 ÜST"];
       confidence_base := 90; importance := "normal"; notes := "" |};
    {| id := 252; name := "4-5 gol 2.64 + 3.5 üst 1.89";
       primary_odds := [("4-5", 2.64%Q)];
       secondary_odds := Some [("3,5 Ü", 1.89%Q)];
       exclude_odds := None;
       predictions := ["MS 2.5 ÜST"; "MS 1.5 ÜST"; "İY 0.5 ÜST"; "İY 1.5 ÜST"];
       confidence_base := 89; importance := "normal"; notes := "" |};
    {| id := 28; name := "4-5 gol 2.66";
       primary_odds := [("4-5", 2.66%Q)];
       secondary_odds := None;
       exclude_odds := None;
       predictions := ["İY 0.5 ÜST"; "İY EV 0.5 ÜST"; "MS 1.5 ÜST"; "MS 2.5 ÜST"; "MS EV 1.5 ÜST"; "KG VAR"; "MS DEP 0.5 ÜST"];
       confidence_base := 90; importance := "önemli"; notes := "" |};
    {| id := 27; name := "4-5 gol 2.67";
       primary_odds := [("4-5", 2.67%Q)];
       secondary_odds := None;
       exclude_odds := None;
       predictions := ["İY 0.5 ÜST"; "İY EV 0.5 ÜST"; "MS 1.5 ÜST"; "MS 2.5 ÜST"; "MS EV 1.5 ÜST"; "MS DEP 0.5 ÜST"; "KG VAR"];
       confidence_base := 90; importance := "önemli"; notes := "" |};
    {| id := 42; name := "4-5 gol 2.68";
       primary_odds := [("4-5", 2.68%Q)];
       secondary_odds := None;
       exclude_odds := None;
       predictions := ["İY 0.5 ÜST"; "İY 1.5 ÜST"; "İY KG VAR"; "MS KG VAR"; "MS 1.5 ÜST"];
       confidence_base := 88; importance := "normal"; notes := "" |};
    {| id := 24; name := "4-5 gol 2.70 + 2.5 üst 1.34";
       primary_odds := [("4-5", 2.70%Q)];
       secondary_odds := Some [("2,5 Ü", 1.34%Q)];
       exclude_odds := None;
       predictions := ["MS 1.5 ÜST"; "MS 2.5 ÜST"; "KG VAR"; "MS DEP 0.5 ÜST"];
       confidence_base := 89; importance := "normal"; notes := "" |};
    {| id := 241; name := "4-5 gol 2.70 + 2.5 üst 1.35";
       primary_odds := [("4-5", 2.70%Q)];
       secondary_odds := Some [("2,5 Ü", 1.35%Q)];
       exclude_odds := None;
       predictions := ["İY 0.5 ÜST"; "İY DEP 0.5 ÜST"; "MS 1.5 ÜST"; "KG VAR"];
       confidence_base := 89; importance := "normal"; notes := "" |};
    {| id := 29; name := "4-5 gol 2.71";
       primary_odds := [("4-5", 2.71%Q)];
       secondary_odds := None;
       exclude_odds := None;
       predictions := ["İY 0.5 ÜST"; "İY 1.5 ÜST"; "İY EV 0.5 ÜST"; "MS 1.5 ÜST"; "MS 2.5 ÜST"; "MS DEP 0.5 ÜST"; "KG VAR"; "MS 3.5 ÜST"];
       confidence_base := 91; importance := "önemli"; notes := "" |};
    {| id := 11; name := "4-5 gol 2.74";
       primary_odds := [("4-5", 2.74%Q)];
       secondary_odds := None;
       exclude_odds := None;
       predictions := ["İY 0.5 ÜST"; "İY 1.5 ÜST"; "İY EV 0.5 ÜST"; "MS DEP 0.5 ÜST"; "MS 2.5 ÜST"; "KG VAR"];
       confidence_base := 89; importance := "normal"; notes := "" |};
    {| id := 3; name := "4-5 gol 2.79";
       primary_odds := [("4-5", 2.79%Q)];
       secondary_odds := None;
       exclude_odds := None;
       predictions := ["İY 0.5 ÜST"];
       confidence_base := 86; importance := "normal"; notes := "" |};
    {| id := 4; name := "4-5 gol 2.80 + 3.5 alt 1.53";
       primary_odds := [("4-5", 2.80%Q)];
       secondary_odds := Some [("3,5 A", 1.53%Q)];
       exclude_odds := None;
       predictions := ["İY 0.5 ÜST"; "İY EV 0.5 ÜST"; "MS 1.5 ÜST"; "MS 2.5 ÜST"; "MS 3.5 ÜST"];
       confidence_base := 90; importance := "önemli"; notes := "" |};
    {| id := 401; name := "4-5 gol 2.80 + 3.5 alt 1.45";
       primary_odds := [("4-5", 2.80%Q)];
       secondary_odds := Some [("3,5 A", 1.45%Q)];
       exclude_odds := None;
       predictions := ["İY 0.5 ÜST"; "MS 1.5 ÜST"; "MS 2.5 ÜST"; "MS DEP 1.5 ÜST"];
       confidence_base := 89; importance := "normal"; notes := "" |};
    {| id := 402; name := "4-5 gol 2.80 + 2.5 üst 1.38";
       primary_odds := [("4-5", 2.80%Q)];
       secondary_odds := Some [("2,5 Ü", 1.38%Q)];
       exclude_odds := None;
       predictions := ["İY 0.5 ÜST"; "MS 1.5 ÜST"; "MS 2.5 ÜST"; "MS 3.5 ÜST"; "MS EV 1.5 ÜST"; "KG VAR"];
       confidence_base := 90; importance := "normal"; notes := "" |};
    {| id := 1; name := "4-5 gol 2.85 + 3.5 alt 1.43";
       primary_odds := [("4-5", 2.85%Q)];
       secondary_odds := Some [("3,5 A", 1.43%Q)];
       exclude_odds := None;
       predictions := ["MS 1.5 ÜST"; "MS 2.5 ÜST"; "KG VAR"];
       confidence_base := 88; importance := "normal"; notes := "" |};
    {| id := 8; name := "4-5 gol 2.86";
       primary_odds := [("4-5", 2.86%Q)];
       secondary_odds := None;
       exclude_odds := None;
       predictions := ["İY 0.5 ÜST"];
       confidence_base := 86; importance := "normal"; notes := "" |};
    {| id := 81; name := "4-5 gol 2.86 + 3.5 alt 1.43";
       primary_odds := [("4-5", 2.86%Q)];
       secondary_odds := Some [("3,5 A", 1.43%Q)];
       exclude_odds := None;
       predictions := ["MS 2.5 ÜST"; "MS 3.5 ÜST"; "MS EV 1.5 ÜST"; "İY 0.5 ÜST"];
       confidence_base := 89; importance := "normal"; notes := "" |};
    {| id := 19; name := "4-5 gol 2.91";
       primary_odds := [("4-5", 2.91%Q)];
       secondary_odds := None;
       exclude_odds := None;
       predictions := ["MS 1.5 ÜST"];
       confidence_base := 87; importance := "önemli"; notes := "" |};
    {| id := 191; name := "4-5 gol 2.91 + 2.5 üst 1.43";
       primary_odds := [("4-5", 2.91%Q)];
       secondary_odds := Some [("2,5 Ü", 1.43%Q)];
       exclude_odds := None;
       predictions := ["MS 2.5 ÜST"; "MS DEP 1.5 ÜST"; "İY 0.5 ÜST"; "İY DEP 0.5 ÜST"];
       confidence_base := 89; importance := "normal"; notes := "" |};
    {| id := 192; name := "4-5 gol 2.91 + 2.5 üst 1.44";
       primary_odds := [("4-5", 2.91%Q)];
       secondary_odds := Some [("2,5 Ü", 1.44%Q)];
       exclude_odds := None;
       predictions := ["MS 1.5 ÜST"];
       confidence_base := 87; importance := "normal"; notes := "" |};
    {| id := 193; name := "4-5 gol 2.91 + 2.5 üst 1.45";
       primary_odds := [("4-5", 2.91%Q)];
       secondary_odds := Some [("2,5 Ü", 1.45%Q)];
       exclude_odds := None;
       predictions := ["MS 2.5 ÜST"; "MS 3.5 ÜST"; "KG VAR"; "MS DEP 1.5 ÜST"; "İY DEP 0.5 ÜST"; "İY 1.5 ÜST"];
       confidence_base := 90; importance := "normal"; notes := "" |};
    {| id := 18; name := "4-5 gol 2.92";
       primary_odds := [("4-5", 2.92%Q)];
       secondary_odds := None;
       exclude_odds := None;
       predictions := ["MS 1.5 ÜST"];
       confidence_base := 87; importance := "normal"; notes := "" |};
    {| id := 26; name := "4-5 gol 2.96";
       primary_odds := [("4-5", 2.96%Q)];
       secondary_odds := None;
       exclude_odds := None;
       predictions := ["MS 0.5 ÜST"];
       confidence_base := 85; importance := "önemli"; notes := "" |};
    {| id := 261; name := "4-5 gol 2.96 + 2-3 gol 1.93";
       primary_odds := [("4-5", 2.96%Q)];
       secondary_odds := Some [("2-3", 1.93%Q)];
       exclude_odds := None;
       predictions := ["İY 0.5 ÜST"; "MS 1.5 ÜST"; "MS 2.5 ÜST"; "MS 3.5 ÜST"; "MS DEP 0.5 ÜST"; "MS DEP 1.5 ÜST"; "İY DEP 0.5 ÜST"];
       confidence_base := 90; importance := "normal"; notes := "" |};
    {| id := 262; name := "4-5 gol 2.96 + 3.5 alt 1.39";
       primary_odds := [("4-5", 2.96%Q)];
       secondary_odds := Some [("3,5 A", 1.39%Q)];
       exclude_odds := None;
       predictions := ["İY 0.5 ÜST"; "MS 1.5 ÜST"; "MS 2.5 ÜST"; "MS 3.5 ÜST"];
       confidence_base := 89; importance := "normal"; notes := "" |};
    {| id := 13; name := "4-5 gol 2.97 + 3.5 üst 2.28";
       primary_odds := [("4-5", 2.97%Q)];
       secondary_odds := Some [("3,5 Ü", 2.28%Q)];
       exclude_odds := None;
       predictions := ["MS 1.5 ÜST"; "MS DEP 0.5 ÜST"];
       confidence_base := 87; importance := "normal"; notes := "" |};
    {| id := 131; name := "4-5 gol 2.97 + 3.5 üst 2.28 + 2.5 alt 2.21";
       primary_odds := [("4-5", 2.97%Q)];
       secondary_odds := Some [("3,5 Ü", 2.28%Q); ("2,5 A", 2.21%Q)];
       exclude_odds := None;
       predictions := ["MS 2.5 ÜST"; "MS 3.5 ÜST"; "MS DEP 0.5 ÜST"; "MS DEP 1.5 ÜST"];
       confidence_base := 89; importance := "normal"; notes := "" |};
    {| id := 1301; name := "4-5 gol 2.97 + 3.5 üst 2.27";
       primary_odds := [("4-5", 2.97%Q)];
       secondary_odds := Some [("3,5 Ü", 2.27%Q)];
       exclude_odds := None;
       predictions := ["MS 1.5 ÜST"; "MS DEP 0.5 ÜST"];
       confidence_base := 87; importance := "normal"; notes := "" |};
    {| id := 1302; name := "4-5 gol 2.97 + 2.5 üst 1.46";
       primary_odds := [("4-5", 2.97%Q)];
       secondary_odds := Some [("2,5 Ü", 1.46%Q)];
       exclude_odds := None;
       predictions := ["MS 1.5 ÜST"; "MS DEP 0.5 ÜST"];
       confidence_base := 87; importance := "normal"; notes := "" |};
    {| id := 45; name := "4-5 gol 2.98 + 3.5 alt 1.43";
       primary_odds := [("4-5", 2.98%Q)];
       secondary_odds := Some [("3,5 A", 1.43%Q)];
       exclude_odds := None;
       predictions := ["İY 0.5 ÜST"; "İY 1.5 ÜST"; "İY EV 0.5 ÜST"; "MS 2.5 ÜST"; "MS 3.5 ÜST"; "KG VAR"];
       confidence_base := 90; importance := "normal"; notes := "" |};
    {| id := 14; name := "4-5 gol 3.01 + 2.5 üst 1.48";
       primary_odds := [("4-5", 3.01%Q)];
       secondary_odds := Some [("2,5 Ü", 1.48%Q)];
       exclude_odds := None;
       predictions := ["MS 2.5 ÜST"; "MS 3.5 ÜST"; "İY 0.5 ÜST"; "İY 1.5 ÜST"; "KG VAR"; "MS DEP 0.5 ÜST"; "MS DEP 1.5 ÜST"];
       confidence_base := 91; importance := "önemli"; notes := "" |};
    {| id := 38; name := "4-5 gol 3.04";
       primary_odds := [("4-5", 3.04%Q)];
       secondary_odds := None;
       exclude_odds := None;
       predictions := ["İY 0.5 ÜST"; "İY DEP 0.5 ÜST"; "MS 1.5 ÜST"; "MS EV 0.5 ÜST"; "MS DEP 0.5 ÜST"; "KG VAR"];
       confidence_base := 89; importance := "önemli"; notes := "" |};
    {| id := 43; name := "4-5 gol 3.07";
       primary_odds := [("4-5", 3.07%Q)];
       secondary_odds := None;
       exclude_odds := None;
       predictions := ["İY 0.5 ÜST"; "MS 1.5 ÜST"; "MS 2.5 ÜST"; "MS 3.5 ÜST"; "MS DEP 1.5 ÜST"; "KG VAR"];
       confidence_base := 89; importance := "normal"; notes := "" |};
    {| id := 9; name := "4-5 gol 3.15 (KG VAR 1.50 HARİÇ)";
       primary_odds := [("4-5", 3.15%Q)];
       secondary_odds := None;
       exclude_odds := Some [("VAR", 1.50%Q)];
       predictions := ["İY 0.5 ÜST"; "MS 2.5 ÜST"; "MS 3.5 ÜST"];
       confidence_base := 88; importance := "önemli"; notes := "" |};
    {| id := 7; name := "4-5 gol 3.19 + 2.5 alt 2.01";
       primary_odds := [("4-5", 3.19%Q)];
       secondary_odds := Some [("2,5 A", 2.01%Q)];
       exclude_odds := None;
       predictions := ["MS 0.5 ÜST"; "MS EV 0.5 ÜST"];
       confidence_base := 86; importance := "normal"; notes := "" |};
    {| id := 41; name := "4-5 gol 3.55";
       primary_odds := [("4-5", 3.55%Q)];
       secondary_odds := None;
       exclude_odds := None;
       predictions := ["İY 0.5 ÜST"];
       confidence_base := 85; importance := "normal"; notes := "" |};
    {| id := 12; name := "4-5 gol 3.65 + 3.5 alt 1.21";
       primary_odds := [("4-5", 3.65%Q)];
       secondary_odds := Some [("3,5 A", 1.21%Q)];
       exclude_odds := None;
       predictions := ["MS 1.5 ÜST"; "MS 2.5 ÜST"; "MS DEP 1.5 ÜST"];
       confidence_base := 87; importance := "normal"; notes := "" |};
    {| id := 49; name := "4-5 gol 3.70 + 2-3 gol 1.82";
       primary_odds := [("4-5", 3.70%Q)];
       secondary_odds := Some [("2-3", 1.82%Q)];
       exclude_odds := None;
       predictions := ["İY 0.5 ÜST"; "MS 1.5 ÜST"; "MS 2.5 ÜST"; "MS 3.5 ÜST"; "KG VAR"; "MS DEP 0.5 ÜST"];
       confidence_base := 88; importance := "normal"; notes := "" |};
    {| id := 20; name := "4-5 gol 3.97 + 2.5 alt 1.66";
       primary_odds := [("4-5", 3.97%Q)];
       secondary_odds := Some [("2,5 A", 1.66%Q)];
       exclude_odds := None;
       predictions := ["MS 1.5 ÜST"; "MS 2.5 ÜST"; "KG VAR"; "MS DEP 0.5 ÜST"; "İY 0.5 ÜST"; "İY 1.5 ÜST"; "İY KG VAR"; "İY SKOR 1-1"];
       confidence_base := 90; importance := "önemli"; notes := "" |};
    {| id := 5; name := "4-5 gol 4.01";
       primary_odds := [("4-5", 4.01%Q)];
       secondary_odds := None;
       exclude_odds := None;
       predictions := ["İY 0.5 ÜST"];
       confidence_base := 85; importance := "normal"; notes := "" |};
    {| id := 51; name := "4-5 gol 4.01 + 2-3 gol 1.83";
       primary_odds := [("4-5", 4.01%Q)];
       secondary_odds := Some [("2-3", 1.83%Q)];
       exclude_odds := None;
       predictions := ["İY 0.5 ÜST"; "MS 1.5 ÜST"; "MS 2.5 ÜST"; "MS 3.5 ÜST"; "KG VAR"; "MS DEP 1.5 ÜST"; "İY DEP 0.5 ÜST"];
       confidence_base := 88; importance := "normal"; notes := "" |};
    {| id := 35; name := "4-5 gol 4.15 + 2.5 üst 1.91";
       primary_odds := [("4-5", 4.15%Q)];
       secondary_odds := Some [("2,5 Ü", 1.91%Q)];
       exclude_odds := None;
       predictions := ["MS DEP 0.5 ÜST"; "MS 1.5 ÜST"];
       confidence_base := 86; importance := "normal"; notes := "" |};
    {| id := 34; name := "4-5 gol 4.19";
       primary_odds := [("4-5", 4.19%Q)];
       secondary_odds := None;
       exclude_odds := None;
       predictions := ["İY 0.5 ÜST"; "MS 1.5 ÜST"];
       confidence_base := 85; importance := "normal"; notes := "" |};
    {| id := 46; name := "4-5 gol 4.22";
       primary_odds := [("4-5", 4.22%Q)];
       secondary_odds := None;
       exclude_odds := None;
       predictions := ["KG VAR"];
       confidence_base := 84; importance := "normal"; notes := "" |};
    {| id := 21; name := "4-5 gol 4.47";
       primary_odds := [("4-5", 4.47%Q)];
       secondary_odds := None;
       exclude_odds := None;
       predictions := ["MS 1.5 ÜST"; "MS DEP 0.5 ÜST"];
       confidence_base := 85; importance := "normal"; notes := "" |};
    {| id := 31; name := "4-5 gol 4.48";
       primary_odds := [("4-5", 4.48%Q)];
       secondary_odds := None;
       exclude_odds := None;
       predictions := ["İY 0.5 ÜST"; "İY DEP 0.5 ÜST"; "MS 1.5 ÜST"; "KG VAR"];
       confidence_base := 86; importance := "önemli"; notes := "" |};
    {| id := 33; name := "4-5 gol 4.76 + 3.5 alt 1.10";
       primary_odds := [("4-5", 4.76%Q)];
       secondary_odds := Some [("3,5 A", 1.10%Q)];
       exclude_odds := None;
       predictions := ["İY 0.5 ÜST"; "İY EV 0.5 ÜST"];
       confidence_base := 85; importance := "normal"; notes := "" |} ].

Definition get_rules_by_importance (importance_level : string) : list GoldenRule :=
  List.filter (fun r => String.eqb (importance r) importance_level) GOLDEN_RULES.

Definition get_high_confidence_rules (min_confidence : Z) : list GoldenRule :=
  List.filter (fun r => min_confidence <=? confidence_base r) GOLDEN_RULES.

End GoldenRules.

(** ** excel_parser.py: the odds of an uploaded row *)

Module ExcelParser.

(** A cell of the sheet: empty (NaN), a number, or text. *)
Inductive Cell :=
| CellNaN
| CellNum (v : Q)
| CellStr (s : string).

Definition odds_columns : list (string * string) :=
  [ ("1", "oran_1"); ("0", "oran_0"); ("2", "oran_2");
    ("2,5 A", "oran_25_alt"); ("2,5 Ü", "oran_25_ust");
    ("3,5 A", "oran_35_alt"); ("3,5 Ü", "oran_35_ust");
    ("VAR", "oran_var"); ("4-5", "oran_45") ].

(** The value stored for a cell, if any: nothing for NaN and for the empty
    text; a text has its comma turned into a point and is given to [float],
    whose exception is swallowed. *)
Definition parse_cell (c : Cell) : option Q :=
  match c with
  | CellNaN => None
  | CellNum v => Some v
  | CellStr s =>
      if String.eqb s "" then None
      else ApiFootball.py_float (PyStr.replace "," "." s)
  end.

(** The loop over [odds_columns] of [parse_excel_file]; [row] maps the
    names of the columns that the sheet has to the cells of the row. *)
Definition parse_odds (row : gmap string Cell) : gmap string (option Q) :=
  fold_left
    (fun opening_odds (col : string * string) =>
       match row !! fst col with
       | Some val =>
           match parse_cell val with
           | Some v => <[snd col := Some v]> opening_odds
           | None => opening_odds
           end
       | None => opening_odds
       end)
    odds_columns ∅.

(** ['opening_odds': opening_odds if opening_odds else None] *)
Definition opening_odds_of (row : gmap string Cell) : option (gmap string (option Q)) :=
  if bool_decide (parse_odds row = ∅) then None else Some (parse_odds row).

End ExcelParser.

(** ** api_football.py and live_score_updater.py: status and scores *)

Module Feed.

(** A fixture of the score feed with what [get_match_status] reads:
    [fixture["fixture"]["status"]], [fixture["goals"]] and
    [fixture["score"]["halftime"]], which is [None] here when it is absent,
    null or the empty object. *)
Record FeedFixture := mkFeedFixture {
  teams : ApiFootball.Fixture;
  status_short : string;
  elapsed : option Z;
  goals_home : option Z;
  goals_away : option Z;
  halftime : option (option Z * option Z)
}.

Definition status_map : list (string * string) :=
  [ ("TBD", "not_started"); ("NS", "not_started");
    ("1H", "live"); ("HT", "halftime"); ("2H", "live"); ("ET", "live"); ("P", "live");
    ("FT", "finished"); ("AET", "finished"); ("PEN", "finished"); ("BT", "finished");
    ("SUSP", "suspended"); ("INT", "interrupted"); ("PST", "postponed");
    ("CANC", "cancelled"); ("ABD", "abandoned"); ("AWD", "awarded");
    ("WO", "walkover"); ("LIVE", "live") ].

(** [status_map.get(status)] *)
Fixpoint status_get (table : list (string * string)) (status : string) : option string :=
  match table with
  | [] => None
  | (k, v) :: rest => if String.eqb status k then Some v else status_get rest status
  end.

Record MatchStatus := mkMatchStatus {
  status : string;
  ms_status_short : string;
  home_score : Z;
  away_score : Z;
  halftime_home : option Z;
  halftime_away : option Z;
  ms_elapsed : option Z;
  is_live : bool;
  is_finished : bool
}.

Definition get_match_status (fixture : FeedFixture) : MatchStatus :=
  let halftime_home := match halftime fixture with Some h => fst h | None => None end in
  let halftime_away := match halftime fixture with Some h => snd h | None => None end in
  {| status := match status_get status_map (status_short fixture) with
               | Some s => s
               | None => "unknown"
               end;
     ms_status_short := status_short fixture;
     home_score := match goals_home fixture with Some g => g | None => 0 end;
     away_score := match goals_away fixture with Some g => g | None => 0 end;
     halftime_home := halftime_home;
     halftime_away := halftime_away;
     ms_elapsed := elapsed fixture;
     is_live := bool_decide (status_get status_map (status_short fixture) = Some "live");
     is_finished :=
       bool_decide (status_get status_map (status_short fixture) = Some "finished") |}.

(** The loop of [match_fixture_by_teams] on whole fixtures; it reads the
    two names only. *)
Fixpoint match_loop (home_norm away_norm : string) (home_words away_words : gset string)
         (fixtures : list FeedFixture) (best_match : option FeedFixture) (best_score : Z)
  : option FeedFixture :=
  match fixtures with
  | [] => best_match
  | fixture :: rest =>
      let api_home := ApiFootball.home_name (teams fixture) in
      let api_away := ApiFootball.away_name (teams fixture) in
      let api_home_norm := ApiFootball.normalize api_home in
      let api_away_norm := ApiFootball.normalize api_away in
      let api_home_words := ApiFootball.get_key_words api_home in
      let api_away_words := ApiFootball.get_key_words api_away in
      if (String.eqb home_norm api_home_norm && String.eqb away_norm api_away_norm)%bool
      then Some fixture
      else
        let home_score :=
          ApiFootball.side_score home_norm api_home_norm home_words api_home_words in
        let away_score :=
          ApiFootball.side_score away_norm api_away_norm away_words api_away_words in
        if ((1 <=? home_score) && (1 <=? away_score))%bool then
          let total_score := home_score + away_score in
          if best_score <? total_score
          then match_loop home_norm away_norm home_words away_words rest
                          (Some fixture) total_score
          else match_loop home_norm away_norm home_words away_words rest
                          best_match best_score
        else match_loop home_norm away_norm home_words away_words rest
                        best_match best_score
  end.

Definition match_fixture_by_teams (fixtures : list FeedFixture)
           (home_team away_team : string) : option FeedFixture :=
  match_loop (ApiFootball.normalize home_team) (ApiFootball.normalize away_team)
             (ApiFootball.get_key_words home_team) (ApiFootball.get_key_words away_team)
             fixtures None 0.

(** [s.split(sep)[0]] for a separator of one character *)
Fixpoint split_first (sep : ascii) (s : string) : string :=
  match s with
  | EmptyString => EmptyString
  | String c s' => if Ascii.eqb c sep then EmptyString else String c (split_first sep s')
  end.

(** The date of [get_match_by_teams_and_date]. *)
Definition date_str_of (match_date : string) : string :=
  if (PyStr.contains "T" match_date || PyStr.contains " " match_date)%bool
  then split_first " " (split_first "T" match_date)
  else match_date.

(** [get_match_by_teams_and_date]; [get_fixtures_by_date] answers the
    fixtures of a date, none on an error of the feed. *)
Definition get_match_by_teams_and_date (get_fixtures_by_date : string -> list FeedFixture)
           (home_team away_team match_date : string) : option ResultTracker.MatchData :=
  let date_str := date_str_of match_date in
  match get_fixtures_by_date date_str with
  | [] => None
  | fixtures =>
      match match_fixture_by_teams fixtures home_team away_team with
      | None => None
      | Some m =>
          let match_status := get_match_status m in
          if negb (is_finished match_status) then None
          else Some {| ResultTracker.fulltime_home := Some (home_score match_status);
                       ResultTracker.fulltime_away := Some (away_score match_status);
                       ResultTracker.halftime_home := halftime_home match_status;
                       ResultTracker.halftime_away := halftime_away match_status |}
      end
  end.

(** An opportunity of [opportunities_today.json], as far as the updater
    reads and writes it.  A flag that the file does not have is [false],
    which is how [has_active_matches] reads it; [prediction_result] is
    [None] while the key is not set, and an alternative carries its result
    once it is set. *)
Record Opp := mkOpp {
  ev_sahibi : string;
  deplasman : string;
  best_prediction : string;
  alternatif_tahminler : list (string * option (option bool));
  live_status : option string;
  opp_home_score : option Z;
  opp_away_score : option Z;
  opp_halftime_home : option Z;
  opp_halftime_away : option Z;
  opp_elapsed : option Z;
  opp_is_live : bool;
  opp_is_finished : bool;
  prediction_result : option (option bool)
}.

(** The body of the loop of [enrich_opportunities_with_scores]. *)
Definition enrich_opportunity (all_fixtures : list FeedFixture) (opp : Opp) : Opp :=
  match match_fixture_by_teams all_fixtures (ev_sahibi opp) (deplasman opp) with
  | Some fixture =>
      let match_status := get_match_status fixture in
      let check prediction :=
        ApiFootball.check_prediction_result prediction
          (home_score match_status) (away_score match_status)
          (halftime_home match_status) (halftime_away match_status) in
      {| ev_sahibi := ev_sahibi opp;
         deplasman := deplasman opp;
         best_prediction := best_prediction opp;
         alternatif_tahminler :=
           if is_finished match_status
           then map (fun alt_pred => (fst alt_pred, Some (check (fst alt_pred))))
                    (alternatif_tahminler opp)
           else alternatif_tahminler opp;
         live_status := Some (status match_status);
         opp_home_score := Some (home_score match_status);
         opp_away_score := Some (away_score match_status);
         opp_halftime_home := halftime_home match_status;
         opp_halftime_away := halftime_away match_status;
         opp_elapsed := ms_elapsed match_status;
         opp_is_live := is_live match_status;
         opp_is_finished := is_finished match_status;
         prediction_result :=
           if is_finished match_status
           then Some (check (best_prediction opp))
           else prediction_result opp |}
  | None =>
      {| ev_sahibi := ev_sahibi opp;
         deplasman := deplasman opp;
         best_prediction := best_prediction opp;
         alternatif_tahminler := alternatif_tahminler opp;
         live_status := Some "not_started";
         opp_home_score := None;
         opp_away_score := None;
         opp_halftime_home := None;
         opp_halftime_away := None;
         opp_elapsed := None;
         opp_is_live := false;
         opp_is_finished := false;
         prediction_result := Some None |}
  end.

(** [fixtures] and [live_fixtures] are the answers of the two requests. *)
Definition enrich_opportunities_with_scores (fixtures live_fixtures : list FeedFixture)
           (opportunities : list Opp) : list Opp :=
  let all_fixtures := fixtures ++ live_fixtures in
  map (enrich_opportunity all_fixtures) opportunities.

(** [has_active_matches] of [live_score_updater.py] *)
Fixpoint has_active_matches (opportunities : list Opp) : bool :=
  match opportunities with
  | [] => false
  | opp :: rest =>
      if opp_is_live opp then true
      else if negb (opp_is_finished opp) then true
      else has_active_matches rest
  end.

Record UpdateResult := mkUpdateResult {
  success : bool;
  total_opportunities : Z;
  live_matches : Z;
  finished_matches : Z;
  api_calls : Z;
  skipped : bool
}.

Fixpoint count_flag (flag : Opp -> bool) (opportunities : list Opp) (count : Z) : Z :=
  match opportunities with
  | [] => count
  | opp :: rest => count_flag flag rest (if flag opp then count + 1 else count)
  end.

(** [update_live_scores]: [loaded] is what [load_opportunities] answered,
    [save_ok] whether the file could be written.  The second component is
    what is written to the file, if anything. *)
Definition update_live_scores (loaded : list Opp) (fixtures live_fixtures : list FeedFixture)
           (save_ok : bool) : UpdateResult * option (list Opp) :=
  match loaded with
  | [] =>
      ({| success := true; total_opportunities := 0; live_matches := 0;
          finished_matches := 0; api_calls := 0; skipped := true |}, None)
  | _ =>
      if negb (has_active_matches loaded)
      then ({| success := true; total_opportunities := Z.of_nat (List.length loaded);
               live_matches := 0; finished_matches := 0; api_calls := 0;
               skipped := true |}, None)
      else
        let updated_opportunities :=
          enrich_opportunities_with_scores fixtures live_fixtures loaded in
        ({| success := save_ok; total_opportunities := Z.of_nat (List.length loaded);
            live_matches := count_flag opp_is_live updated_opportunities 0;
            finished_matches := count_flag opp_is_finished updated_opportunities 0;
            api_calls := 2; skipped := false |},
         if save_ok then Some updated_opportunities else None)
  end.

End Feed.

(** ** The specification's own wording, for comparison with the code *)

Module Spec.

(** 4.1: a pair of a signature is satisfied when the snapshot has a value
    under the translated key and that value is within the tolerance of the
    required one. *)
Definition pair_satisfied (t : Q) (snapshot : gmap string (option Q))
           (pair : string * Q) : Prop :=
  exists v, dict_get snapshot (Engine._convert_odds_key (fst pair)) = Some v
            /\ (Qabs (v - snd pair) <= t)%Q.

(** The key of the pair is absent from the snapshot. *)
Definition key_absent (snapshot : gmap string (option Q)) (pair : string * Q) : Prop :=
  dict_get snapshot (Engine._convert_odds_key (fst pair)) = None.

(** A normal signature matches iff all its pairs are satisfied. *)
Definition signature_matches (t : Q) (snapshot : gmap string (option Q))
           (signature : list (string * Q)) : Prop :=
  Forall (pair_satisfied t snapshot) signature.

(** An exclude signature triggers iff any of its pairs is satisfied. *)
Definition exclusion_triggers (t : Q) (snapshot : gmap string (option Q))
           (signature : list (string * Q)) : Prop :=
  Exists (pair_satisfied t snapshot) signature.

(** The snapshot of a fixture; an absent one has no key. *)
Definition snapshot_of (m : Match) : gmap string (option Q) :=
  match opening_odds m with
  | Some d => d
  | None => ∅
  end.

(** 4.1, last sentence. *)
Definition rule_matches (t : Q) (snapshot : gmap string (option Q))
           (rule : GoldenRule) : Prop :=
  signature_matches t snapshot (primary_odds rule)
  /\ (secondary_odds rule = None
      \/ exists sec, secondary_odds rule = Some sec /\ signature_matches t snapshot sec)
  /\ (exclude_odds rule = None
      \/ exists exc, exclude_odds rule = Some exc /\ ~ exclusion_triggers t snapshot exc).

(** 4.2: the importance tiers and the three bonuses. *)
Inductive Tier := Normal | Special | Important | VeryImportant.

(** The text of a tier in the rule data. *)
Definition tier_label (tier : Tier) : string :=
  match tier with
  | Normal => "normal"
  | Special => "özel"
  | Important => "önemli"
  | VeryImportant => "çok_önemli"
  end.

Definition importance_bonus (tier : Tier) : Z :=
  match tier with
  | VeryImportant => 3
  | Important => 2
  | Special => 1
  | Normal => 0
  end.

Definition rarity_bonus (prediction_count : nat) : Z :=
  if (prediction_count <=? 2)%nat then 2
  else if (prediction_count <=? 4)%nat then 1
  else 0.

Definition primary_slot_bonus (is_first_listed : bool) : Z :=
  if is_first_listed then 1 else 0.

Definition confidence (base : Z) (tier : Tier) (prediction_count : nat)
           (is_first_listed : bool) : Z :=
  Z.min 100 (base + importance_bonus tier + rarity_bonus prediction_count
             + primary_slot_bonus is_first_listed).

(** The prediction is the first one the rule lists. *)
Definition is_first_listed (rule : GoldenRule) (prediction : string) : bool :=
  match predictions rule with
  | p0 :: _ => String.eqb prediction p0
  | [] => false
  end.

(** 4.3: the rules of the catalog that match the fixture, in catalog
    order. *)
Definition matching_rules (self : Engine.Self) (m : Match) : list GoldenRule :=
  List.filter (Engine.match_rule_to_match self m) (Engine.golden_rules self).

Definition entry_of (rule : GoldenRule) (prediction : string) : Engine.PredEntry :=
  {| Engine.bet := prediction;
     Engine.confidence := Engine.calculate_confidence rule prediction;
     Engine.rule_id := id rule;
     Engine.rule_name := name rule |}.

(** Every (rule, prediction) pair of the matching rules, scored, in catalog
    order and within a rule in the order of its predictions. *)
Definition scored_pairs (self : Engine.Self) (m : Match) : list Engine.PredEntry :=
  flat_map (fun rule => map (entry_of rule) (predictions rule)) (matching_rules self m).

Definition descending (l : list Engine.PredEntry) : Prop :=
  StronglySorted (fun a b => Engine.confidence b <= Engine.confidence a) l.

(** The entries of each confidence appear in [ranked] in the order they
    have in [scored]. *)
Definition ties_in_order (scored ranked : list Engine.PredEntry) : Prop :=
  forall c : Z,
    List.filter (fun e => Engine.confidence e =? c) ranked
    = List.filter (fun e => Engine.confidence e =? c) scored.

(** [ranked] is [scored] sorted descending by confidence, ties kept in
    order. *)
Definition stable_descending_sort (scored ranked : list Engine.PredEntry) : Prop :=
  Permutation scored ranked /\ descending ranked /\ ties_in_order scored ranked.

(** The opportunity of a fixture, given its ranked list: none unless a rule
    matched and the top score reaches the minimum; the primary prediction
    is the top entry and the alternatives are all the others. *)
Definition opportunity (self : Engine.Self) (m : Match)
           (ranked : list Engine.PredEntry) : option Engine.Opportunity :=
  match matching_rules self m, ranked with
  | _ :: _, top :: rest =>
      if Engine.min_confidence self <=? Engine.confidence top then
        Some {| Engine.o_match_id := match_id m;
                Engine.o_home_team := home_team m;
                Engine.o_away_team := away_team m;
                Engine.o_league := league m;
                Engine.o_match_date := match_date m;
                Engine.o_match_time := match_time m;
                Engine.o_prediction := Engine.bet top;
                Engine.o_confidence := Engine.confidence top;
                Engine.alternative_predictions := rest;
                Engine.matched_rules :=
                  map (fun rule => (id rule, name rule)) (matching_rules self m);
                Engine.note := pretty (List.length ranked) +:+ " tahmin mevcut" |}
      else None
  | _, _ => None
  end.




(** The rows of [predictions] that the delete request of a run leaves:
    all of them if the request raises, else those that are not active
    predictions of the date range. *)
Definition after_delete (st : Engine.Storage) (db : Engine.Db)
           (date_from date_to : string) : list Engine.StoredPrediction :=
  match Engine.delete_error st with
  | Some _ => Engine.predictions_table db
  | None =>
      List.filter (fun p => negb (Engine.stale date_from date_to p))
                  (Engine.predictions_table db)
  end.

(** 4.6: the Wilson score interval in closed form, for an observed
    proportion [p] of [n] trials and the normal quantile [z]:
    [(p + z²/2n ∓ z·sqrt(p(1-p)/n + z²/4n²)) / (1 + z²/n)]. *)
Definition wilson_lower (p n z : R) : R :=
  ((p + z ^ 2 / (2 * n) - z * sqrt (p * (1 - p) / n + z ^ 2 / (4 * n ^ 2)))
   / (1 + z ^ 2 / n))%R.

Definition wilson_upper (p n z : R) : R :=
  ((p + z ^ 2 / (2 * n) + z * sqrt (p * (1 - p) / n + z ^ 2 / (4 * n ^ 2)))
   / (1 + z ^ 2 / n))%R.

(** 4.4: the candidate is accepted outright. *)
Definition exact_match (home_team away_team : string) (f : ApiFootball.Fixture) : bool :=
  (String.eqb (ApiFootball.normalize home_team)
              (ApiFootball.normalize (ApiFootball.home_name f))
   && String.eqb (ApiFootball.normalize away_team)
                 (ApiFootball.normalize (ApiFootball.away_name f)))%bool.

(** The scores of the two sides of a candidate, as the code computes
    them. *)
Definition home_side (home_team : string) (f : ApiFootball.Fixture) : Z :=
  ApiFootball.side_score (ApiFootball.normalize home_team)
    (ApiFootball.normalize (ApiFootball.home_name f))
    (ApiFootball.get_key_words home_team)
    (ApiFootball.get_key_words (ApiFootball.home_name f)).

Definition away_side (away_team : string) (f : ApiFootball.Fixture) : Z :=
  ApiFootball.side_score (ApiFootball.normalize away_team)
    (ApiFootball.normalize (ApiFootball.away_name f))
    (ApiFootball.get_key_words away_team)
    (ApiFootball.get_key_words (ApiFootball.away_name f)).

(** The candidate is eligible: both sides score at least 1. *)
Definition eligible (home_team away_team : string) (f : ApiFootball.Fixture) : bool :=
  ((1 <=? home_side home_team f) && (1 <=? away_side away_team f))%bool.

Definition summed_score (home_team away_team : string) (f : ApiFootball.Fixture) : Z :=
  home_side home_team f + away_side away_team f.

(** 4.4, signal (1): the containment bonus is due only if the shorter of
    the two normalized names has at least four characters. *)
Definition containment_bonus_due (norm api_norm : string) : bool :=
  (ApiFootball.either_contains norm api_norm
   && (4 <=? Z.min (PyStr.len norm) (PyStr.len api_norm)))%bool.

(** The loop of [match_fixture_by_teams] on the names of the internal
    fixture. *)
Definition match_loop_for (home_team away_team : string) :=
  ApiFootball.match_loop (ApiFootball.normalize home_team)
    (ApiFootball.normalize away_team)
    (ApiFootball.get_key_words home_team) (ApiFootball.get_key_words away_team).

End Spec.

(** ** Concrete rules and fixtures used by the examples below *)

Module Examples.

(** Rule 30 of the catalog. *)
Definition rule_30 : GoldenRule :=
  {| id := 30; name := "4-5 gol 2.33";
     primary_odds := [("4-5", 2.33%Q)];
     secondary_odds := None; exclude_odds := None;
     predictions := ["İY 0.5 ÜST"; "İY 1.5 ÜST"; "İY EV 0.5 ÜST"];
     confidence_base := 90; importance := "önemli"; notes := "" |}.

(** Rule 33 of the catalog. *)
Definition rule_33 : GoldenRule :=
  {| id := 33; name := "4-5 gol 4.76 + 3.5 alt 1.10";
     primary_odds := [("4-5", 4.76%Q)];
     secondary_odds := Some [("3,5 A", 1.10%Q)]; exclude_odds := None;
     predictions := ["İY 0.5 ÜST"; "İY EV 0.5 ÜST"];
     confidence_base := 85; importance := "normal"; notes := "" |}.

(** A rule definition whose primary signature is empty. *)
Definition rule_without_primary : GoldenRule :=
  {| id := 99; name := "no primary odds";
     primary_odds := [];
     secondary_odds := None; exclude_odds := None;
     predictions := ["MS 1.5 ÜST"];
     confidence_base := 85; importance := "normal"; notes := "" |}.

Definition engine : Engine.Self :=
  {| Engine.min_confidence := 85; Engine.tolerance := 0%Q;
     Engine.golden_rules := [rule_30; rule_33] |}.

Definition fixture_on (odds : option (gmap string (option Q))) : Match :=
  {| match_id := 1; home_team := "Galatasaray"; away_team := "Fenerbahce";
     league := "Super Lig"; match_date := "2026-03-01"; match_time := None;
     opening_odds := odds |}.

(** A fixture whose snapshot has the value of rule 30 under its key. *)
Definition fixture_233 : Match :=
  fixture_on (Some {[ "oran_45" := Some 2.33%Q ]}).



(** An opportunity stored by an earlier run for the fixture of 1 March. *)
Definition stored_opportunity : Engine.Opportunity :=
  {| Engine.o_match_id := 1;
     Engine.o_home_team := "Galatasaray";
     Engine.o_away_team := "Fenerbahce";
     Engine.o_league := "Super Lig";
     Engine.o_match_date := "2026-03-01";
     Engine.o_match_time := None;
     Engine.o_prediction := "İY 0.5 ÜST";
     Engine.o_confidence := 94;
     Engine.alternative_predictions := [];
     Engine.matched_rules := [(30, "4-5 gol 2.33")];
     Engine.note := "1 tahmin mevcut" |}.

Definition stored_prediction : Engine.StoredPrediction :=
  {| Engine.sp_opportunity := stored_opportunity;
     Engine.sp_run_id := Some 0;
     Engine.sp_status := "active";
     Engine.sp_result := "pending" |}.

(** The tables after that earlier run. *)
Definition db_before : Engine.Db :=
  {| Engine.runs :=
       [ {| Engine.run_row_id := 0; Engine.run_status := "completed";
            Engine.run_matches_processed := 1;
            Engine.run_opportunities_found := 1;
            Engine.run_error_message := None |} ];
     Engine.predictions_table := [stored_prediction] |}.


(** A finished match, 2-1, whose half-time score the feed does not give. *)
Definition finished_without_halftime : ResultTracker.MatchData :=
  {| ResultTracker.fulltime_home := Some 2;
     ResultTracker.fulltime_away := Some 1;
     ResultTracker.halftime_home := None;
     ResultTracker.halftime_away := None |}.

(** A fixture of the feed whose home side normalizes to three letters. *)
Definition pau_fenerbahce : ApiFootball.Fixture :=
  {| ApiFootball.fixture_id := 7;
     ApiFootball.home_name := "Pau FC";
     ApiFootball.away_name := "Fenerbahce" |}.

End Examples.

(** ** Properties of the odds matcher *)

Section OddsMatcher.

Variable self : Engine.Self.
Variable snapshot : gmap string (option Q).

Lemma pair_satisfied_lookup (pair : string * Q) (v : Q) :
  dict_get snapshot (Engine._convert_odds_key (fst pair)) = Some v ->
  Spec.pair_satisfied (Engine.tolerance self) snapshot pair
  <-> Qle_bool (Qabs (v - snd pair)) (Engine.tolerance self) = true.
Proof.
  intros Hget. unfold Spec.pair_satisfied. rewrite Qle_bool_iff. split.
  - intros (w & Hw & Hle). rewrite Hget in Hw. injection Hw as <-. exact Hle.
  - intros Hle. exists v. split; [exact Hget | exact Hle].
Qed.

Lemma pair_unsatisfied_absent (pair : string * Q) :
  Spec.key_absent snapshot pair ->
  ~ Spec.pair_satisfied (Engine.tolerance self) snapshot pair.
Proof.
  unfold Spec.key_absent. intros Habs (w & Hw & _). rewrite Habs in Hw. discriminate.
Qed.

(** The loop with [is_exclude=False] answers [True] exactly when every
    pair is satisfied. *)
Lemma check_odds_loop_normal (signature : list (string * Q)) :
  Engine.check_odds_loop self snapshot signature false = true
  <-> Spec.signature_matches (Engine.tolerance self) snapshot signature.
Proof.
  unfold Spec.signature_matches.
  induction signature as [| [label required] rest IH]; cbn [Engine.check_odds_loop].
  - split; [constructor | reflexivity].
  - destruct (dict_get snapshot (Engine._convert_odds_key label)) as [v |] eqn:Hget.
    + pose proof (pair_satisfied_lookup (label, required) v Hget) as Hpair.
      cbn [fst snd] in Hpair.
      destruct (Qle_bool (Qabs (v - required)) (Engine.tolerance self)) eqn:Hle;
        cbn [negb].
      * rewrite IH. split.
        -- intros Hrest. constructor; [apply Hpair; reflexivity | exact Hrest].
        -- intros Hall. inversion Hall; assumption.
      * split; [discriminate |].
        intros Hall. inversion Hall as [| ? ? Hp _]; subst.
        apply Hpair in Hp. discriminate.
    + split; [discriminate |].
      intros Hall. inversion Hall as [| ? ? Hp _]; subst.
      exfalso. exact (pair_unsatisfied_absent (label, required) Hget Hp).
Qed.

(** The loop with [is_exclude=True] answers [True] exactly when no pair is
    satisfied. *)
Lemma check_odds_loop_exclude (signature : list (string * Q)) :
  Engine.check_odds_loop self snapshot signature true = true
  <-> ~ Spec.exclusion_triggers (Engine.tolerance self) snapshot signature.
Proof.
  unfold Spec.exclusion_triggers.
  induction signature as [| [label required] rest IH]; cbn [Engine.check_odds_loop].
  - split; [intros _ Hex; inversion Hex | reflexivity].
  - destruct (dict_get snapshot (Engine._convert_odds_key label)) as [v |] eqn:Hget.
    + pose proof (pair_satisfied_lookup (label, required) v Hget) as Hpair.
      cbn [fst snd] in Hpair.
      destruct (Qle_bool (Qabs (v - required)) (Engine.tolerance self)) eqn:Hle.
      * split; [discriminate |].
        intros Hno. exfalso. apply Hno. constructor. apply Hpair. reflexivity.
      * rewrite IH. split.
        -- intros Hno Hex. inversion Hex as [? ? Hp | ? ? Hp]; subst.
           ++ apply Hpair in Hp. discriminate.
           ++ exact (Hno Hp).
        -- intros Hno Hex. apply Hno. constructor 2. exact Hex.
    + rewrite IH. split.
      * intros Hno Hex. inversion Hex as [? ? Hp | ? ? Hp]; subst.
        -- exact (pair_unsatisfied_absent (label, required) Hget Hp).
        -- exact (Hno Hp).
      * intros Hno Hex. apply Hno. constructor 2. exact Hex.
Qed.

(** A pair of a non-empty signature needs a key of the snapshot. *)
Lemma signature_needs_keys (t : Q) (signature : list (string * Q)) :
  signature <> [] -> snapshot = ∅ -> ~ Spec.signature_matches t snapshot signature.
Proof.
  intros Hne -> Hall. destruct signature as [| pair rest]; [congruence |].
  inversion Hall as [| ? ? (v & Hv & _) _]; subst.
  unfold dict_get in Hv. rewrite lookup_empty in Hv. discriminate.
Qed.

End OddsMatcher.

(** [check_odds_match] on a snapshot that has a key is the loop. *)
Lemma check_odds_match_nonempty (self : Engine.Self) (m : Match)
      (signature : list (string * Q)) (is_exclude : bool) :
  Spec.snapshot_of m <> ∅ ->
  Engine.check_odds_match self (opening_odds m) signature is_exclude
  = Engine.check_odds_loop self (Spec.snapshot_of m) signature is_exclude.
Proof.
  unfold Spec.snapshot_of, Engine.check_odds_match.
  destruct (opening_odds m) as [d |]; [| congruence].
  intros Hne. rewrite bool_decide_eq_false_2; [reflexivity | exact Hne].
Qed.

(** [check_odds_match] on an empty or absent snapshot answers [False]. *)
Lemma check_odds_match_empty (self : Engine.Self) (m : Match)
      (signature : list (string * Q)) (is_exclude : bool) :
  Spec.snapshot_of m = ∅ ->
  Engine.check_odds_match self (opening_odds m) signature is_exclude = false.
Proof.
  unfold Spec.snapshot_of, Engine.check_odds_match.
  destruct (opening_odds m) as [d |]; [| reflexivity].
  intros ->. rewrite bool_decide_eq_true_2; reflexivity.
Qed.

(** On a snapshot that has a key, [match_rule_to_match] is the conjunction
    of the three checks of 4.1. *)
Lemma match_rule_to_match_nonempty (self : Engine.Self) (m : Match) (rule : GoldenRule) :
  Spec.snapshot_of m <> ∅ ->
  Engine.match_rule_to_match self m rule = true
  <-> Spec.rule_matches (Engine.tolerance self) (Spec.snapshot_of m) rule.
Proof.
  intros Hne. unfold Engine.match_rule_to_match, Spec.rule_matches.
  rewrite !check_odds_match_nonempty by exact Hne.
  rewrite <- check_odds_loop_normal.
  destruct (Engine.check_odds_loop self (Spec.snapshot_of m) (primary_odds rule) false);
    cbn [negb]; [| split; [discriminate | intros [? _]; discriminate]].
  assert (Hsec :
    (match Engine.truthy (secondary_odds rule) with
     | Some sec => negb (Engine.check_odds_match self (opening_odds m) sec false)
     | None => false
     end = false)
    <-> (secondary_odds rule = None
         \/ exists sec, secondary_odds rule = Some sec
                        /\ Spec.signature_matches (Engine.tolerance self)
                                                  (Spec.snapshot_of m) sec)).
  { destruct (secondary_odds rule) as [[| p sec] |]; cbn [Engine.truthy].
    - split; [| reflexivity]. intros _. right. exists []. split; [reflexivity | constructor].
    - rewrite check_odds_match_nonempty by exact Hne.
      rewrite negb_false_iff, check_odds_loop_normal. split.
      + intros H. right. eexists. split; [reflexivity | exact H].
      + intros [H | (sec' & [= <-] & H)]; [discriminate | exact H].
    - split; [intros _; left; reflexivity | reflexivity]. }
  assert (Hexc :
    (match Engine.truthy (exclude_odds rule) with
     | Some exc => negb (Engine.check_odds_match self (opening_odds m) exc true)
     | None => false
     end = false)
    <-> (exclude_odds rule = None
         \/ exists exc, exclude_odds rule = Some exc
                        /\ ~ Spec.exclusion_triggers (Engine.tolerance self)
                                                     (Spec.snapshot_of m) exc)).
  { destruct (exclude_odds rule) as [[| p exc] |]; cbn [Engine.truthy].
    - split; [| reflexivity]. intros _. right. exists [].
      split; [reflexivity | intros H; inversion H].
    - rewrite check_odds_match_nonempty by exact Hne.
      rewrite negb_false_iff, check_odds_loop_exclude. split.
      + intros H. right. eexists. split; [reflexivity | exact H].
      + intros [H | (exc' & [= <-] & H)]; [discriminate | exact H].
    - split; [intros _; left; reflexivity | reflexivity]. }
  destruct (match Engine.truthy (secondary_odds rule) with
            | Some sec => negb (Engine.check_odds_match self (opening_odds m) sec false)
            | None => false
            end).
  - split; [discriminate |]. intros (_ & H & _). apply Hsec in H. discriminate.
  - destruct (match Engine.truthy (exclude_odds rule) with
              | Some exc => negb (Engine.check_odds_match self (opening_odds m) exc true)
              | None => false
              end).
    + split; [discriminate |]. intros (_ & _ & H). apply Hexc in H. discriminate.
    + split; [| reflexivity]. intros _. split; [reflexivity |].
      split; [apply Hsec | apply Hexc]; reflexivity.
Qed.

(** C1.  For every engine (whatever its tolerance), fixture and rule such
    that the rule has a primary signature (the invariant of the data model)
    or the fixture's snapshot has a key:
    - the rule matches the fixture iff all pairs of its primary signature
      are satisfied, and it has no secondary signature or all pairs of that
      are satisfied, and it has no exclude signature or no pair of that is
      satisfied, where a pair is satisfied iff the snapshot has a value [v]
      under the translated key and [|v - required| <= tolerance];
    - on a snapshot with a key a normal signature passes iff all its pairs
      are satisfied and an exclude signature passes iff none is;
    - a pair whose key is absent fails a normal signature, and is skipped
      in an exclude signature. *)
Theorem rule_matches_fixture_iff (self : Engine.Self) (m : Match) (rule : GoldenRule) :
  primary_odds rule <> [] \/ Spec.snapshot_of m <> ∅ ->
  (Engine.match_rule_to_match self m rule = true
   <-> Spec.rule_matches (Engine.tolerance self) (Spec.snapshot_of m) rule)
  /\ (forall signature : list (string * Q),
        Spec.snapshot_of m <> ∅ ->
        (Engine.check_odds_match self (opening_odds m) signature false = true
         <-> Spec.signature_matches (Engine.tolerance self) (Spec.snapshot_of m) signature)
        /\ (Engine.check_odds_match self (opening_odds m) signature true = true
            <-> ~ Spec.exclusion_triggers (Engine.tolerance self)
                                          (Spec.snapshot_of m) signature))
  /\ (forall (pair : string * Q) (signature : list (string * Q)),
        Spec.snapshot_of m <> ∅ ->
        Spec.key_absent (Spec.snapshot_of m) pair ->
        (In pair signature ->
         Engine.check_odds_match self (opening_odds m) signature false = false)
        /\ Engine.check_odds_match self (opening_odds m) (pair :: signature) true
           = Engine.check_odds_match self (opening_odds m) signature true).
Proof.
  intros Hwf. split; [| split].
  - destruct (decide (Spec.snapshot_of m = ∅)) as [Hempty | Hne].
    + destruct Hwf as [Hprimary | Hne]; [| contradiction].
      unfold Engine.match_rule_to_match.
      rewrite check_odds_match_empty by exact Hempty. cbn [negb].
      split; [discriminate |]. intros (Hall & _). exfalso.
      exact (signature_needs_keys _ _ _ Hprimary Hempty Hall).
    + apply match_rule_to_match_nonempty. exact Hne.
  - intros signature Hne. rewrite !check_odds_match_nonempty by exact Hne.
    split; [apply check_odds_loop_normal | apply check_odds_loop_exclude].
  - intros pair signature Hne Habs. rewrite !check_odds_match_nonempty by exact Hne.
    split.
    + intros Hin. apply not_true_is_false. rewrite check_odds_loop_normal.
      intros Hall. unfold Spec.signature_matches in Hall.
      rewrite Forall_forall in Hall.
      apply (pair_unsatisfied_absent self _ pair Habs).
      apply Hall. apply list_elem_of_In. exact Hin.
    + destruct pair as [label required]. cbn [Engine.check_odds_loop].
      unfold Spec.key_absent in Habs. cbn [fst] in Habs. rewrite Habs. reflexivity.
Qed.

Lemma rule_matches_fixture_iff_witness :
  (primary_odds Examples.rule_30 <> []
   \/ Spec.snapshot_of Examples.fixture_233 <> ∅)
  /\ (Engine.match_rule_to_match Examples.engine Examples.fixture_233 Examples.rule_30 = true
      <-> Spec.rule_matches (Engine.tolerance Examples.engine)
                            (Spec.snapshot_of Examples.fixture_233) Examples.rule_30).
Proof.
  assert (H : primary_odds Examples.rule_30 <> []
              \/ Spec.snapshot_of Examples.fixture_233 <> ∅)
    by (left; discriminate).
  split; [exact H |].
  exact (proj1 (rule_matches_fixture_iff Examples.engine Examples.fixture_233
                                         Examples.rule_30 H)).
Defined.

(** The corner that the hypothesis of C1 leaves out: a rule definition
    without primary signature on a fixture without odds.  All pairs of the
    (empty) signature are satisfied, and the code answers [False] because of
    its test [if not match_odds]. *)
Example rule_without_primary_on_empty_snapshot :
  Engine.match_rule_to_match Examples.engine (Examples.fixture_on (Some ∅))
                             Examples.rule_without_primary = false
  /\ Engine.match_rule_to_match Examples.engine (Examples.fixture_on None)
                                Examples.rule_without_primary = false
  /\ Spec.rule_matches (Engine.tolerance Examples.engine) ∅ Examples.rule_without_primary.
Proof.
  split; [vm_compute; reflexivity |]. split; [vm_compute; reflexivity |].
  split; [constructor |]. split; left; reflexivity.
Qed.

(** The first testable property of the specification, on rule 30: the
    value 2.33 under the key matches at tolerance 0, the value 2.34 does
    not. *)
Example rule_30_exact_value :
  Engine.match_rule_to_match Examples.engine Examples.fixture_233 Examples.rule_30 = true
  /\ Engine.match_rule_to_match Examples.engine
       (Examples.fixture_on (Some {[ "oran_45" := Some 2.34%Q ]})) Examples.rule_30 = false.
Proof. split; vm_compute; reflexivity. Qed.

(** C10 fails on the code: the rule definition with an empty primary
    signature is an ordinary rule, and it matches a fixture whose snapshot
    has a key. *)
Lemma empty_primary_rule_matches :
  primary_odds Examples.rule_without_primary = []
  /\ Spec.snapshot_of Examples.fixture_233 <> ∅
  /\ Engine.match_rule_to_match Examples.engine Examples.fixture_233
                                Examples.rule_without_primary = true.
Proof.
  split; [reflexivity |]. split; [| vm_compute; reflexivity].
  unfold Examples.fixture_233, Spec.snapshot_of, Examples.fixture_on.
  cbn [opening_odds]. apply insert_non_empty.
Qed.

(** C10, amended.  No rule definition is rejected: a rule with an empty
    primary signature is evaluated like any other.  It matches a fixture iff
    the fixture's snapshot has a key and the secondary and exclude
    signatures allow it; with neither of them it matches exactly the
    fixtures whose snapshot has a key. *)
Theorem empty_primary_rule_matching (self : Engine.Self) (m : Match) (rule : GoldenRule) :
  primary_odds rule = [] ->
  (Engine.match_rule_to_match self m rule = true
   <-> Spec.snapshot_of m <> ∅
       /\ Spec.rule_matches (Engine.tolerance self) (Spec.snapshot_of m) rule)
  /\ (secondary_odds rule = None -> exclude_odds rule = None ->
      (Engine.match_rule_to_match self m rule = true <-> Spec.snapshot_of m <> ∅)).
Proof.
  intros Hprimary.
  assert (Hmain :
    Engine.match_rule_to_match self m rule = true
    <-> Spec.snapshot_of m <> ∅
        /\ Spec.rule_matches (Engine.tolerance self) (Spec.snapshot_of m) rule).
  { destruct (decide (Spec.snapshot_of m = ∅)) as [Hempty | Hne].
    - unfold Engine.match_rule_to_match.
      rewrite check_odds_match_empty by exact Hempty. cbn [negb].
      split; [discriminate | intros [Hne _]; contradiction].
    - rewrite (match_rule_to_match_nonempty self m rule Hne).
      split; [intros H; split; [exact Hne | exact H] | intros [_ H]; exact H]. }
  split; [exact Hmain |].
  intros Hsec Hexc. rewrite Hmain. split; [intros [Hne _]; exact Hne |].
  intros Hne. split; [exact Hne |]. unfold Spec.rule_matches, Spec.signature_matches.
  rewrite Hprimary. split; [constructor |]. split; left; assumption.
Qed.

Lemma empty_primary_rule_matching_witness :
  primary_odds Examples.rule_without_primary = []
  /\ (Engine.match_rule_to_match Examples.engine Examples.fixture_233
                                 Examples.rule_without_primary = true
      <-> Spec.snapshot_of Examples.fixture_233 <> ∅).
Proof.
  split; [reflexivity |].
  exact (proj2 (empty_primary_rule_matching Examples.engine Examples.fixture_233
                  Examples.rule_without_primary eq_refl) eq_refl eq_refl).
Defined.

(** ** Properties of the confidence calculator *)

Lemma importance_bonus_of_tier (tier : Spec.Tier) :
  assoc_get Engine.importance_bonus (Spec.tier_label tier) 0 = Spec.importance_bonus tier.
Proof. destruct tier; reflexivity. Qed.

Lemma rarity_bonus_cases (base : Z) (count : nat) :
  (if Z.of_nat count <=? 2 then base + 2
   else if Z.of_nat count <=? 4 then base + 1 else base)
  = base + Spec.rarity_bonus count.
Proof.
  unfold Spec.rarity_bonus.
  destruct (Z.leb_spec (Z.of_nat count) 2), (Nat.leb_spec count 2); try lia.
  destruct (Z.leb_spec (Z.of_nat count) 4), (Nat.leb_spec count 4); lia.
Qed.

Lemma rarity_bonus_range (count : nat) : 0 <= Spec.rarity_bonus count <= 2.
Proof.
  unfold Spec.rarity_bonus.
  destruct (count <=? 2)%nat; [lia |]. destruct (count <=? 4)%nat; lia.
Qed.

(** C2.  For every rule whose [confidence_base] lies in [0,100] and whose
    importance is one of the four tiers, and every prediction of the rule,
    the confidence is [min(100, base + importance bonus + rarity bonus +
    primary-slot bonus)] with the bonuses of 4.2, and it lies in [0,100];
    a rule with base 85, importance "important" and two predictions gives
    its first prediction exactly 90. *)
Theorem calculate_confidence_spec (rule : GoldenRule) (prediction : string)
        (tier : Spec.Tier) :
  0 <= confidence_base rule <= 100 ->
  importance rule = Spec.tier_label tier ->
  In prediction (predictions rule) ->
  Engine.calculate_confidence rule prediction
  = Spec.confidence (confidence_base rule) tier (List.length (predictions rule))
                    (Spec.is_first_listed rule prediction)
  /\ 0 <= Engine.calculate_confidence rule prediction <= 100
  /\ (confidence_base rule = 85 -> tier = Spec.Important ->
      List.length (predictions rule) = 2%nat ->
      Spec.is_first_listed rule prediction = true ->
      Engine.calculate_confidence rule prediction = 90).
Proof.
  intros Hbase Htier _.
  assert (Heq : Engine.calculate_confidence rule prediction
                = Spec.confidence (confidence_base rule) tier
                    (List.length (predictions rule))
                    (Spec.is_first_listed rule prediction)).
  { unfold Engine.calculate_confidence, Spec.confidence, Spec.is_first_listed,
      Spec.primary_slot_bonus.
    rewrite Htier, importance_bonus_of_tier, rarity_bonus_cases.
    destruct (predictions rule) as [| p0 rest].
    - f_equal. lia.
    - destruct (String.eqb prediction p0); f_equal; lia. }
  split; [exact Heq |]. split.
  - rewrite Heq. unfold Spec.confidence, Spec.primary_slot_bonus.
    pose proof (rarity_bonus_range (List.length (predictions rule))).
    destruct tier, (Spec.is_first_listed rule prediction);
      cbn [Spec.importance_bonus]; lia.
  - intros Hb -> Hlen Hfirst. rewrite Heq, Hb, Hlen, Hfirst. reflexivity.
Qed.

Lemma calculate_confidence_spec_witness :
  0 <= confidence_base Examples.rule_30 <= 100
  /\ importance Examples.rule_30 = Spec.tier_label Spec.Important
  /\ In "İY 0.5 ÜST" (predictions Examples.rule_30)
  /\ Engine.calculate_confidence Examples.rule_30 "İY 0.5 ÜST" = 94.
Proof.
  assert (Hbase : 0 <= confidence_base Examples.rule_30 <= 100) by (simpl; lia).
  assert (Hin : In "İY 0.5 ÜST" (predictions Examples.rule_30)) by (left; reflexivity).
  split; [exact Hbase |]. split; [reflexivity |]. split; [exact Hin |].
  rewrite (proj1 (calculate_confidence_spec Examples.rule_30 "İY 0.5 ÜST"
                    Spec.Important Hbase eq_refl Hin)).
  reflexivity.
Defined.

(** The second testable property of the specification, evaluated. *)
Example confidence_85_important_2_primary :
  Engine.calculate_confidence
    {| id := 1; name := "r"; primary_odds := [("4-5", 2.00%Q)];
       secondary_odds := None; exclude_odds := None;
       predictions := ["MS 1.5 ÜST"; "KG VAR"];
       confidence_base := 85; importance := "önemli"; notes := "" |}
    "MS 1.5 ÜST" = 90.
Proof. reflexivity. Qed.

(** ** Properties of the opportunity processor *)

Section Sorting.

Import Engine.

Lemma insert_desc_perm (x : PredEntry) (l : list PredEntry) :
  Permutation (x :: l) (insert_desc x l).
Proof.
  induction l as [| y l IH]; cbn [insert_desc]; [reflexivity |].
  destruct (confidence x <? confidence y); [| reflexivity].
  rewrite perm_swap. apply perm_skip. exact IH.
Qed.

Lemma sort_perm (l : list PredEntry) : Permutation l (sort_by_confidence_desc l).
Proof.
  induction l as [| x l IH]; cbn; [reflexivity |].
  rewrite <- insert_desc_perm. apply perm_skip. exact IH.
Qed.

Lemma insert_desc_sorted (x : PredEntry) (l : list PredEntry) :
  Spec.descending l -> Spec.descending (insert_desc x l).
Proof.
  unfold Spec.descending. intros Hl.
  induction Hl as [| y l Hl IH Hy]; cbn [insert_desc].
  - constructor; constructor.
  - destruct (Z.ltb_spec (confidence x) (confidence y)) as [Hlt | Hge].
    + constructor; [exact IH |].
      rewrite <- (insert_desc_perm x l). constructor; [lia | exact Hy].
    + constructor; [constructor; assumption |].
      constructor; [lia |].
      eapply Forall_impl; [exact Hy |]. cbn. intros a Ha. lia.
Qed.

Lemma sort_sorted (l : list PredEntry) : Spec.descending (sort_by_confidence_desc l).
Proof.
  induction l as [| x l IH]; cbn.
  - constructor.
  - apply insert_desc_sorted. exact IH.
Qed.

Lemma insert_desc_ties (c : Z) (x : PredEntry) (l : list PredEntry) :
  List.filter (fun e => confidence e =? c) (insert_desc x l)
  = List.filter (fun e => confidence e =? c) (x :: l).
Proof.
  induction l as [| y l IH]; cbn [insert_desc]; [reflexivity |].
  destruct (Z.ltb_spec (confidence x) (confidence y)) as [Hlt | Hge]; [| reflexivity].
  cbn [List.filter] in *. rewrite IH.
  destruct (Z.eqb_spec (confidence x) c), (Z.eqb_spec (confidence y) c);
    try reflexivity; lia.
Qed.

Lemma sort_ties (l : list PredEntry) : Spec.ties_in_order l (sort_by_confidence_desc l).
Proof.
  intros c. induction l as [| x l IH]; cbn [sort_by_confidence_desc fold_right];
    [reflexivity |].
  rewrite insert_desc_ties. cbn [List.filter]. fold (sort_by_confidence_desc l).
  rewrite IH. reflexivity.
Qed.

(** [list.sort(key=confidence, reverse=True)] is a stable descending
    sort. *)
Lemma sort_by_confidence_desc_stable (l : list PredEntry) :
  Spec.stable_descending_sort l (sort_by_confidence_desc l).
Proof.
  split; [apply sort_perm |]. split; [apply sort_sorted | apply sort_ties].
Qed.

End Sorting.

Section Processor.

Import Engine.

Variable self : Self.

Lemma matched_loop_acc (m : Match) (rules : list GoldenRule)
      (acc : list (GoldenRule * list string)) :
  fold_left
    (fun matched rule =>
       if match_rule_to_match self m rule
       then matched ++ [(rule, predictions rule)]
       else matched)
    rules acc
  = acc ++ map (fun rule => (rule, predictions rule))
               (List.filter (match_rule_to_match self m) rules).
Proof.
  revert acc. induction rules as [| rule rules IH]; intros acc; cbn.
  - rewrite app_nil_r. reflexivity.
  - rewrite IH. destruct (match_rule_to_match self m rule); cbn.
    + rewrite <- app_assoc. reflexivity.
    + reflexivity.
Qed.

Lemma collect_matched_rules_eq (m : Match) :
  collect_matched_rules self m
  = map (fun rule => (rule, predictions rule)) (Spec.matching_rules self m).
Proof. unfold collect_matched_rules. rewrite matched_loop_acc. reflexivity. Qed.

Lemma predictions_loop_acc (rule : GoldenRule) (preds : list string)
      (acc : list PredEntry) :
  fold_left
    (fun all pred =>
       all ++ [ {| bet := pred;
                   confidence := calculate_confidence rule pred;
                   rule_id := id rule;
                   rule_name := name rule |} ])
    preds acc
  = acc ++ map (Spec.entry_of rule) preds.
Proof.
  revert acc. induction preds as [| pred preds IH]; intros acc; cbn.
  - rewrite app_nil_r. reflexivity.
  - rewrite IH, <- app_assoc. reflexivity.
Qed.

Lemma collect_predictions_acc (rules : list GoldenRule) (acc : list PredEntry) :
  fold_left
    (fun all (rp : GoldenRule * list string) =>
       fold_left
         (fun all pred =>
            all ++ [ {| bet := pred;
                        confidence := calculate_confidence (fst rp) pred;
                        rule_id := id (fst rp);
                        rule_name := name (fst rp) |} ])
         (snd rp) all)
    (map (fun rule => (rule, predictions rule)) rules) acc
  = acc ++ flat_map (fun rule => map (Spec.entry_of rule) (predictions rule)) rules.
Proof.
  revert acc. induction rules as [| rule rules IH]; intros acc; cbn.
  - rewrite app_nil_r. reflexivity.
  - rewrite predictions_loop_acc, IH, <- app_assoc. reflexivity.
Qed.

Lemma collect_predictions_eq (m : Match) :
  collect_predictions (collect_matched_rules self m) = Spec.scored_pairs self m.
Proof.
  rewrite collect_matched_rules_eq. unfold collect_predictions, Spec.scored_pairs.
  rewrite collect_predictions_acc. reflexivity.
Qed.

Hypothesis catalog_has_predictions :
  Forall (fun rule => predictions rule <> []) (golden_rules self).

(** A fixture that matches a rule has a scored pair. *)
Lemma scored_pairs_nonempty (m : Match) :
  Spec.matching_rules self m <> [] -> Spec.scored_pairs self m <> [].
Proof.
  unfold Spec.scored_pairs. intros Hne.
  destruct (Spec.matching_rules self m) as [| rule rules] eqn:Hm; [congruence |].
  assert (Hin : In rule (golden_rules self)).
  { assert (H : In rule (Spec.matching_rules self m)) by (rewrite Hm; left; reflexivity).
    unfold Spec.matching_rules in H. apply filter_In in H. tauto. }
  rewrite Forall_forall in catalog_has_predictions.
  apply list_elem_of_In in Hin.
  specialize (catalog_has_predictions rule Hin).
  cbn. destruct (predictions rule); [congruence | discriminate].
Qed.

(** The body of the loop computes the opportunity of the specification
    from the sorted list, and does not raise. *)
Lemma process_match_eq (m : Match) :
  process_match self m
  = Ok (Spec.opportunity self m (sort_by_confidence_desc (Spec.scored_pairs self m))).
Proof.
  unfold process_match, Spec.opportunity.
  rewrite collect_predictions_eq, collect_matched_rules_eq.
  pose proof (scored_pairs_nonempty m) as Hne.
  destruct (Spec.matching_rules self m) as [| rule rules]; [reflexivity |].
  cbn [map].
  destruct (sort_by_confidence_desc (Spec.scored_pairs self m)) as [| best rest] eqn:Hs.
  - exfalso. apply Hne; [discriminate |].
    apply Permutation_nil. rewrite <- Hs. symmetry. apply sort_perm.
  - destruct (min_confidence self <=? confidence best); [| reflexivity].
    do 2 f_equal. f_equal. cbn [map fst]. f_equal.
    rewrite map_map. reflexivity.
Qed.

Lemma process_loop_eq (matches : list Match) (acc : list Opportunity) :
  process_loop self matches acc
  = Ok (acc ++ omap (fun m => Spec.opportunity self m
                                (sort_by_confidence_desc (Spec.scored_pairs self m)))
                    matches).
Proof.
  revert acc. induction matches as [| m matches IH]; intros acc; cbn [process_loop].
  - cbn. rewrite app_nil_r. reflexivity.
  - rewrite process_match_eq. cbn [mbind result_bind]. rewrite IH. cbn [omap list_omap].
    destruct (Spec.opportunity self m _); [| reflexivity].
    rewrite <- app_assoc. reflexivity.
Qed.

End Processor.

(** C3.  For every batch of fixtures, catalog whose rules each list a
    prediction, and minimum confidence: [process_matches] does not raise;
    for each fixture it collects the (rule, prediction) pairs of the
    matching rules, scores them and sorts them descending by confidence
    with ties in catalog order; it emits an opportunity for the fixture iff
    a rule matched and the top score reaches the minimum; the primary
    prediction is the top entry and the alternatives are the whole rest of
    the sorted list; a fixture that matches no rule gives no opportunity.
    The opportunities come in the order of the fixtures. *)
Theorem process_matches_spec (self : Engine.Self) (matches : list Match) :
  Forall (fun rule => predictions rule <> []) (Engine.golden_rules self) ->
  exists ranked_of : Match -> list Engine.PredEntry,
    (forall m, Spec.stable_descending_sort (Spec.scored_pairs self m) (ranked_of m))
    /\ Engine.process_matches self matches
       = Ok (omap (fun m => Spec.opportunity self m (ranked_of m)) matches)
    /\ (forall m,
          is_Some (Spec.opportunity self m (ranked_of m))
          <-> Spec.matching_rules self m <> []
              /\ exists top rest,
                   ranked_of m = top :: rest
                   /\ Engine.min_confidence self <= Engine.confidence top)
    /\ (forall m opp,
          Spec.opportunity self m (ranked_of m) = Some opp ->
          exists top,
            ranked_of m = top :: Engine.alternative_predictions opp
            /\ Engine.o_prediction opp = Engine.bet top
            /\ Engine.o_confidence opp = Engine.confidence top
            /\ S (List.length (Engine.alternative_predictions opp))
               = List.length (Spec.scored_pairs self m))
    /\ (forall m,
          Spec.matching_rules self m = [] ->
          Spec.opportunity self m (ranked_of m) = None).
Proof.
  intros Hwf.
  exists (fun m => Engine.sort_by_confidence_desc (Spec.scored_pairs self m)).
  split; [intros m; apply sort_by_confidence_desc_stable |].
  split.
  { unfold Engine.process_matches. rewrite (process_loop_eq self Hwf). reflexivity. }
  split.
  { intros m. unfold Spec.opportunity.
    destruct (Spec.matching_rules self m) as [| rule rules].
    - split; [intros [opp H]; discriminate | intros [H _]; congruence].
    - destruct (Engine.sort_by_confidence_desc (Spec.scored_pairs self m))
        as [| top rest].
      + split; [intros [opp H]; discriminate |].
        intros (_ & top & rest & H & _). discriminate.
      + destruct (Z.leb_spec (Engine.min_confidence self) (Engine.confidence top))
          as [Hle | Hlt].
        * split; [| intros _; eexists; reflexivity].
          intros _. split; [discriminate |]. exists top, rest. split; [reflexivity | exact Hle].
        * split; [intros [opp H]; discriminate |].
          intros (_ & top' & rest' & [= <- <-] & Hle). lia. }
  split.
  { intros m opp. unfold Spec.opportunity.
    pose proof (sort_perm (Spec.scored_pairs self m)) as Hperm.
    destruct (Spec.matching_rules self m) as [| rule rules]; [discriminate |].
    destruct (Engine.sort_by_confidence_desc (Spec.scored_pairs self m))
      as [| top rest]; [discriminate |].
    destruct (Engine.min_confidence self <=? Engine.confidence top); [| discriminate].
    intros [= <-]. exists top. cbn. repeat split.
    apply Permutation_length in Hperm. cbn in Hperm. symmetry. exact Hperm. }
  intros m Hnone. unfold Spec.opportunity. rewrite Hnone. reflexivity.
Qed.

Lemma process_matches_spec_witness :
  Forall (fun rule => predictions rule <> []) (Engine.golden_rules Examples.engine)
  /\ exists ranked_of : Match -> list Engine.PredEntry,
       Engine.process_matches Examples.engine [Examples.fixture_233]
       = Ok (omap (fun m => Spec.opportunity Examples.engine m (ranked_of m))
                  [Examples.fixture_233]).
Proof.
  assert (H : Forall (fun rule => predictions rule <> [])
                     (Engine.golden_rules Examples.engine))
    by (repeat constructor; discriminate).
  split; [exact H |].
  destruct (process_matches_spec Examples.engine [Examples.fixture_233] H)
    as (ranked_of & _ & Heq & _).
  exists ranked_of. exact Heq.
Defined.

(** The hypothesis of C3 is needed: a matching rule that lists no
    prediction makes [all_predictions[0]] raise. *)
Example process_matches_index_error :
  Engine.process_matches
    {| Engine.min_confidence := 85; Engine.tolerance := 0%Q;
       Engine.golden_rules :=
         [ {| id := 98; name := "no predictions";
              primary_odds := [("4-5", 2.33%Q)];
              secondary_odds := None; exclude_odds := None;
              predictions := [];
              confidence_base := 85; importance := "normal"; notes := "" |} ] |}
    [Examples.fixture_233]
  = Raise IndexError.
Proof. vm_compute. reflexivity. Qed.

(** The end-to-end property of the specification on the two-rule catalog:
    the fixture that matches rule 30 alone gives one opportunity whose
    alternatives are the other two predictions of that rule; the fixture
    that matches no rule gives none. *)
Example process_matches_two_rules :
  Engine.process_matches Examples.engine
    [ Examples.fixture_233;
      Examples.fixture_on (Some {[ "oran_45" := Some 3.00%Q ]}) ]
  = Ok [ {| Engine.o_match_id := 1;
            Engine.o_home_team := "Galatasaray";
            Engine.o_away_team := "Fenerbahce";
            Engine.o_league := "Super Lig";
            Engine.o_match_date := "2026-03-01";
            Engine.o_match_time := None;
            Engine.o_prediction := "İY 0.5 ÜST";
            Engine.o_confidence := 94;
            Engine.alternative_predictions :=
              [ Spec.entry_of Examples.rule_30 "İY 1.5 ÜST";
                Spec.entry_of Examples.rule_30 "İY EV 0.5 ÜST" ];
            Engine.matched_rules := [(30, "4-5 gol 2.33")];
            Engine.note := "3 tahmin mevcut" |} ].
Proof. vm_compute. reflexivity. Qed.

(** ** Properties of the sandbox comparator *)

Lemma Qgtb_lt (a b : Q) : Qgtb a b = true <-> (b < a)%Q.
Proof.
  unfold Qgtb. rewrite negb_true_iff, <- not_true_iff_false, Qle_bool_iff.
  split; [apply Qnot_le_lt | apply Qlt_not_le].
Qed.


Lemma Qltb_lt (a b : Q) : Qltb a b = true <-> (a < b)%Q.
Proof. apply Qgtb_lt. Qed.


(** In [_calculate_test_metrics] the test counts as significant exactly
    when the p-value that is stored is below 0.05 (it is 1 when one side
    has fewer than 30 predictions), and the recommendation stored is the
    table applied to the counts and rates stored. *)
Lemma test_metrics_recommendation (proportion_test : Z -> Z -> Q -> Q)
      (candidate_results baseline_results : list (option Sandbox.Simulated)) :
  let r := Sandbox._calculate_test_metrics proportion_test
             candidate_results baseline_results in
  Sandbox.recommendation r
  = fst (Sandbox._generate_recommendation (Sandbox.candidate_predictions r)
           (Sandbox.win_rate_delta r) (Sandbox.is_significant r)
           (Sandbox.candidate_win_rate r))
  /\ (Sandbox.win_rate_delta r
      == Sandbox.candidate_win_rate r - Sandbox.baseline_win_rate r)%Q
  /\ (Sandbox.is_significant r = true <-> (Sandbox.p_value r < 5 # 100)%Q).
Proof.
  cbn zeta. split; [reflexivity |]. split; [reflexivity |].
  unfold Sandbox._calculate_test_metrics.
  cbn [Sandbox.is_significant Sandbox.p_value].
  destruct ((Sandbox.min_sample_size
               <=? Z.of_nat (List.length (Sandbox.predictions_of candidate_results)))
            && (Sandbox.min_sample_size
                  <=? Z.of_nat (List.length (Sandbox.predictions_of baseline_results))))%bool.
  - apply Qltb_lt.
  - split; [discriminate |]. intros H. exfalso. revert H. apply Qle_not_lt.
    unfold Qle. cbn. lia.
Qed.


(** ** Properties of the degradation detector *)





(** ** Properties of the run *)

Lemma complete_run_predictions (st : Engine.Storage) (rid : option Z) (db : Engine.Db)
      (processed found : Z) (err : option string) :
  Engine.predictions_table (Engine.complete_run st rid db processed found err)
  = Engine.predictions_table db.
Proof.
  unfold Engine.complete_run. destruct rid; [| reflexivity].
  destruct (Engine.update_run_error st); reflexivity.
Qed.

Lemma create_run_predictions (st : Engine.Storage) (db : Engine.Db) :
  Engine.predictions_table (snd (Engine.create_run st db)) = Engine.predictions_table db.
Proof. unfold Engine.create_run. destruct (Engine.insert_run_error st); reflexivity. Qed.

Lemma archive_predictions (st : Engine.Storage) (db : Engine.Db) (date_from date_to : string) :
  Engine.predictions_table (snd (Engine.archive_old_predictions st db date_from date_to))
  = Spec.after_delete st db date_from date_to.
Proof.
  unfold Engine.archive_old_predictions, Spec.after_delete.
  destruct (Engine.delete_error st); reflexivity.
Qed.






(** ** Properties of the outcome evaluators *)

(** [api_football.check_prediction_result]: a text with the half-time
    marker and without "MS" is not graded when a half-time score is
    unknown. *)
Lemma api_halftime_unknown (prediction : string) (home_score away_score : Z)
      (halftime_home halftime_away : option Z) :
  ApiFootball.has_halftime_marker prediction = true ->
  PyStr.contains "MS" prediction = false ->
  halftime_home = None \/ halftime_away = None ->
  ApiFootball.check_prediction_result prediction home_score away_score
                                      halftime_home halftime_away = None.
Proof.
  intros Hmark Hms Hunknown. unfold ApiFootball.check_prediction_result.
  rewrite Hms, Hmark.
  destruct Hunknown as [-> | ->]; [reflexivity |].
  destruct halftime_home; reflexivity.
Qed.

(** [ResultTracker.check_prediction_result]: a text that upper-cases to one
    with "IY" and "0.5 ÜST" is graded lost on every finished match whose
    half-time score is unknown. *)
Lemma tracker_halftime_unknown (prediction : string) (ft_home ft_away : Z) :
  PyStr.contains "IY" (PyStr.strip (PyStr.upper prediction)) = true ->
  PyStr.contains "0.5 ÜST" (PyStr.strip (PyStr.upper prediction)) = true ->
  ResultTracker.check_prediction_result prediction
    (Some {| ResultTracker.fulltime_home := Some ft_home;
             ResultTracker.fulltime_away := Some ft_away;
             ResultTracker.halftime_home := None;
             ResultTracker.halftime_away := None |}) = "lost".
Proof.
  intros Hiy Hover. unfold ResultTracker.check_prediction_result.
  cbn [ResultTracker.fulltime_home ResultTracker.fulltime_away
       ResultTracker.halftime_home ResultTracker.halftime_away].
  rewrite Hiy. cbn [orb]. unfold ResultTracker.halftime_chain, ResultTracker.over.
  change ("0.5" +:+ " ÜST") with "0.5 ÜST". rewrite Hover, orb_true_r.
  reflexivity.
Qed.

(** C5 at its failing inputs, a match that finished 2-1 and has no
    half-time score.  For the half-time bet "IY 0.5 ÜST" [ResultTracker]
    reads the missing score as 0-0 and grades the bet lost; the half-time
    bet "İY KG VAR" of the catalog it grades on the full-time score, won.
    [api_football.check_prediction_result] answers [None] to both.  A text
    of no known form is left ungraded by both. *)
Theorem tracker_grades_unknown_halftime :
  ResultTracker.check_prediction_result "IY 0.5 ÜST"
    (Some Examples.finished_without_halftime) = "lost"
  /\ ResultTracker.check_prediction_result "İY KG VAR"
       (Some Examples.finished_without_halftime) = "won"
  /\ ApiFootball.check_prediction_result "İY KG VAR" 2 1 None None = None
  /\ ApiFootball.check_prediction_result "IY 0.5 ÜST" 2 1 None None = None
  /\ ApiFootball.check_prediction_result "IY 0.5 ÜST" 2 1 (Some 1) (Some 0) = Some true
  /\ ResultTracker.check_prediction_result "no such bet"
       (Some Examples.finished_without_halftime) = "pending"
  /\ ApiFootball.check_prediction_result "no such bet" 2 1 None None = None.
Proof. repeat split; vm_compute; reflexivity. Qed.

(** The third testable property of the specification, on both graders. *)
Example fulltime_over_2_5 :
  ApiFootball.check_prediction_result "MS 2.5 ÜST" 2 1 None None = Some true
  /\ ApiFootball.check_prediction_result "MS 2.5 ÜST" 1 0 None None = Some false
  /\ ResultTracker.check_prediction_result "MS 2.5 ÜST"
       (Some Examples.finished_without_halftime) = "won".
Proof. repeat split; vm_compute; reflexivity. Qed.

(** ** Properties of the fixture matcher *)

(** The length test of the source only looks at the internal name. *)
Lemma side_score_length_test (norm api_norm : string) (words api_words : gset string) :
  ApiFootball.side_score norm api_norm words api_words
  = (if (ApiFootball.either_contains norm api_norm && (4 <=? PyStr.len norm))%bool
     then 2 else 0)
    + Z.of_nat (size (words ∩ api_words)).
Proof.
  unfold ApiFootball.side_score.
  destruct (ApiFootball.either_contains norm api_norm); cbn [andb]; [| reflexivity].
  destruct (4 <=? PyStr.len norm); reflexivity.
Qed.

Section FixtureMatcher.

Variables home_team away_team : string.

Local Abbreviation exact := (Spec.exact_match home_team away_team).
Local Abbreviation eligible := (Spec.eligible home_team away_team).
Local Abbreviation total := (Spec.summed_score home_team away_team).
Local Abbreviation loop := (Spec.match_loop_for home_team away_team).

Lemma match_loop_step (f : ApiFootball.Fixture) (rest : list ApiFootball.Fixture)
      (best : option ApiFootball.Fixture) (score : Z) :
  loop (f :: rest) best score
  = if exact f then Some f
    else if (eligible f && (score <? total f))%bool
         then loop rest (Some f) (total f)
         else loop rest best score.
Proof.
  unfold Spec.match_loop_for, Spec.exact_match, Spec.eligible,
    Spec.summed_score, Spec.home_side, Spec.away_side.
  cbn [ApiFootball.match_loop].
  destruct (_ && _)%bool; [reflexivity |].
  destruct (_ && _)%bool; [| reflexivity].
  cbn [andb]. reflexivity.
Qed.

(** The first candidate whose two normalized names are equal to the
    internal ones is returned, whatever was seen before it. *)
Lemma exact_match_returned (pre post : list ApiFootball.Fixture) (f : ApiFootball.Fixture)
      (best : option ApiFootball.Fixture) (score : Z) :
  Forall (fun g => exact g = false) pre -> exact f = true ->
  loop (pre ++ f :: post) best score = Some f.
Proof.
  intros Hpre Hf. revert best score.
  induction Hpre as [| g pre Hg _ IH]; intros best score; cbn [app];
    rewrite match_loop_step.
  - rewrite Hf. reflexivity.
  - rewrite Hg. destruct (_ && _)%bool; apply IH.
Qed.

(** Without an exact candidate the loop keeps its best candidate unless a
    later eligible one scores strictly more; it ends with the first
    candidate of the highest summed score. *)
Lemma best_candidate_returned (fixtures : list ApiFootball.Fixture)
      (best : option ApiFootball.Fixture) (score : Z) :
  Forall (fun g => exact g = false) fixtures ->
  (loop fixtures best score = best
   /\ Forall (fun g => eligible g = true -> total g <= score) fixtures)
  \/ (exists pre f post,
        fixtures = pre ++ f :: post
        /\ loop fixtures best score = Some f
        /\ eligible f = true /\ score < total f
        /\ Forall (fun g => eligible g = true -> total g < total f) pre
        /\ Forall (fun g => eligible g = true -> total g <= total f) post).
Proof.
  intros Hno. revert best score.
  induction Hno as [| f rest Hf _ IH]; intros best score.
  - left. split; [reflexivity | constructor].
  - rewrite match_loop_step, Hf.
    destruct (eligible f) eqn:He; cbn [andb].
    + destruct (Z.ltb_spec score (total f)) as [Hlt | Hge].
      * right. destruct (IH (Some f) (total f))
          as [[Hr Hall] | (pre & f' & post & -> & Hr & He' & Hlt' & Hpre & Hpost)].
        -- exists [], f, rest. repeat split; try assumption. constructor.
        -- exists (f :: pre), f', post. repeat split; try assumption.
           ++ lia.
           ++ constructor; [intros _; exact Hlt' | exact Hpre].
      * destruct (IH best score)
          as [[Hr Hall] | (pre & f' & post & -> & Hr & He' & Hlt' & Hpre & Hpost)].
        -- left. split; [exact Hr |]. constructor; [intros _; exact Hge | exact Hall].
        -- right. exists (f :: pre), f', post. repeat split; try assumption.
           constructor; [intros _; lia | exact Hpre].
    + destruct (IH best score)
        as [[Hr Hall] | (pre & f' & post & -> & Hr & He' & Hlt' & Hpre & Hpost)].
      * left. split; [exact Hr |]. constructor; [congruence | exact Hall].
      * right. exists (f :: pre), f', post. repeat split; try assumption.
        constructor; [congruence | exact Hpre].
Qed.

(** No candidate exact or eligible: the answer is [None]. *)
Lemma no_candidate_none (fixtures : list ApiFootball.Fixture) :
  Forall (fun g => exact g = false) fixtures ->
  Forall (fun g => eligible g = false) fixtures ->
  ApiFootball.match_fixture_by_teams fixtures home_team away_team = None.
Proof.
  intros Hno Hel. change (loop fixtures None 0 = None).
  destruct (best_candidate_returned fixtures None 0 Hno)
    as [[Hr _] | (pre & f & post & -> & _ & He & _)]; [exact Hr |].
  rewrite Forall_app in Hel. destruct Hel as [_ Hel].
  inversion Hel as [| ? ? Hf _]; subst. congruence.
Qed.

End FixtureMatcher.

(** The containment bonus of the code against that of the specification:
    they agree unless the feed's name is the shorter one and has fewer than
    four characters. *)
Lemma containment_bonus_agrees (norm api_norm : string) :
  4 <= PyStr.len api_norm \/ PyStr.len norm < 4 ->
  (ApiFootball.either_contains norm api_norm && (4 <=? PyStr.len norm))%bool
  = Spec.containment_bonus_due norm api_norm.
Proof.
  intros H. unfold Spec.containment_bonus_due. f_equal.
  destruct (Z.leb_spec 4 (PyStr.len norm)),
    (Z.leb_spec 4 (Z.min (PyStr.len norm) (PyStr.len api_norm))); lia.
Qed.

(** C6 at its failing input.  The internal fixture Paulista - Fenerbahce
    against the feed's Pau FC - Fenerbahce: the home names normalize to
    "paulista" and "pau" and share no word, the shorter of the two has three
    letters, and yet the home side scores the containment bonus of 2, so the
    candidate is eligible and is returned. *)
Theorem short_name_gets_containment_bonus :
  ApiFootball.normalize "Paulista" = "paulista"
  /\ ApiFootball.normalize "Pau FC" = "pau"
  /\ PyStr.len "pau" = 3
  /\ size (ApiFootball.get_key_words "Paulista" ∩ ApiFootball.get_key_words "Pau FC") = 0%nat
  /\ Spec.containment_bonus_due "paulista" "pau" = false
  /\ ApiFootball.side_score "paulista" "pau"
       (ApiFootball.get_key_words "Paulista") (ApiFootball.get_key_words "Pau FC") = 2
  /\ ApiFootball.match_fixture_by_teams [Examples.pau_fenerbahce] "Paulista" "Fenerbahce"
     = Some Examples.pau_fenerbahce.
Proof. repeat split; vm_compute; reflexivity. Qed.

(** The fourth testable property of the specification. *)
Example galatasaray_fenerbahce_resolves :
  ApiFootball.match_fixture_by_teams
    [ {| ApiFootball.fixture_id := 1;
         ApiFootball.home_name := "GALATASARAY";
         ApiFootball.away_name := "FENERBAHCE" |} ]
    "Galatasaray SK" "Fenerbahçe"
  = Some {| ApiFootball.fixture_id := 1;
            ApiFootball.home_name := "GALATASARAY";
            ApiFootball.away_name := "FENERBAHCE" |}.
Proof. vm_compute. reflexivity. Qed.

(** ** Properties of the Wilson interval *)

Section Wilson.

Local Open Scope R_scope.

Lemma ratio_in_unit (N D : R) : 0 < D -> 0 <= N -> N <= D -> 0 <= N / D <= 1.
Proof.
  intros HD HN HND. pose proof (Rinv_0_lt_compat D HD) as Hinv. split.
  - unfold Rdiv. apply Rmult_le_pos; lra.
  - apply (Rmult_le_reg_r D); [exact HD |].
    unfold Rdiv. rewrite Rmult_assoc, Rinv_l by lra. lra.
Qed.

(** The product [z * sqrt(...)] stays within both [p + z²/2n] and
    [(1 - p) + z²/2n]. *)
Lemma wilson_margin_bounds (p t z s : R) :
  0 <= p <= 1 -> 0 < t -> 0 <= s ->
  s * s = p * (1 - p) * t + z * z * (t * t) / 4 ->
  - (p + z * z * t / 2) <= z * s <= p + z * z * t / 2
  /\ - ((1 - p) + z * z * t / 2) <= z * s <= (1 - p) + z * z * t / 2.
Proof.
  intros Hp Ht Hs Hsq.
  assert (Hw : (z * s) * (z * s)
               = z * z * (p * (1 - p) * t) + (z * z * t / 2) * (z * z * t / 2)).
  { replace ((z * s) * (z * s)) with (z * z * (s * s)) by ring. rewrite Hsq. field. }
  assert (Hzz : 0 <= z * z) by nra.
  assert (Hu : 0 <= z * z * t) by nra.
  assert (Hpp : 0 <= z * z * t * (p * p)) by (apply Rmult_le_pos; nra).
  assert (Hqq : 0 <= z * z * t * ((1 - p) * (1 - p))) by (apply Rmult_le_pos; nra).
  assert (H1 : (z * s) * (z * s) <= (p + z * z * t / 2) * (p + z * z * t / 2)) by nra.
  assert (H2 : (z * s) * (z * s)
               <= ((1 - p) + z * z * t / 2) * ((1 - p) + z * z * t / 2)) by nra.
  assert (HB1 : 0 <= p + z * z * t / 2) by nra.
  assert (HB2 : 0 <= (1 - p) + z * z * t / 2) by nra.
  repeat split; nra.
Qed.

End Wilson.

Section WilsonInterval.

Local Open Scope R_scope.

Variable norm_ppf : R -> R.

(** The interval of the code for [total > 0], before the clamps, is the
    closed form, and the closed form lies in [0,1]. *)
Lemma wilson_closed_form_unit (p n z : R) :
  0 <= p <= 1 -> 1 <= n ->
  0 <= Spec.wilson_lower p n z <= 1 /\ 0 <= Spec.wilson_upper p n z <= 1.
Proof.
  intros Hp Hn. unfold Spec.wilson_lower, Spec.wilson_upper.
  set (A := p * (1 - p) / n + z ^ 2 / (4 * n ^ 2)).
  assert (Ht : 0 < / n) by (apply Rinv_0_lt_compat; lra).
  assert (HA : A = p * (1 - p) * / n + z * z * (/ n * / n) / 4).
  { unfold A. field. lra. }
  assert (HA0 : 0 <= A).
  { rewrite HA.
    assert (0 <= p * (1 - p)) by nra.
    assert (0 <= z * z) by nra.
    assert (0 <= / n * / n) by nra.
    assert (0 <= p * (1 - p) * / n) by (apply Rmult_le_pos; lra).
    assert (0 <= z * z * (/ n * / n)) by (apply Rmult_le_pos; lra).
    lra. }
  pose proof (sqrt_pos A) as Hs.
  pose proof (sqrt_sqrt A HA0) as Hss. rewrite HA in Hss at 3.
  destruct (wilson_margin_bounds p (/ n) z (sqrt A) Hp Ht Hs Hss)
    as [[Hl1 Hu1] [Hl2 Hu2]].
  assert (Hhalf : z ^ 2 / (2 * n) = z * z * / n / 2) by (field; lra).
  assert (Hden : 1 + z ^ 2 / n = 1 + z * z * / n) by (field; lra).
  assert (Hu : 0 <= z * z * / n).
  { apply Rmult_le_pos; [nra | lra]. }
  rewrite Hhalf, Hden.
  split; apply ratio_in_unit; lra.
Qed.

Lemma wilson_code_is_closed_form (successes total : Z) (confidence : R) :
  (0 < total)%Z -> (0 <= successes <= total)%Z ->
  Learning._wilson_confidence_interval norm_ppf successes total confidence
  = (Spec.wilson_lower (IZR successes / IZR total) (IZR total)
                       (norm_ppf ((1 + confidence) / 2)),
     Spec.wilson_upper (IZR successes / IZR total) (IZR total)
                       (norm_ppf ((1 + confidence) / 2))).
Proof.
  intros Htotal Hs. unfold Learning._wilson_confidence_interval.
  destruct (Z.eqb_spec total 0) as [-> | _]; [lia |].
  set (z := norm_ppf ((1 + confidence) / 2)).
  set (n := IZR total). set (p := IZR successes / n).
  assert (Hn : 1 <= n) by (apply IZR_le; lia).
  assert (Hp : 0 <= p <= 1).
  { unfold p. apply ratio_in_unit; [lra | apply (IZR_le 0); lia | apply IZR_le; lia]. }
  assert (Hz2 : 0 <= z ^ 2) by apply pow2_ge_0.
  assert (Harg : (p * (1 - p) + z ^ 2 / (4 * n)) / n
                 = p * (1 - p) / n + z ^ 2 / (4 * n ^ 2)) by (field; lra).
  assert (Hlow : (p + z ^ 2 / (2 * n)) / (1 + z ^ 2 / n)
                 - z * sqrt ((p * (1 - p) + z ^ 2 / (4 * n)) / n) / (1 + z ^ 2 / n)
                 = Spec.wilson_lower p n z).
  { unfold Spec.wilson_lower. rewrite Harg. field. repeat split; nra. }
  assert (Hup : (p + z ^ 2 / (2 * n)) / (1 + z ^ 2 / n)
                + z * sqrt ((p * (1 - p) + z ^ 2 / (4 * n)) / n) / (1 + z ^ 2 / n)
                = Spec.wilson_upper p n z).
  { unfold Spec.wilson_upper. rewrite Harg. field. repeat split; nra. }
  rewrite Hlow, Hup.
  destruct (wilson_closed_form_unit p n z Hp Hn) as [[Hl0 Hl1] [Hu0 Hu1]].
  rewrite Rmax_right by exact Hl0. rewrite Rmin_right by exact Hu1. reflexivity.
Qed.

End WilsonInterval.

Section WilsonDigits.

Local Open Scope R_scope.

Lemma ratio_between (N D a b : R) :
  0 < D -> a * D < N -> N < b * D -> a < N / D < b.
Proof.
  intros HD Ha Hb. split; apply (Rmult_lt_reg_r D); try exact HD;
    unfold Rdiv; rewrite Rmult_assoc, Rinv_l by lra; lra.
Qed.

(** The fifth testable property of the specification, in digits: with the
    97.5% quantile of the normal distribution between 1.9599 and 1.96 (it
    is 1.959964), the interval for 24 successes out of 30 is
    (0.6269.., 0.9049..). *)
Lemma wilson_24_30_digits (norm_ppf : R -> R) :
  19599 / 10000 <= norm_ppf ((1 + 95 / 100) / 2) <= 196 / 100 ->
  let interval := Learning._wilson_confidence_interval norm_ppf 24 30 (95 / 100) in
  6269 / 10000 < fst interval < 6270 / 10000
  /\ 9049 / 10000 < snd interval < 9050 / 10000.
Proof.
  intros Hz. cbn zeta.
  rewrite (wilson_code_is_closed_form norm_ppf 24 30) by lia.
  cbn [fst snd]. unfold Spec.wilson_lower, Spec.wilson_upper.
  set (z := norm_ppf ((1 + 95 / 100) / 2)) in *.
  set (A := 24 / 30 * (1 - 24 / 30) / 30 + z ^ 2 / (4 * 30 ^ 2)).
  assert (HA : A = 16 / 3000 + z * z / 3600) by (unfold A; field).
  assert (Hzz : 19599 / 10000 * (19599 / 10000) <= z * z <= 196 / 100 * (196 / 100))
    by nra.
  assert (HA0 : 0 <= A) by (rewrite HA; lra).
  pose proof (sqrt_pos A) as Hs0.
  pose proof (sqrt_sqrt A HA0) as Hss. rewrite HA in Hss at 3.
  set (s := sqrt A) in *.
  assert (Hs : 800020 / 10000000 <= s <= 8000278 / 100000000) by (split; nra).
  assert (Hzs : 19599 / 10000 * (800020 / 10000000) <= z * s
                <= 196 / 100 * (8000278 / 100000000)) by (split; nra).
  assert (Hhalf : z ^ 2 / (2 * 30) = z * z / 60) by field.
  assert (Hden : 1 + z ^ 2 / 30 = 1 + z * z / 30) by field.
  rewrite Hhalf, Hden.
  split; apply ratio_between; lra.
Qed.

End WilsonDigits.

(** C8.  With no trial the interval is (0, 0).  With [total > 0] trials of
    which [successes] succeeded the pair returned is the closed form of the
    Wilson score interval at the normal quantile of the requested
    confidence level, and both bounds lie in [0,1].  For 24 successes out
    of 30 at 95% the pair is the closed form, and with the quantile between
    1.9599 and 1.96 it is (0.6269.., 0.9049..).  Floats are read as real
    numbers and [stats.norm.ppf] is any function. *)
Theorem wilson_interval_closed_form (norm_ppf : R -> R) (successes total : Z)
        (confidence : R) :
  Learning._wilson_confidence_interval norm_ppf successes 0 confidence = (0, 0)%R
  /\ ((0 < total)%Z -> (0 <= successes <= total)%Z ->
      let interval :=
        Learning._wilson_confidence_interval norm_ppf successes total confidence in
      let z := norm_ppf ((1 + confidence) / 2)%R in
      interval = (Spec.wilson_lower (IZR successes / IZR total) (IZR total) z,
                  Spec.wilson_upper (IZR successes / IZR total) (IZR total) z)
      /\ (0 <= fst interval <= 1)%R /\ (0 <= snd interval <= 1)%R)
  /\ Learning._wilson_confidence_interval norm_ppf 24 30 (95 / 100)
     = (Spec.wilson_lower (24 / 30) 30 (norm_ppf ((1 + 95 / 100) / 2))%R,
        Spec.wilson_upper (24 / 30) 30 (norm_ppf ((1 + 95 / 100) / 2))%R)
  /\ ((19599 / 10000 <= norm_ppf ((1 + 95 / 100) / 2) <= 196 / 100)%R ->
      let interval :=
        Learning._wilson_confidence_interval norm_ppf 24 30 (95 / 100) in
      (6269 / 10000 < fst interval < 6270 / 10000)%R
      /\ (9049 / 10000 < snd interval < 9050 / 10000)%R).
Proof.
  split; [reflexivity |]. split; [| split].
  - intros Htotal Hs. cbn zeta.
    rewrite (wilson_code_is_closed_form norm_ppf successes total confidence Htotal Hs).
    split; [reflexivity |]. cbn [fst snd].
    apply wilson_closed_form_unit.
    + apply ratio_in_unit;
        [apply (IZR_lt 0); lia | apply (IZR_le 0); lia | apply IZR_le; lia].
    + apply (IZR_le 1). lia.
  - apply (wilson_code_is_closed_form norm_ppf 24 30); lia.
  - apply wilson_24_30_digits.
Qed.

Lemma wilson_interval_closed_form_witness :
  (0 < 30)%Z /\ (0 <= 24 <= 30)%Z
  /\ (19599 / 10000 <= 196 / 100 <= 196 / 100)%R
  /\ (0 <= fst (Learning._wilson_confidence_interval
                  (fun _ => 196 / 100)%R 24 30 (95 / 100)) <= 1)%R
  /\ (6269 / 10000 < fst (Learning._wilson_confidence_interval
                            (fun _ => 196 / 100)%R 24 30 (95 / 100)) < 6270 / 10000)%R.
Proof.
  assert (H1 : (0 < 30)%Z) by lia.
  assert (H2 : (0 <= 24 <= 30)%Z) by lia.
  assert (H3 : (19599 / 10000 <= 196 / 100 <= 196 / 100)%R) by lra.
  pose proof (wilson_interval_closed_form (fun _ => 196 / 100)%R 24 30 (95 / 100))
    as (_ & Hform & _ & Hdigits).
  split; [exact H1 |]. split; [exact H2 |]. split; [exact H3 |]. split.
  - exact (proj1 (proj2 (Hform H1 H2))).
  - exact (proj1 (Hdigits H3)).
Defined.


(** * Further properties of the code *)

(** ** engine.py: the odds matcher *)

Lemma pair_satisfied_wider (t t' : Q) (snapshot : gmap string (option Q))
      (pair : string * Q) :
  (t <= t')%Q -> Spec.pair_satisfied t snapshot pair ->
  Spec.pair_satisfied t' snapshot pair.
Proof.
  intros Htt (v & Hv & Hle). exists v. split; [exact Hv |].
  eapply Qle_trans; [exact Hle | exact Htt].
Qed.

(** [check_odds_match] as a proposition, on any snapshot. *)
Lemma check_odds_match_true (self : Engine.Self) (m : Match)
      (signature : list (string * Q)) :
  (Engine.check_odds_match self (opening_odds m) signature false = true
   <-> Spec.snapshot_of m <> ∅
       /\ Spec.signature_matches (Engine.tolerance self) (Spec.snapshot_of m) signature)
  /\ (Engine.check_odds_match self (opening_odds m) signature true = true
      <-> Spec.snapshot_of m <> ∅
          /\ ~ Spec.exclusion_triggers (Engine.tolerance self) (Spec.snapshot_of m)
                                       signature).
Proof.
  destruct (decide (Spec.snapshot_of m = ∅)) as [Hempty | Hne].
  - rewrite !check_odds_match_empty by exact Hempty.
    split; (split; [discriminate | intros [H _]; contradiction]).
  - rewrite !check_odds_match_nonempty by exact Hne.
    rewrite check_odds_loop_normal, check_odds_loop_exclude. tauto.
Qed.

(** X1.  Widening the tolerance never loses a match of a normal signature
    and never lets an exclude signature pass that did not pass before; so a
    rule without exclude signature that matches a fixture still matches it
    under every larger tolerance. *)
Theorem wider_tolerance_keeps_matches (self self' : Engine.Self) (m : Match)
        (rule : GoldenRule) :
  (Engine.tolerance self <= Engine.tolerance self')%Q ->
  (forall signature,
      Engine.check_odds_match self (opening_odds m) signature false = true ->
      Engine.check_odds_match self' (opening_odds m) signature false = true)
  /\ (forall signature,
        Engine.check_odds_match self' (opening_odds m) signature true = true ->
        Engine.check_odds_match self (opening_odds m) signature true = true)
  /\ (Engine.truthy (exclude_odds rule) = None ->
      Engine.match_rule_to_match self m rule = true ->
      Engine.match_rule_to_match self' m rule = true).
Proof.
  intros Htol.
  assert (Hnormal : forall signature,
             Engine.check_odds_match self (opening_odds m) signature false = true ->
             Engine.check_odds_match self' (opening_odds m) signature false = true).
  { intros signature H.
    apply (proj1 (check_odds_match_true self m signature)) in H as [Hne Hall].
    apply (proj1 (check_odds_match_true self' m signature)). split; [exact Hne |].
    eapply Forall_impl; [exact Hall |]. intros pair. apply pair_satisfied_wider. exact Htol. }
  split; [exact Hnormal |]. split.
  - intros signature H.
    apply (proj2 (check_odds_match_true self' m signature)) in H as [Hne Hno].
    apply (proj2 (check_odds_match_true self m signature)). split; [exact Hne |].
    intros Hex. apply Hno. unfold Spec.exclusion_triggers in *.
    rewrite Exists_exists in *. destruct Hex as (pair & Hin & Hsat).
    exists pair. split; [exact Hin |]. eapply pair_satisfied_wider; eassumption.
  - intros Hexc. unfold Engine.match_rule_to_match. rewrite Hexc.
    destruct (Engine.check_odds_match self (opening_odds m) (primary_odds rule) false)
      eqn:Hp; cbn [negb]; [| discriminate].
    rewrite (Hnormal _ Hp). cbn [negb].
    destruct (Engine.truthy (secondary_odds rule)) as [sec |]; [| reflexivity].
    destruct (Engine.check_odds_match self (opening_odds m) sec false) eqn:Hs;
      cbn [negb]; [| discriminate].
    rewrite (Hnormal _ Hs). reflexivity.
Qed.

(** X2.  The answer of [check_odds_match] does not depend on the order in
    which the rule's dict lists its pairs. *)
Theorem check_odds_match_order_free (self : Engine.Self) (m : Match)
        (signature signature' : list (string * Q)) (is_exclude : bool) :
  Permutation signature signature' ->
  Engine.check_odds_match self (opening_odds m) signature is_exclude
  = Engine.check_odds_match self (opening_odds m) signature' is_exclude.
Proof.
  intros Hperm. apply eq_true_iff_eq.
  destruct is_exclude.
  - rewrite !(proj2 (check_odds_match_true self m _)).
    unfold Spec.exclusion_triggers. rewrite !Exists_exists.
    split; intros [Hne Hno]; (split; [exact Hne |]);
      intros (pair & Hin & Hsat); apply Hno; exists pair; (split; [| exact Hsat]);
      rewrite list_elem_of_In in *.
    + eapply Permutation_in; [symmetry; exact Hperm | exact Hin].
    + eapply Permutation_in; [exact Hperm | exact Hin].
  - rewrite !(proj1 (check_odds_match_true self m _)).
    unfold Spec.signature_matches.
    split; intros [Hne Hall]; (split; [exact Hne |]).
    + eapply Permutation_Forall; [exact Hperm | exact Hall].
    + eapply Permutation_Forall; [symmetry; exact Hperm | exact Hall].
Qed.

Lemma wider_tolerance_keeps_matches_witness :
  (Engine.tolerance Examples.engine
   <= Engine.tolerance {| Engine.min_confidence := 85; Engine.tolerance := 0.01;
                          Engine.golden_rules := [Examples.rule_30] |})%Q
  /\ (Engine.truthy (exclude_odds Examples.rule_30) = None ->
      Engine.match_rule_to_match Examples.engine Examples.fixture_233
                                 Examples.rule_30 = true ->
      Engine.match_rule_to_match
        {| Engine.min_confidence := 85; Engine.tolerance := 0.01;
           Engine.golden_rules := [Examples.rule_30] |}
        Examples.fixture_233 Examples.rule_30 = true).
Proof.
  assert (H : (Engine.tolerance Examples.engine
               <= Engine.tolerance {| Engine.min_confidence := 85;
                                      Engine.tolerance := 0.01;
                                      Engine.golden_rules := [Examples.rule_30] |})%Q)
    by (unfold Qle; simpl; lia).
  split; [exact H |].
  exact (proj2 (proj2 (wider_tolerance_keeps_matches Examples.engine _
                         Examples.fixture_233 Examples.rule_30 H))).
Defined.

Lemma check_odds_match_order_free_witness :
  Permutation [("4-5", 4.76%Q); ("3,5 A", 1.10%Q)] [("3,5 A", 1.10%Q); ("4-5", 4.76%Q)]
  /\ Engine.check_odds_match Examples.engine (opening_odds Examples.fixture_233)
       [("4-5", 4.76%Q); ("3,5 A", 1.10%Q)] false
     = Engine.check_odds_match Examples.engine (opening_odds Examples.fixture_233)
         [("3,5 A", 1.10%Q); ("4-5", 4.76%Q)] false.
Proof.
  assert (H : Permutation [("4-5", 4.76%Q); ("3,5 A", 1.10%Q)]
                          [("3,5 A", 1.10%Q); ("4-5", 4.76%Q)])
    by apply perm_swap.
  split; [exact H |].
  exact (check_odds_match_order_free Examples.engine Examples.fixture_233 _ _ false H).
Defined.

(** ** engine.py: the confidence calculator *)

Lemma importance_bonus_range (imp : string) :
  0 <= assoc_get Engine.importance_bonus imp 0 <= 3.
Proof.
  unfold Engine.importance_bonus. cbn [assoc_get].
  repeat (match goal with |- context [String.eqb ?a ?b] => destruct (String.eqb a b) end;
          [lia |]).
  lia.
Qed.

(** X3.  Whatever the importance text of the rule, a confidence is at least
    [min(100, base)] and at most [min(100, base + 6)], and no prediction of a
    rule scores higher than the rule's first-listed prediction. *)
Theorem confidence_bounds (rule : GoldenRule) (prediction : string) :
  Z.min 100 (confidence_base rule) <= Engine.calculate_confidence rule prediction
  /\ Engine.calculate_confidence rule prediction
     <= Z.min 100 (confidence_base rule + 6)
  /\ Engine.calculate_confidence rule prediction
     <= Engine.calculate_confidence rule (List.hd prediction (predictions rule)).
Proof.
  unfold Engine.calculate_confidence.
  pose proof (importance_bonus_range (importance rule)) as Himp.
  rewrite rarity_bonus_cases.
  pose proof (rarity_bonus_range (List.length (predictions rule))) as Hrar.
  destruct (predictions rule) as [| p0 rest]; cbn [List.hd].
  - lia.
  - rewrite String.eqb_refl. destruct (String.eqb prediction p0); lia.
Qed.

(** ** engine.py: the opportunity processor *)

(** X4.  Fixtures without odds (null or the empty object) never give an
    opportunity and never make the processor raise, whatever the catalog. *)
Theorem no_odds_no_opportunity (self : Engine.Self) (matches : list Match) :
  Forall (fun m => Spec.snapshot_of m = ∅) matches ->
  Engine.process_matches self matches = Ok [].
Proof.
  intros Hall. unfold Engine.process_matches. generalize (@nil Engine.Opportunity).
  induction Hall as [| m matches Hm _ IH]; intros acc; cbn [Engine.process_loop];
    [reflexivity |].
  assert (Hnone : Engine.collect_matched_rules self m = []).
  { rewrite collect_matched_rules_eq. unfold Spec.matching_rules.
    replace (List.filter (Engine.match_rule_to_match self m) (Engine.golden_rules self))
      with (@nil GoldenRule); [reflexivity |].
    symmetry. induction (Engine.golden_rules self) as [| rule rules IHr];
      [reflexivity |].
    cbn [List.filter]. unfold Engine.match_rule_to_match at 1.
    rewrite check_odds_match_empty by exact Hm. cbn [negb]. exact IHr. }
  unfold Engine.process_match. rewrite Hnone. cbn [mbind result_bind].
  apply IH.
Qed.

Lemma no_odds_no_opportunity_witness :
  Forall (fun m => Spec.snapshot_of m = ∅)
         [Examples.fixture_on None; Examples.fixture_on (Some ∅)]
  /\ Engine.process_matches Examples.engine
       [Examples.fixture_on None; Examples.fixture_on (Some ∅)] = Ok [].
Proof.
  assert (H : Forall (fun m => Spec.snapshot_of m = ∅)
                     [Examples.fixture_on None; Examples.fixture_on (Some ∅)])
    by (repeat constructor).
  split; [exact H |].
  exact (no_odds_no_opportunity Examples.engine _ H).
Defined.

(** What [process_match] guarantees about an opportunity it returns. *)
Lemma process_match_some (self : Engine.Self) (m : Match) (opp : Engine.Opportunity) :
  Engine.process_match self m = Ok (Some opp) ->
  Engine.o_match_id opp = match_id m
  /\ Engine.min_confidence self <= Engine.o_confidence opp
  /\ Forall (fun e => Engine.confidence e <= Engine.o_confidence opp)
            (Engine.alternative_predictions opp)
  /\ Spec.descending (Engine.alternative_predictions opp)
  /\ exists rule,
       In rule (Engine.golden_rules self)
       /\ Engine.match_rule_to_match self m rule = true
       /\ In (Engine.o_prediction opp) (predictions rule)
       /\ Engine.o_confidence opp
          = Engine.calculate_confidence rule (Engine.o_prediction opp)
       /\ In (id rule, name rule) (Engine.matched_rules opp).
Proof.
  unfold Engine.process_match.
  rewrite collect_predictions_eq, collect_matched_rules_eq.
  destruct (Spec.matching_rules self m) as [| r rs] eqn:Hm; [discriminate |].
  rewrite <- Hm. cbn [map].
  pose proof (sort_perm (Spec.scored_pairs self m)) as Hperm.
  pose proof (sort_sorted (Spec.scored_pairs self m)) as Hsorted.
  destruct (Engine.sort_by_confidence_desc (Spec.scored_pairs self m))
    as [| best rest]; [rewrite Hm; discriminate |].
  rewrite Hm at 1.
  destruct (Z.leb_spec (Engine.min_confidence self) (Engine.confidence best))
    as [Hmin | _]; [| discriminate].
  intros [= <-]. cbn.
  unfold Spec.descending in Hsorted. apply StronglySorted_inv in Hsorted as [Hrest Hall].
  split; [reflexivity |]. split; [exact Hmin |]. split; [exact Hall |].
  split; [exact Hrest |].
  assert (Hin : In best (Spec.scored_pairs self m)).
  { eapply Permutation_in; [symmetry; exact Hperm | left; reflexivity]. }
  unfold Spec.scored_pairs in Hin. apply in_flat_map in Hin as (rule & Hrule & Hbest).
  apply in_map_iff in Hbest as (p & <- & Hp).
  exists rule. unfold Spec.matching_rules in Hrule.
  pose proof Hrule as Hrule'. apply filter_In in Hrule as [Hcat Hmatch]. cbn.
  repeat split; try assumption.
  rewrite map_map. cbn.
  apply in_map_iff. exists rule. split; [reflexivity | exact Hrule'].
Qed.

Lemma process_loop_ok (self : Engine.Self) (matches : list Match)
      (acc opps : list Engine.Opportunity) :
  Engine.process_loop self matches acc = Ok opps ->
  exists new,
    opps = acc ++ new
    /\ (List.length new <= List.length matches)%nat
    /\ Forall (fun opp => exists m, In m matches
                                    /\ Engine.process_match self m = Ok (Some opp)) new.
Proof.
  revert acc. induction matches as [| m matches IH]; intros acc; cbn [Engine.process_loop].
  - intros [= <-]. exists []. rewrite app_nil_r. repeat split; [cbn; lia | constructor].
  - destruct (Engine.process_match self m) as [[opp |] | e] eqn:Hm;
      cbn [mbind result_bind]; [| | discriminate].
    + intros H. apply IH in H as (new & -> & Hlen & Hall).
      exists (opp :: new). rewrite <- app_assoc. repeat split; [cbn; lia |].
      constructor.
      * exists m. split; [left; reflexivity | exact Hm].
      * eapply Forall_impl; [exact Hall |]. cbn.
        intros o (m' & Hin & Ho). exists m'. split; [right; exact Hin | exact Ho].
    + intros H. apply IH in H as (new & -> & Hlen & Hall).
      exists new. repeat split; [cbn; lia |].
      eapply Forall_impl; [exact Hall |]. cbn.
      intros o (m' & Hin & Ho). exists m'. split; [right; exact Hin | exact Ho].
Qed.

(** X5.  When [process_matches] returns, it returns at most one opportunity
    per fixture, and each opportunity belongs to a fixture of the batch, has
    a confidence that reaches the minimum and is no lower than any of its
    alternatives, which are in descending order; its prediction and
    confidence come from a rule of the catalog that matches the fixture and
    is listed in [matched_rules]. *)
Theorem opportunities_invariants (self : Engine.Self) (matches : list Match)
        (opps : list Engine.Opportunity) :
  Engine.process_matches self matches = Ok opps ->
  (List.length opps <= List.length matches)%nat
  /\ Forall
       (fun opp =>
          Engine.min_confidence self <= Engine.o_confidence opp
          /\ Forall (fun e => Engine.confidence e <= Engine.o_confidence opp)
                    (Engine.alternative_predictions opp)
          /\ Spec.descending (Engine.alternative_predictions opp)
          /\ exists m rule,
               In m matches /\ Engine.o_match_id opp = match_id m
               /\ In rule (Engine.golden_rules self)
               /\ Engine.match_rule_to_match self m rule = true
               /\ In (Engine.o_prediction opp) (predictions rule)
               /\ Engine.o_confidence opp
                  = Engine.calculate_confidence rule (Engine.o_prediction opp)
               /\ In (id rule, name rule) (Engine.matched_rules opp))
       opps.
Proof.
  intros H. apply process_loop_ok in H as (new & -> & Hlen & Hall). cbn [app].
  split; [exact Hlen |].
  eapply Forall_impl; [exact Hall |]. cbn.
  intros opp (m & Hin & Hm).
  apply process_match_some in Hm as (Hid & Hmin & Halt & Hdesc & rule & Hr).
  split; [exact Hmin |]. split; [exact Halt |]. split; [exact Hdesc |].
  exists m, rule. tauto.
Qed.

Lemma opportunities_invariants_witness :
  Engine.process_matches Examples.engine [Examples.fixture_233]
  = Ok [ {| Engine.o_match_id := 1;
            Engine.o_home_team := "Galatasaray";
            Engine.o_away_team := "Fenerbahce";
            Engine.o_league := "Super Lig";
            Engine.o_match_date := "2026-03-01";
            Engine.o_match_time := None;
            Engine.o_prediction := "İY 0.5 ÜST";
            Engine.o_confidence := 94;
            Engine.alternative_predictions :=
              [ Spec.entry_of Examples.rule_30 "İY 1.5 ÜST";
                Spec.entry_of Examples.rule_30 "İY EV 0.5 ÜST" ];
            Engine.matched_rules := [(30, "4-5 gol 2.33")];
            Engine.note := "3 tahmin mevcut" |} ]
  /\ (1 <= List.length [Examples.fixture_233])%nat.
Proof.
  assert (H : Engine.process_matches Examples.engine [Examples.fixture_233]
              = Ok [ {| Engine.o_match_id := 1;
                        Engine.o_home_team := "Galatasaray";
                        Engine.o_away_team := "Fenerbahce";
                        Engine.o_league := "Super Lig";
                        Engine.o_match_date := "2026-03-01";
                        Engine.o_match_time := None;
                        Engine.o_prediction := "İY 0.5 ÜST";
                        Engine.o_confidence := 94;
                        Engine.alternative_predictions :=
                          [ Spec.entry_of Examples.rule_30 "İY 1.5 ÜST";
                            Spec.entry_of Examples.rule_30 "İY EV 0.5 ÜST" ];
                        Engine.matched_rules := [(30, "4-5 gol 2.33")];
                        Engine.note := "3 tahmin mevcut" |} ])
    by (vm_compute; reflexivity).
  split; [exact H |].
  exact (proj1 (opportunities_invariants Examples.engine _ _ H)).
Defined.

Lemma process_loop_acc (self : Engine.Self) (matches : list Match)
      (acc : list Engine.Opportunity) :
  Engine.process_loop self matches acc
  = (new ← Engine.process_loop self matches []; Ok (acc ++ new)).
Proof.
  revert acc. induction matches as [| m matches IH]; intros acc; cbn [Engine.process_loop].
  - cbn. rewrite app_nil_r. reflexivity.
  - destruct (Engine.process_match self m) as [[opp |] | e]; cbn [mbind result_bind];
      [| apply IH | reflexivity].
    rewrite IH, (IH ([] ++ [opp])).
    destruct (Engine.process_loop self matches []) as [new | e];
      cbn [mbind result_bind]; [| reflexivity].
    rewrite <- app_assoc. reflexivity.
Qed.

(** X6.  Fixtures are processed independently: the result for a batch cut
    in two is the result for the first part followed by the result for the
    second, and the batch raises exactly when one of the parts does. *)
Theorem process_matches_app (self : Engine.Self) (matches1 matches2 : list Match) :
  Engine.process_matches self (matches1 ++ matches2)
  = (opps1 ← Engine.process_matches self matches1;
     opps2 ← Engine.process_matches self matches2;
     Ok (opps1 ++ opps2)).
Proof.
  unfold Engine.process_matches.
  induction matches1 as [| m matches1 IH]; cbn [app Engine.process_loop].
  - cbn. destruct (Engine.process_loop self matches2 []); reflexivity.
  - destruct (Engine.process_match self m) as [[opp |] | e]; cbn [mbind result_bind];
      [| exact IH | reflexivity].
    rewrite (process_loop_acc self (matches1 ++ matches2)), IH.
    rewrite (process_loop_acc self matches1 [opp]).
    destruct (Engine.process_loop self matches1 []) as [o1 |]; cbn [mbind result_bind];
      [| reflexivity].
    destruct (Engine.process_loop self matches2 []) as [o2 |]; cbn [mbind result_bind];
      [| reflexivity].
    rewrite app_assoc. reflexivity.
Qed.

(** ** engine.py: saving and cleaning predictions *)

Lemma batches_concat {A} (n fuel : nat) (l : list A) :
  (0 < n)%nat -> (List.length l <= fuel)%nat ->
  concat (Engine.batches fuel n l) = l
  /\ Forall (fun b => b <> [] /\ (List.length b <= n)%nat) (Engine.batches fuel n l).
Proof.
  intros Hn. revert l. induction fuel as [| fuel IH]; intros l Hlen.
  - destruct l; [split; [reflexivity | constructor] | cbn in Hlen; lia].
  - destruct l as [| x l]; [split; [reflexivity | constructor] |].
    cbn [Engine.batches].
    assert (Hskip : (List.length (skipn n (x :: l)) <= fuel)%nat).
    { rewrite length_skipn. cbn [List.length] in *. lia. }
    destruct (IH _ Hskip) as [Hc Hall]. split.
    + cbn [concat]. rewrite Hc. apply firstn_skipn.
    + constructor; [| exact Hall]. split.
      * destruct n; [lia | discriminate].
      * rewrite length_firstn. lia.
Qed.

Lemma batches_firstn {A} (n fuel k : nat) (l : list A) :
  (0 < n)%nat -> (List.length l <= fuel)%nat ->
  concat (firstn k (Engine.batches fuel n l)) = firstn (k * n) l.
Proof.
  intros Hn. revert l k. induction fuel as [| fuel IH]; intros l k Hlen.
  - destruct l; [| cbn in Hlen; lia]. cbn. rewrite !firstn_nil. reflexivity.
  - destruct l as [| x l]; [cbn; rewrite !firstn_nil; reflexivity |].
    cbn [Engine.batches]. destruct k as [| k]; [reflexivity |].
    cbn [firstn concat].
    assert (Hskip : (List.length (skipn n (x :: l)) <= fuel)%nat).
    { rewrite length_skipn. cbn [List.length] in *. lia. }
    rewrite (IH _ k Hskip).
    replace (S k * n)%nat with (n + k * n)%nat by lia.
    apply take_take_drop.
Qed.

Lemma batches_length {A} (n fuel k : nat) (l : list A) :
  (0 < n)%nat -> (List.length l <= fuel)%nat ->
  (k < List.length (Engine.batches fuel n l))%nat <-> (k * n < List.length l)%nat.
Proof.
  intros Hn. revert l k. induction fuel as [| fuel IH]; intros l k Hlen.
  - destruct l; [cbn; lia | cbn in Hlen; lia].
  - destruct l as [| x l]; [cbn; lia |].
    cbn [Engine.batches].
    assert (Hskip : (List.length (skipn n (x :: l)) <= fuel)%nat).
    { rewrite length_skipn. cbn [List.length] in *. lia. }
    destruct k as [| k]; [cbn; lia |].
    cbn [List.length]. rewrite <- Nat.succ_lt_mono, (IH _ k Hskip), length_skipn.
    cbn [List.length]. lia.
Qed.

(** The inserts: with no failing batch among them all rows are appended;
    with a failing batch the rows of the batches before it are. *)
Lemma insert_batches_result (st : Engine.Storage)
      (bs : list (list Engine.StoredPrediction)) (i : nat) (count : Z) (db : Engine.Db) :
  let out := Engine.insert_batches st i bs count db in
  Engine.runs (snd out) = Engine.runs db
  /\ match Engine.insert_error st with
     | Some (k, msg) =>
         if ((i <=? k)%nat && (k - i <? List.length bs)%nat)%bool
         then fst out = Raise (StorageError msg)
              /\ Engine.predictions_table (snd out)
                 = Engine.predictions_table db ++ concat (firstn (k - i) bs)
         else fst out = Ok (count + Z.of_nat (List.length (concat bs)))
              /\ Engine.predictions_table (snd out)
                 = Engine.predictions_table db ++ concat bs
     | None =>
         fst out = Ok (count + Z.of_nat (List.length (concat bs)))
         /\ Engine.predictions_table (snd out) = Engine.predictions_table db ++ concat bs
     end.
Proof.
  cbn zeta. revert i count db.
  induction bs as [| batch rest IH]; intros i count db; cbn [Engine.insert_batches].
  - split; [reflexivity |].
    destruct (Engine.insert_error st) as [[k msg] |]; cbn [List.length concat].
    + replace (k - i <? 0)%nat with false by (symmetry; apply Nat.ltb_ge; lia).
      rewrite andb_false_r, app_nil_r, Z.add_0_r. split; reflexivity.
    + rewrite app_nil_r, Z.add_0_r. split; reflexivity.
  - specialize (IH (S i) (count + Z.of_nat (List.length batch))
                   {| Engine.runs := Engine.runs db;
                      Engine.predictions_table := Engine.predictions_table db ++ batch |}).
    cbn [Engine.runs Engine.predictions_table] in IH.
    destruct IH as [Hruns IH].
    destruct (Engine.insert_error st) as [[k msg] |].
    + destruct (Nat.eqb_spec k i) as [-> | Hne].
      * split; [reflexivity |].
        rewrite Nat.leb_refl, Nat.sub_diag. cbn. rewrite app_nil_r.
        split; reflexivity.
      * split; [exact Hruns |].
        cbn [List.length concat].
        destruct (Nat.leb_spec (S i) k) as [Hle | Hgt].
        -- replace (i <=? k)%nat with true by (symmetry; apply Nat.leb_le; lia).
           cbn [andb] in *.
           destruct (Nat.ltb_spec (k - S i) (List.length rest)) as [Hin | Hout].
           ++ replace (k - i <? S (List.length rest))%nat with true
                by (symmetry; apply Nat.ltb_lt; lia).
              destruct IH as [Hfst Htab]. split; [exact Hfst |].
              rewrite Htab. replace (k - i)%nat with (S (k - S i)) by lia.
              cbn [firstn concat]. rewrite app_assoc. reflexivity.
           ++ replace (k - i <? S (List.length rest))%nat with false
                by (symmetry; apply Nat.ltb_ge; lia).
              destruct IH as [Hfst Htab]. rewrite Hfst, Htab, length_app, <- app_assoc.
              split; [f_equal; lia | reflexivity].
        -- cbn [andb] in IH.
           replace (i <=? k)%nat with false by (symmetry; apply Nat.leb_gt; lia).
           cbn [andb]. destruct IH as [Hfst Htab].
           rewrite Hfst, Htab, length_app, <- app_assoc.
           split; [f_equal; lia | reflexivity].
    + split; [exact Hruns |]. destruct IH as [Hfst Htab]. cbn [concat].
      rewrite Hfst, Htab, length_app, <- app_assoc.
      split; [f_equal; lia | reflexivity].
Qed.

(** X7.  [save_predictions] never touches the table of runs, and stores the
    opportunities as rows marked active and pending under the id of the
    run, in their order.  If no insert request raises it stores them all and
    returns their number.  If the request of batch [k] (of 100 rows, counted
    from 0) raises, the exception goes up and exactly the first [100 * k]
    rows remain stored. *)
Theorem save_predictions_result (st : Engine.Storage) (rid : option Z)
        (db : Engine.Db) (opps : list Engine.Opportunity) :
  let rows :=
    map (fun opp => {| Engine.sp_opportunity := opp;
                       Engine.sp_run_id := rid;
                       Engine.sp_status := "active";
                       Engine.sp_result := "pending" |}) opps in
  let out := Engine.save_predictions st rid db opps in
  Engine.runs (snd out) = Engine.runs db
  /\ match Engine.insert_error st with
     | Some (k, msg) =>
         if (k * 100 <? List.length opps)%nat
         then fst out = Raise (StorageError msg)
              /\ Engine.predictions_table (snd out)
                 = Engine.predictions_table db ++ firstn (k * 100) rows
         else fst out = Ok (Z.of_nat (List.length opps))
              /\ Engine.predictions_table (snd out)
                 = Engine.predictions_table db ++ rows
     | None =>
         fst out = Ok (Z.of_nat (List.length opps))
         /\ Engine.predictions_table (snd out) = Engine.predictions_table db ++ rows
     end.
Proof.
  cbn zeta. unfold Engine.save_predictions.
  destruct opps as [| opp opps].
  - cbn [map fst snd List.length]. split; [reflexivity |].
    destruct (Engine.insert_error st) as [[k msg] |]; rewrite ?app_nil_r.
    + replace (k * 100 <? 0)%nat with false by (symmetry; apply Nat.ltb_ge; lia).
      split; reflexivity.
    + split; reflexivity.
  - set (rows := map _ (opp :: opps)).
    assert (Hlen : List.length rows = List.length (opp :: opps))
      by (unfold rows; apply length_map).
    pose proof (insert_batches_result st
                  (Engine.batches (List.length rows) 100 rows) 0 0 db) as [Hruns H].
    cbn zeta in Hruns, H. split; [exact Hruns |].
    destruct (batches_concat 100 (List.length rows) rows ltac:(lia) ltac:(lia))
      as [Hconcat _].
    rewrite Hconcat in H.
    destruct (Engine.insert_error st) as [[k msg] |].
    + cbn [Nat.leb andb] in H. rewrite Nat.sub_0_r in H.
      pose proof (batches_length 100 (List.length rows) k rows ltac:(lia) ltac:(lia))
        as Hk.
      rewrite <- Hlen.
      destruct (Nat.ltb_spec (k * 100) (List.length rows)) as [Hin | Hout].
      * replace (k <? List.length (Engine.batches (List.length rows) 100 rows))%nat
          with true in H by (symmetry; apply Nat.ltb_lt; apply Hk; exact Hin).
        rewrite batches_firstn in H by lia. exact H.
      * replace (k <? List.length (Engine.batches (List.length rows) 100 rows))%nat
          with false in H by (symmetry; apply Nat.ltb_ge; lia).
        exact H.
    + rewrite <- Hlen. exact H.
Qed.

(** X8.  [archive_old_predictions] never raises and never touches the table
    of runs.  If the delete request raises it returns 0 and changes nothing.
    Otherwise it removes the active predictions of the date range and no
    other row (the rest keeps its order), returns how many it removed, and a
    second call finds nothing to remove. *)
Theorem archive_old_predictions_result (st : Engine.Storage) (db : Engine.Db)
        (date_from date_to : string) :
  let out := Engine.archive_old_predictions st db date_from date_to in
  Engine.runs (snd out) = Engine.runs db
  /\ match Engine.delete_error st with
     | Some _ => out = (0, db)
     | None =>
         Engine.predictions_table (snd out)
         = List.filter (fun p => negb (Engine.stale date_from date_to p))
                       (Engine.predictions_table db)
         /\ Forall (fun p => Engine.stale date_from date_to p = false)
                   (Engine.predictions_table (snd out))
         /\ fst out
            = Z.of_nat (List.length (Engine.predictions_table db))
              - Z.of_nat (List.length (Engine.predictions_table (snd out)))
         /\ Engine.archive_old_predictions st (snd out) date_from date_to
            = (0, snd out)
     end.
Proof.
  cbn zeta. unfold Engine.archive_old_predictions.
  destruct (Engine.delete_error st) as [msg |]; [split; reflexivity |].
  cbn [fst snd Engine.runs Engine.predictions_table].
  set (table := Engine.predictions_table db).
  assert (Hclean : Forall (fun p => Engine.stale date_from date_to p = false)
                          (List.filter (fun p => negb (Engine.stale date_from date_to p))
                                       table)).
  { apply Forall_forall. intros p Hp. apply list_elem_of_In in Hp.
    apply filter_In in Hp as [_ Hp]. apply negb_true_iff in Hp. exact Hp. }
  split; [reflexivity |]. split; [reflexivity |]. split; [exact Hclean |]. split.
  - assert (Hsplit : forall l : list Engine.StoredPrediction,
               (List.length (List.filter (Engine.stale date_from date_to) l)
                + List.length (List.filter
                                 (fun p => negb (Engine.stale date_from date_to p)) l)
                = List.length l)%nat).
    { induction l as [| p l IH]; [reflexivity |]. cbn [List.filter].
      destruct (Engine.stale date_from date_to p); cbn [negb List.length]; lia. }
    specialize (Hsplit table). lia.
  - set (kept := List.filter _ table) in *.
    assert (Hnone : List.filter (Engine.stale date_from date_to) kept = []).
    { induction Hclean as [| p l Hp _ IH]; [reflexivity |].
      cbn [List.filter]. rewrite Hp. exact IH. }
    assert (Hall : List.filter (fun p => negb (Engine.stale date_from date_to p)) kept
                   = kept).
    { induction Hclean as [| p l Hp _ IH]; [reflexivity |].
      cbn [List.filter] in *. rewrite Hp in *. cbn [negb]. f_equal. apply IH.
      exact Hnone. }
    rewrite Hnone, Hall. reflexivity.
Qed.

(** A save that returns has stored every row. *)
Lemma save_predictions_ok (st : Engine.Storage) (rid : option Z) (db db' : Engine.Db)
      (opps : list Engine.Opportunity) (saved : Z) :
  Engine.save_predictions st rid db opps = (Ok saved, db') ->
  saved = Z.of_nat (List.length opps)
  /\ Engine.predictions_table db'
     = Engine.predictions_table db
       ++ map (fun opp => {| Engine.sp_opportunity := opp;
                             Engine.sp_run_id := rid;
                             Engine.sp_status := "active";
                             Engine.sp_result := "pending" |}) opps.
Proof.
  unfold Engine.save_predictions. destruct opps as [| opp opps].
  - intros [= <- <-]. cbn. rewrite app_nil_r. split; reflexivity.
  - set (rows := map _ (opp :: opps)).
    assert (Hlen : List.length rows = List.length (opp :: opps))
      by (unfold rows; apply length_map).
    pose proof (insert_batches_result st
                  (Engine.batches (List.length rows) 100 rows) 0 0 db) as [_ H].
    cbn zeta in H.
    destruct (batches_concat 100 (List.length rows) rows ltac:(lia) ltac:(lia))
      as [Hconcat _].
    rewrite Hconcat in H. intros Hsave. rewrite Hsave in H. cbn [fst snd] in H.
    rewrite <- Hlen.
    destruct (Engine.insert_error st) as [[k msg] |].
    + destruct (_ && _)%bool; destruct H as [Hfst Htab];
        [discriminate |
         injection Hfst as ->; split;
         [subst rows; cbn [map List.length]; lia | exact Htab]].
    + destruct H as [Hfst Htab]. injection Hfst as ->.
      split; [subst rows; cbn [map List.length]; lia | exact Htab].
Qed.

(** X9.  A run that reports success has committed its whole result: the
    run record was created, the matches were loaded, and either there was
    no match, and the table holds what the delete left, or every
    opportunity that [process_matches] found is stored after what the
    delete left, as an active, pending row of this run, and the summary
    counts the matches and these rows. *)
Theorem successful_run_commits (self : Engine.Self) (st : Engine.Storage)
        (db : Engine.Db) (date_from date_to : string) :
  let out := Engine.run self st db date_from date_to in
  let rid := Z.of_nat (List.length (Engine.runs db)) in
  Engine.success (fst out) = true ->
  Engine.insert_run_error st = None
  /\ Engine.error (fst out) = None
  /\ exists matches,
       Engine.load_answer st = Ok matches
       /\ Engine.matches_processed (fst out) = Z.of_nat (List.length matches)
       /\ ((matches = []
            /\ Engine.opportunities_found (fst out) = 0
            /\ Engine.predictions_table (snd out)
               = Spec.after_delete st db date_from date_to)
           \/ (matches <> []
               /\ exists opps,
                    Engine.process_matches self matches = Ok opps
                    /\ Engine.summary_run_id (fst out) = Some rid
                    /\ Engine.opportunities_found (fst out)
                       = Z.of_nat (List.length opps)
                    /\ Engine.predictions_table (snd out)
                       = Spec.after_delete st db date_from date_to
                         ++ map (fun opp => {| Engine.sp_opportunity := opp;
                                               Engine.sp_run_id := Some rid;
                                               Engine.sp_status := "active";
                                               Engine.sp_result := "pending" |})
                                opps)).
Proof.
  cbn zeta. unfold Engine.run.
  pose proof (create_run_predictions st db) as Hcreate.
  unfold Engine.create_run in *.
  destruct (Engine.insert_run_error st) as [msg |]; [discriminate |].
  cbn [snd] in Hcreate.
  set (db1 := {| Engine.runs := _; Engine.predictions_table := _ |}) in *.
  assert (Hdel : Engine.predictions_table
                   (snd (Engine.archive_old_predictions st db1 date_from date_to))
                 = Spec.after_delete st db date_from date_to).
  { rewrite archive_predictions. unfold Spec.after_delete. rewrite Hcreate.
    reflexivity. }
  set (db2 := snd (Engine.archive_old_predictions st db1 date_from date_to)) in *.
  destruct (Engine.load_answer st) as [[| m matches] | e]; [| | discriminate].
  - intros _. split; [reflexivity |]. split; [reflexivity |].
    exists []. split; [reflexivity |]. split; [reflexivity |]. left.
    cbn [fst snd Engine.opportunities_found].
    rewrite complete_run_predictions. repeat split. exact Hdel.
  - destruct (Engine.process_matches self (m :: matches)) as [opps | e] eqn:Hproc;
      [| discriminate].
    destruct (Engine.save_predictions st _ db2 opps) as [[saved | e] db3] eqn:Hsave;
      [| discriminate].
    apply save_predictions_ok in Hsave as [-> Htab].
    intros _. split; [reflexivity |]. split; [reflexivity |].
    exists (m :: matches). split; [reflexivity |]. split; [reflexivity |]. right.
    split; [discriminate |]. exists opps.
    cbn [fst snd Engine.opportunities_found Engine.summary_run_id].
    rewrite complete_run_predictions, Htab, Hdel. repeat split. exact Hproc.
Qed.

(** ** golden_rules.py: the shipped catalog *)

(** The shape of every rule of the catalog, checked rule by rule. *)
Lemma catalog_rule_shape :
  Forall (fun rule =>
            primary_odds rule <> [] /\ predictions rule <> []
            /\ 84 <= confidence_base rule <= 91
            /\ In (importance rule) (map fst Engine.importance_bonus))
         GoldenRules.GOLDEN_RULES.
Proof.
  assert (Hb : forallb
                 (fun rule =>
                    negb (Nat.eqb (List.length (primary_odds rule)) 0)
                    && negb (Nat.eqb (List.length (predictions rule)) 0)
                    && (84 <=? confidence_base rule) && (confidence_base rule <=? 91)
                    && PyStr.mem (importance rule) (map fst Engine.importance_bonus))
                 GoldenRules.GOLDEN_RULES = true)
    by (vm_compute; reflexivity).
  rewrite forallb_forall in Hb. apply Forall_forall. intros rule Hin.
  apply list_elem_of_In in Hin. specialize (Hb rule Hin).
  apply andb_true_iff in Hb as [Hb Himp].
  apply andb_true_iff in Hb as [Hb Hhigh].
  apply andb_true_iff in Hb as [Hb Hlow].
  apply andb_true_iff in Hb as [Hprim Hpred].
  repeat split.
  - destruct (primary_odds rule); discriminate.
  - destruct (predictions rule); discriminate.
  - lia.
  - lia.
  - unfold PyStr.mem in Himp. apply existsb_exists in Himp as (x & Hx & Heq).
    apply String.eqb_eq in Heq. subst x. exact Hx.
Qed.

(** X10.  The catalog has 62 rules with pairwise distinct ids; every rule
    has a primary signature and at least one prediction, a base between 84
    and 91, and one of the importance texts that the confidence calculator
    knows. *)
Theorem catalog_well_formed :
  List.length GoldenRules.GOLDEN_RULES = 62%nat
  /\ NoDup (map id GoldenRules.GOLDEN_RULES)
  /\ Forall (fun rule =>
               primary_odds rule <> [] /\ predictions rule <> []
               /\ 84 <= confidence_base rule <= 91
               /\ In (importance rule) (map fst Engine.importance_bonus))
            GoldenRules.GOLDEN_RULES.
Proof.
  split; [reflexivity |]. split.
  - apply (bool_decide_unpack _). vm_compute. exact I.
  - exact catalog_rule_shape.
Qed.

(** The head of the sorted list is a maximum of the list. *)
Lemma sorted_head_max (l : list Engine.PredEntry) (top : Engine.PredEntry)
      (rest : list Engine.PredEntry) :
  Engine.sort_by_confidence_desc l = top :: rest ->
  In top l /\ forall e, In e l -> Engine.confidence e <= Engine.confidence top.
Proof.
  intros Hs. pose proof (sort_perm l) as Hperm. pose proof (sort_sorted l) as Hsorted.
  rewrite Hs in Hperm, Hsorted. unfold Spec.descending in Hsorted.
  apply StronglySorted_inv in Hsorted as [_ Hall]. split.
  - eapply Permutation_in; [symmetry; exact Hperm | left; reflexivity].
  - intros e He. apply (Permutation_in _ Hperm) in He as [<- | He]; [lia |].
    rewrite Forall_forall in Hall. apply Hall. apply list_elem_of_In. exact He.
Qed.

(** The confidence of an entry scored from a rule with a base between 84
    and 91. *)
Lemma catalog_confidence_range (rule : GoldenRule) (prediction : string) :
  84 <= confidence_base rule <= 91 ->
  84 <= Engine.calculate_confidence rule prediction <= 97
  /\ (Spec.is_first_listed rule prediction = true ->
      85 <= Engine.calculate_confidence rule prediction).
Proof.
  intros Hbase. unfold Engine.calculate_confidence, Spec.is_first_listed.
  pose proof (importance_bonus_range (importance rule)) as Himp.
  rewrite rarity_bonus_cases.
  pose proof (rarity_bonus_range (List.length (predictions rule))) as Hrar.
  destruct (predictions rule) as [| p0 rest].
  - split; [lia | discriminate].
  - destruct (String.eqb prediction p0); split; try lia; discriminate.
Qed.

(** X11.  With the shipped catalog [process_matches] never raises, whatever
    the fixtures, the tolerance and the minimum; every opportunity has a
    confidence between 85 and 97; and with a minimum of 85 (the default) or
    less the filter on the minimum drops nothing: there is one opportunity
    for each fixture that matches at least one rule. *)
Theorem shipped_catalog_processing (self : Engine.Self) (matches : list Match) :
  Engine.golden_rules self = GoldenRules.GOLDEN_RULES ->
  exists opps,
    Engine.process_matches self matches = Ok opps
    /\ Forall (fun opp => 85 <= Engine.o_confidence opp <= 97) opps
    /\ (Engine.min_confidence self <= 85 ->
        List.length opps
        = List.length
            (List.filter
               (fun m => existsb (Engine.match_rule_to_match self m)
                                 GoldenRules.GOLDEN_RULES)
               matches)).
Proof.
  intros Hcat.
  assert (Hshape : Forall (fun rule => predictions rule <> []
                                       /\ 84 <= confidence_base rule <= 91)
                          (Engine.golden_rules self)).
  { rewrite Hcat. eapply Forall_impl; [exact catalog_rule_shape |]. cbn. tauto. }
  assert (Hwf : Forall (fun rule => predictions rule <> []) (Engine.golden_rules self)).
  { eapply Forall_impl; [exact Hshape |]. cbn. tauto. }
  rewrite Forall_forall in Hshape.
  assert (Hrule : forall m rule, In rule (Spec.matching_rules self m) ->
                                 predictions rule <> []
                                 /\ 84 <= confidence_base rule <= 91).
  { intros m rule Hin. apply filter_In in Hin as [Hin _].
    apply Hshape. apply list_elem_of_In. exact Hin. }
  assert (Hone : forall m,
    match Spec.opportunity self m
            (Engine.sort_by_confidence_desc (Spec.scored_pairs self m)) with
    | Some opp =>
        85 <= Engine.o_confidence opp <= 97
        /\ existsb (Engine.match_rule_to_match self m) GoldenRules.GOLDEN_RULES = true
    | None =>
        Engine.min_confidence self <= 85 ->
        existsb (Engine.match_rule_to_match self m) GoldenRules.GOLDEN_RULES = false
    end).
  { intros m. unfold Spec.opportunity.
    specialize (Hrule m). pose proof (scored_pairs_nonempty self Hwf m) as Hne.
    unfold Spec.matching_rules in *. rewrite Hcat in *.
    destruct (List.filter (Engine.match_rule_to_match self m) GoldenRules.GOLDEN_RULES)
      as [| rule rules] eqn:Hm.
    - intros _. apply not_true_is_false. intros Hex.
      apply existsb_exists in Hex as (r & Hr & Hmatch).
      assert (Hin : In r []) by (rewrite <- Hm; apply filter_In; tauto).
      destruct Hin.
    - assert (Hex : existsb (Engine.match_rule_to_match self m)
                            GoldenRules.GOLDEN_RULES = true).
      { assert (Hin : In rule (rule :: rules)) by (left; reflexivity).
        rewrite <- Hm in Hin. apply filter_In in Hin as [Hin Hmatch].
        apply existsb_exists. exists rule. tauto. }
      destruct (Engine.sort_by_confidence_desc (Spec.scored_pairs self m))
        as [| top rest] eqn:Hs.
      + exfalso. apply Hne; [discriminate |].
        apply Permutation_nil. rewrite <- Hs. symmetry. apply sort_perm.
      + apply sorted_head_max in Hs as [Htop Hmax].
        assert (Hfirst : 85 <= Engine.confidence top).
        { destruct (Hrule rule ltac:(left; reflexivity)) as [Hpred Hbase].
          destruct (predictions rule) as [| p0 ps] eqn:Hp; [congruence |].
          etransitivity; [| apply (Hmax (Spec.entry_of rule p0))].
          - cbn. apply (catalog_confidence_range rule p0 Hbase).
            unfold Spec.is_first_listed. rewrite Hp. apply String.eqb_refl.
          - unfold Spec.scored_pairs, Spec.matching_rules. rewrite Hcat, Hm.
            cbn [flat_map]. rewrite Hp. left. reflexivity. }
        assert (Hrange : Engine.confidence top <= 97).
        { unfold Spec.scored_pairs, Spec.matching_rules in Htop.
          rewrite Hcat, Hm in Htop.
          apply in_flat_map in Htop as (r & Hr & Htop).
          apply in_map_iff in Htop as (p & <- & _). cbn.
          apply (catalog_confidence_range r p). apply (Hrule r Hr). }
        destruct (Z.leb_spec (Engine.min_confidence self) (Engine.confidence top))
          as [Hle | Hlt].
        * cbn. split; [lia | exact Hex].
        * intros Hmin. lia. }
  exists (omap (fun m => Spec.opportunity self m
                           (Engine.sort_by_confidence_desc (Spec.scored_pairs self m)))
               matches).
  split.
  { unfold Engine.process_matches. rewrite (process_loop_eq self Hwf). reflexivity. }
  split.
  - induction matches as [| m matches IH]; [constructor |].
    cbn [omap list_omap]. specialize (Hone m).
    destruct (Spec.opportunity self m _); [| exact IH].
    constructor; [tauto | exact IH].
  - intros Hmin. induction matches as [| m matches IH]; [reflexivity |].
    cbn [omap list_omap List.filter]. specialize (Hone m).
    destruct (Spec.opportunity self m _).
    + destruct Hone as [_ ->]. cbn [List.length]. f_equal. exact IH.
    + rewrite (Hone Hmin). exact IH.
Qed.

Lemma shipped_catalog_processing_witness :
  Engine.golden_rules {| Engine.min_confidence := 85; Engine.tolerance := 0%Q;
                         Engine.golden_rules := GoldenRules.GOLDEN_RULES |}
  = GoldenRules.GOLDEN_RULES
  /\ exists opps,
       Engine.process_matches
         {| Engine.min_confidence := 85; Engine.tolerance := 0%Q;
            Engine.golden_rules := GoldenRules.GOLDEN_RULES |}
         [Examples.fixture_233] = Ok opps
       /\ Forall (fun opp => 85 <= Engine.o_confidence opp <= 97) opps.
Proof.
  split; [reflexivity |].
  destruct (shipped_catalog_processing
              {| Engine.min_confidence := 85; Engine.tolerance := 0%Q;
                 Engine.golden_rules := GoldenRules.GOLDEN_RULES |}
              [Examples.fixture_233] eq_refl) as (opps & Hok & Hrange & _).
  exists opps. split; [exact Hok | exact Hrange].
Defined.

(** ** excel_parser.py and engine.py: the keys of the snapshot *)

Lemma parse_odds_loop_keys (row : gmap string ExcelParser.Cell)
      (cols : list (string * string)) (acc : gmap string (option Q)) (k : string) :
  fold_left
    (fun opening_odds (col : string * string) =>
       match row !! fst col with
       | Some val =>
           match ExcelParser.parse_cell val with
           | Some v => <[snd col := Some v]> opening_odds
           | None => opening_odds
           end
       | None => opening_odds
       end)
    cols acc !! k <> None ->
  acc !! k <> None \/ In k (map snd cols).
Proof.
  revert acc. induction cols as [| col cols IH]; intros acc; cbn [fold_left map].
  - intros H. left. exact H.
  - intros H. apply IH in H as [H | H]; [| right; right; exact H].
    destruct (row !! fst col) as [val |]; [| left; exact H].
    destruct (ExcelParser.parse_cell val) as [v |]; [| left; exact H].
    destruct (decide (snd col = k)) as [<- | Hne].
    + right. left. reflexivity.
    + rewrite lookup_insert_ne in H by exact Hne. left. exact H.
Qed.

Lemma parse_odds_keys (row : gmap string ExcelParser.Cell) (k : string) :
  ExcelParser.parse_odds row !! k <> None -> In k (map snd ExcelParser.odds_columns).
Proof.
  intros H. apply parse_odds_loop_keys in H as [H | H]; [| exact H].
  rewrite lookup_empty in H. congruence.
Qed.

(** A pair whose key the snapshot cannot have fails its signature. *)
Lemma missing_key_fails (self : Engine.Self) (m : Match)
      (signature : list (string * Q)) (label : string) (required : Q) :
  dict_get (Spec.snapshot_of m) (Engine._convert_odds_key label) = None ->
  In (label, required) signature ->
  Engine.check_odds_match self (opening_odds m) signature false = false.
Proof.
  intros Hget Hin. apply not_true_is_false. intros H.
  apply (proj1 (check_odds_match_true self m signature)) in H as [_ Hall].
  unfold Spec.signature_matches in Hall. rewrite Forall_forall in Hall.
  apply list_elem_of_In in Hin.
  destruct (Hall _ Hin) as (v & Hv & _). cbn [fst] in Hv. congruence.
Qed.

Lemma unmapped_label_fails (self : Engine.Self) (row : gmap string ExcelParser.Cell)
      (m : Match) (rule : GoldenRule) (label : string) (required : Q) :
  Spec.snapshot_of m = ExcelParser.parse_odds row ->
  ~ In (Engine._convert_odds_key label) (map snd ExcelParser.odds_columns) ->
  In (label, required) (primary_odds rule)
  \/ (exists sec, secondary_odds rule = Some sec /\ In (label, required) sec) ->
  Engine.match_rule_to_match self m rule = false.
Proof.
  intros Hsnap Hkey Hin.
  assert (Hget : dict_get (Spec.snapshot_of m) (Engine._convert_odds_key label) = None).
  { unfold dict_get. rewrite Hsnap.
    destruct (ExcelParser.parse_odds row !! Engine._convert_odds_key label) eqn:Hl;
      [| reflexivity].
    exfalso. apply Hkey. apply (parse_odds_keys row). congruence. }
  unfold Engine.match_rule_to_match.
  destruct Hin as [Hin | (sec & Hsec & Hin)].
  - rewrite (missing_key_fails self m _ label required Hget Hin). reflexivity.
  - destruct (negb (Engine.check_odds_match self (opening_odds m) (primary_odds rule)
                                            false)); [reflexivity |].
    rewrite Hsec. destruct sec as [| p sec]; [destruct Hin |].
    cbn [Engine.truthy].
    rewrite (missing_key_fails self m _ label required Hget Hin). reflexivity.
Qed.

(** The snapshot of a fixture that carries what the parser stored. *)
Lemma uploaded_snapshot (row : gmap string ExcelParser.Cell) (m : Match) :
  opening_odds m = ExcelParser.opening_odds_of row ->
  Spec.snapshot_of m = ExcelParser.parse_odds row.
Proof.
  unfold Spec.snapshot_of, ExcelParser.opening_odds_of. intros ->.
  destruct (bool_decide (ExcelParser.parse_odds row = ∅)) eqn:Hd; [| reflexivity].
  apply bool_decide_eq_true in Hd. symmetry. exact Hd.
Qed.

(** X12.  A snapshot built by the Excel parser has no other keys than the
    nine of [odds_columns], so a rule that requires, in its primary or
    secondary signature, a label that the engine translates to another key
    never matches a fixture uploaded through the parser. *)
Theorem unmapped_label_never_matches (self : Engine.Self)
        (row : gmap string ExcelParser.Cell) (m : Match) (rule : GoldenRule)
        (label : string) (required : Q) :
  opening_odds m = ExcelParser.opening_odds_of row ->
  ~ In (Engine._convert_odds_key label) (map snd ExcelParser.odds_columns) ->
  In (label, required) (primary_odds rule)
  \/ (exists sec, secondary_odds rule = Some sec /\ In (label, required) sec) ->
  (forall k, Spec.snapshot_of m !! k <> None -> In k (map snd ExcelParser.odds_columns))
  /\ dict_get (Spec.snapshot_of m) (Engine._convert_odds_key label) = None
  /\ Engine.match_rule_to_match self m rule = false.
Proof.
  intros Hsnap Hkey Hin. apply uploaded_snapshot in Hsnap. split; [| split].
  - intros k. rewrite Hsnap. apply parse_odds_keys.
  - unfold dict_get.
    destruct (Spec.snapshot_of m !! Engine._convert_odds_key label) eqn:Hl;
      [| reflexivity].
    exfalso. apply Hkey. apply (parse_odds_keys row). rewrite <- Hsnap. congruence.
  - eapply unmapped_label_fails; eassumption.
Qed.

(** X13.  The engine's table of labels and the parser's table of columns
    give the same key to every column but "2,5 A", which the engine sends to
    "2,5_a" and the parser to "oran_25_alt"; the label "2-3" has no column.
    So the seven rules of the catalog with one of these two labels in their
    secondary signature (ids 61, 261, 131, 7, 49, 20 and 51) never match a
    fixture uploaded through the parser. *)
Theorem catalog_rules_dead_for_uploads (self : Engine.Self)
        (row : gmap string ExcelParser.Cell) (m : Match) (rule : GoldenRule) :
  opening_odds m = ExcelParser.opening_odds_of row ->
  In rule GoldenRules.GOLDEN_RULES ->
  In (id rule) [61; 261; 131; 7; 49; 20; 51] ->
  Forall (fun col => fst col = "2,5 A" \/ Engine._convert_odds_key (fst col) = snd col)
         ExcelParser.odds_columns
  /\ Engine._convert_odds_key "2,5 A" = "2,5_a"
  /\ Engine._convert_odds_key "2-3" = "2-3"
  /\ Engine.match_rule_to_match self m rule = false.
Proof.
  intros Hsnap Hrule Hid. apply uploaded_snapshot in Hsnap.
  split; [repeat constructor; (left; reflexivity) || (right; reflexivity) |].
  split; [reflexivity |]. split; [reflexivity |].
  assert (Hb : forallb
                 (fun r =>
                    negb (existsb (Z.eqb (id r)) [61; 261; 131; 7; 49; 20; 51])
                    || match secondary_odds r with
                       | Some sec =>
                           existsb (fun p => String.eqb (fst p) "2,5 A"
                                             || String.eqb (fst p) "2-3") sec
                       | None => false
                       end)%bool
                 GoldenRules.GOLDEN_RULES = true)
    by (vm_compute; reflexivity).
  rewrite forallb_forall in Hb. specialize (Hb rule Hrule).
  apply orb_true_iff in Hb as [Hb | Hb].
  - exfalso. apply negb_true_iff in Hb.
    assert (Ht : existsb (Z.eqb (id rule)) [61; 261; 131; 7; 49; 20; 51] = true).
    { apply existsb_exists. exists (id rule). split; [exact Hid | apply Z.eqb_refl]. }
    congruence.
  - destruct (secondary_odds rule) as [sec |] eqn:Hsec; [| discriminate].
    apply existsb_exists in Hb as ([label required] & Hin & Hlabel).
    cbn [fst] in Hlabel.
    apply (unmapped_label_fails self row m rule label required Hsnap).
    + apply orb_true_iff in Hlabel as [H | H]; apply String.eqb_eq in H; subst label;
        vm_compute; intuition discriminate.
    + right. exists sec. split; [exact Hsec | exact Hin].
Qed.

Lemma successful_run_commits_witness :
  Engine.success
    (fst (Engine.run Examples.engine
            {| Engine.insert_run_error := None; Engine.delete_error := None;
               Engine.load_answer := Ok [Examples.fixture_233];
               Engine.insert_error := None; Engine.update_run_error := None |}
            Examples.db_before "2025-03-01" "2025-03-02")) = true
  /\ Engine.error
       (fst (Engine.run Examples.engine
               {| Engine.insert_run_error := None; Engine.delete_error := None;
                  Engine.load_answer := Ok [Examples.fixture_233];
                  Engine.insert_error := None; Engine.update_run_error := None |}
               Examples.db_before "2025-03-01" "2025-03-02")) = None.
Proof.
  assert (H : Engine.success
                (fst (Engine.run Examples.engine
                        {| Engine.insert_run_error := None; Engine.delete_error := None;
                           Engine.load_answer := Ok [Examples.fixture_233];
                           Engine.insert_error := None;
                           Engine.update_run_error := None |}
                        Examples.db_before "2025-03-01" "2025-03-02")) = true)
    by (vm_compute; reflexivity).
  split; [exact H |].
  exact (proj1 (proj2 (successful_run_commits Examples.engine _ Examples.db_before
                         "2025-03-01" "2025-03-02" H))).
Defined.

Lemma unmapped_label_never_matches_witness :
  Engine.match_rule_to_match
    {| Engine.min_confidence := 85; Engine.tolerance := 0%Q;
       Engine.golden_rules := GoldenRules.GOLDEN_RULES |}
    (Examples.fixture_on
       (ExcelParser.opening_odds_of
          {[ "4-5" := ExcelParser.CellStr "2,33";
             "2,5 A" := ExcelParser.CellNum 1.85%Q ]}))
    {| id := 900; name := "4-5 with 2,5 A"; primary_odds := [("4-5", 2.33%Q)];
       secondary_odds := Some [("2,5 A", 1.85%Q)]; exclude_odds := None;
       predictions := ["MS 2.5 ÜST"]; confidence_base := 88;
       importance := "önemli"; notes := "" |} = false.
Proof.
  refine (proj2 (proj2 (unmapped_label_never_matches
                          _ {[ "4-5" := ExcelParser.CellStr "2,33";
                               "2,5 A" := ExcelParser.CellNum 1.85%Q ]}
                          (Examples.fixture_on
                             (ExcelParser.opening_odds_of
                                {[ "4-5" := ExcelParser.CellStr "2,33";
                                   "2,5 A" := ExcelParser.CellNum 1.85%Q ]}))
                          _ "2,5 A" 1.85%Q eq_refl _ _))).
  - vm_compute. intuition discriminate.
  - right. exists [("2,5 A", 1.85%Q)]. split; [reflexivity | left; reflexivity].
Defined.

Lemma catalog_rules_dead_for_uploads_witness :
  exists rule,
    In rule GoldenRules.GOLDEN_RULES /\ id rule = 61
    /\ Engine.match_rule_to_match
         {| Engine.min_confidence := 85; Engine.tolerance := 0%Q;
            Engine.golden_rules := GoldenRules.GOLDEN_RULES |}
         (Examples.fixture_on
            (ExcelParser.opening_odds_of
               {[ "4-5" := ExcelParser.CellStr "2,33";
                  "2,5 A" := ExcelParser.CellNum 1.85%Q ]}))
         rule = false.
Proof.
  destruct (List.find (fun r => Z.eqb (id r) 61) GoldenRules.GOLDEN_RULES)
    as [rule |] eqn:Hfind; [| vm_compute in Hfind; discriminate].
  apply find_some in Hfind as [Hin Hid]. apply Z.eqb_eq in Hid.
  exists rule. split; [exact Hin |]. split; [exact Hid |].
  refine (proj2 (proj2 (proj2 (catalog_rules_dead_for_uploads
                                 _ {[ "4-5" := ExcelParser.CellStr "2,33";
                                      "2,5 A" := ExcelParser.CellNum 1.85%Q ]}
                                 (Examples.fixture_on
                                    (ExcelParser.opening_odds_of
                                       {[ "4-5" := ExcelParser.CellStr "2,33";
                                          "2,5 A" := ExcelParser.CellNum 1.85%Q ]}))
                                 rule eq_refl Hin _)))).
  rewrite Hid. left. reflexivity.
Defined.

(** ** track_results.py: what the tracker's grader does and never does *)

Lemma won_if_cases (b : bool) :
  ResultTracker.won_if b = "won" \/ ResultTracker.won_if b = "lost".
Proof. destruct b; [left | right]; reflexivity. Qed.

Lemma halftime_chain_cases (pred : string) (ht_home ht_away : Z) (r : string) :
  ResultTracker.halftime_chain pred ht_home ht_away = Some r -> r = "won" \/ r = "lost".
Proof.
  unfold ResultTracker.halftime_chain. cbn zeta.
  repeat match goal with
         | |- context [if ?b then _ else _] => destruct b
         end;
    intros [= <-] || discriminate; apply won_if_cases.
Qed.

Lemma fulltime_chain_cases (pred : string) (total_goals : Z) (r : string) :
  ResultTracker.fulltime_chain pred total_goals = Some r -> r = "won" \/ r = "lost".
Proof.
  unfold ResultTracker.fulltime_chain.
  repeat match goal with
         | |- context [if ?b then _ else _] => destruct b
         end;
    intros [= <-] || discriminate; apply won_if_cases.
Qed.

Lemma both_scored_chain_cases (pred : string) (ft_home ft_away : Z) (r : string) :
  ResultTracker.both_scored_chain pred ft_home ft_away = Some r -> r = "won" \/ r = "lost".
Proof.
  unfold ResultTracker.both_scored_chain. cbn zeta.
  repeat match goal with
         | |- context [if ?b then _ else _] => destruct b
         end;
    intros [= <-] || discriminate; apply won_if_cases.
Qed.

Lemma tracker_result_cases (prediction : string)
      (match_data : option ResultTracker.MatchData) :
  let result := ResultTracker.check_prediction_result prediction match_data in
  result = "pending"
  \/ ((result = "won" \/ result = "lost")
      /\ exists d ft_home ft_away,
           match_data = Some d
           /\ ResultTracker.fulltime_home d = Some ft_home
           /\ ResultTracker.fulltime_away d = Some ft_away).
Proof.
  cbn zeta. unfold ResultTracker.check_prediction_result.
  destruct match_data as [d |]; [| left; reflexivity].
  destruct (ResultTracker.fulltime_home d) as [ft_home |] eqn:Hh; [| left; reflexivity].
  destruct (ResultTracker.fulltime_away d) as [ft_away |] eqn:Ha; [| left; reflexivity].
  cbn zeta.
  match goal with
  | |- context [match ?x with Some r => r | None => "pending" end] =>
      destruct x as [r |] eqn:Hr; [| left; reflexivity]
  end.
  right. split; [| exists d, ft_home, ft_away; repeat split; assumption].
  unfold ResultTracker.first_some in Hr.
  repeat match type of Hr with
         | context [if ?b then _ else _] => destruct b
         end;
    repeat match type of Hr with
           | context [ResultTracker.halftime_chain ?p ?h ?a] =>
               let H := fresh "Hc" in
               destruct (ResultTracker.halftime_chain p h a) eqn:H;
               [apply halftime_chain_cases in H |]
           | context [ResultTracker.fulltime_chain ?p ?t] =>
               let H := fresh "Hc" in
               destruct (ResultTracker.fulltime_chain p t) eqn:H;
               [apply fulltime_chain_cases in H |]
           | context [ResultTracker.both_scored_chain ?p ?h ?a] =>
               let H := fresh "Hc" in
               destruct (ResultTracker.both_scored_chain p h a) eqn:H;
               [apply both_scored_chain_cases in H |]
           end;
    try discriminate; injection Hr as <-; assumption.
Qed.

(** X14.  The tracker's grader answers 'won', 'lost' or 'pending' and
    nothing else (never the 'half_won' of its docstring), and it answers
    'won' or 'lost' only for a match whose two full-time scores are
    known. *)
Theorem tracker_result_range (prediction : string)
        (match_data : option ResultTracker.MatchData) :
  In (ResultTracker.check_prediction_result prediction match_data)
     ["won"; "lost"; "pending"]
  /\ ResultTracker.check_prediction_result prediction match_data <> "half_won"
  /\ (ResultTracker.check_prediction_result prediction match_data <> "pending" ->
      exists d ft_home ft_away,
        match_data = Some d
        /\ ResultTracker.fulltime_home d = Some ft_home
        /\ ResultTracker.fulltime_away d = Some ft_away).
Proof.
  destruct (tracker_result_cases prediction match_data) as [H | [[H | H] Hd]];
    cbn zeta in *; rewrite H.
  - split; [right; right; left; reflexivity |]. split; [discriminate | congruence].
  - split; [left; reflexivity |]. split; [discriminate | intros _; exact Hd].
  - split; [right; left; reflexivity |]. split; [discriminate | intros _; exact Hd].
Qed.

Lemma halftime_chain_sum (pred : string) (h a h' a' : Z) :
  h + a = h' + a' ->
  ResultTracker.halftime_chain pred h a = ResultTracker.halftime_chain pred h' a'.
Proof.
  intros Hsum. unfold ResultTracker.halftime_chain. cbn zeta. rewrite Hsum.
  destruct (ResultTracker.over "0.5" pred); [reflexivity |].
  rewrite !andb_false_r. reflexivity.
Qed.

(** X15.  Unless the text is a both-teams-score bet, the tracker's grade
    depends on the scores only through the total of the goals at full time
    and at half time (an unknown half-time score counting as 0): the
    branches for the home and the away side come after the tests that
    shadow them, so a bet on one side's goals is graded on the goals of
    both. *)
Theorem tracker_team_blind (prediction : string) (d1 d2 : ResultTracker.MatchData)
        (h1 a1 h2 a2 : Z) :
  PyStr.contains "KG" (PyStr.strip (PyStr.upper prediction)) = false ->
  PyStr.contains "KARSILIKLI" (PyStr.strip (PyStr.upper prediction)) = false ->
  ResultTracker.fulltime_home d1 = Some h1 -> ResultTracker.fulltime_away d1 = Some a1 ->
  ResultTracker.fulltime_home d2 = Some h2 -> ResultTracker.fulltime_away d2 = Some a2 ->
  h1 + a1 = h2 + a2 ->
  default 0 (ResultTracker.halftime_home d1) + default 0 (ResultTracker.halftime_away d1)
  = default 0 (ResultTracker.halftime_home d2) + default 0 (ResultTracker.halftime_away d2) ->
  ResultTracker.check_prediction_result prediction (Some d1)
  = ResultTracker.check_prediction_result prediction (Some d2).
Proof.
  intros Hkg Hkars Hh1 Ha1 Hh2 Ha2 Hft Hht.
  unfold ResultTracker.check_prediction_result.
  rewrite Hh1, Ha1, Hh2, Ha2, Hkg, Hkars. cbn zeta. rewrite Hft.
  rewrite (halftime_chain_sum _ _ _ _ _ Hht). reflexivity.
Qed.

Lemma tracker_team_blind_witness :
  ResultTracker.check_prediction_result "MS DEP 0.5 ÜST"
    (Some {| ResultTracker.fulltime_home := Some 1; ResultTracker.fulltime_away := Some 0;
             ResultTracker.halftime_home := Some 0; ResultTracker.halftime_away := Some 0 |})
  = ResultTracker.check_prediction_result "MS DEP 0.5 ÜST"
      (Some {| ResultTracker.fulltime_home := Some 0; ResultTracker.fulltime_away := Some 1;
               ResultTracker.halftime_home := None; ResultTracker.halftime_away := None |})
  /\ ResultTracker.check_prediction_result "MS DEP 0.5 ÜST"
       (Some {| ResultTracker.fulltime_home := Some 1; ResultTracker.fulltime_away := Some 0;
                ResultTracker.halftime_home := Some 0; ResultTracker.halftime_away := Some 0 |})
     = "won"
  /\ ApiFootball.check_prediction_result "MS DEP 0.5 ÜST" 1 0 (Some 0) (Some 0) = Some false.
Proof.
  split; [| split; vm_compute; reflexivity].
  apply (tracker_team_blind "MS DEP 0.5 ÜST" _ _ 1 0 0 1); reflexivity.
Defined.

(** A text whose upper-cased form has none of the six markers that the
    grader looks for is left 'pending', whatever the match. *)
Lemma tracker_unmarked_pending (prediction : string)
      (match_data : option ResultTracker.MatchData) :
  existsb (fun marker => PyStr.contains marker (PyStr.strip (PyStr.upper prediction)))
          ["IY"; "ILKY"; "MS"; "MAC"; "KG"; "KARSILIKLI"] = false ->
  ResultTracker.check_prediction_result prediction match_data = "pending".
Proof.
  cbn [existsb]. intros H.
  repeat (apply orb_false_iff in H as [? H]).
  unfold ResultTracker.check_prediction_result.
  destruct match_data as [d |]; [| reflexivity].
  destruct (ResultTracker.fulltime_home d); [| reflexivity].
  destruct (ResultTracker.fulltime_away d); [| reflexivity].
  cbn zeta.
  repeat match goal with
         | Hc : PyStr.contains _ _ = false |- _ => rewrite Hc; clear Hc
         end.
  reflexivity.
Qed.

(** X16.  The half-time bets of the shipped catalog are written with the
    dotted capital I, which the tracker's test ['IY' in pred] does not find:
    the tracker leaves every such bet of the catalog other than "İY KG VAR"
    'pending' on every match, finished or not. *)
Theorem tracker_leaves_halftime_bets_pending (rule : GoldenRule) (prediction : string)
        (match_data : option ResultTracker.MatchData) :
  In rule GoldenRules.GOLDEN_RULES ->
  In prediction (predictions rule) ->
  PyStr.startswith "İY" prediction = true ->
  prediction <> "İY KG VAR" ->
  ResultTracker.check_prediction_result prediction match_data = "pending".
Proof.
  intros Hrule Hpred Hiy Hkg.
  assert (Hb : forallb
                 (fun r =>
                    forallb
                      (fun p =>
                         negb (PyStr.startswith "İY" p)
                         || String.eqb p "İY KG VAR"
                         || negb (existsb
                                    (fun marker =>
                                       PyStr.contains marker (PyStr.strip (PyStr.upper p)))
                                    ["IY"; "ILKY"; "MS"; "MAC"; "KG"; "KARSILIKLI"]))%bool
                      (predictions r))
                 GoldenRules.GOLDEN_RULES = true)
    by (vm_compute; reflexivity).
  rewrite forallb_forall in Hb. specialize (Hb rule Hrule).
  rewrite forallb_forall in Hb. specialize (Hb prediction Hpred).
  rewrite Hiy in Hb. cbn [negb orb] in Hb.
  apply orb_true_iff in Hb as [Hb | Hb].
  - apply String.eqb_eq in Hb. contradiction.
  - apply negb_true_iff in Hb. apply tracker_unmarked_pending. exact Hb.
Qed.

Lemma tracker_leaves_halftime_bets_pending_witness :
  exists rule,
    In rule GoldenRules.GOLDEN_RULES
    /\ In "İY 0.5 ÜST" (predictions rule)
    /\ ResultTracker.check_prediction_result "İY 0.5 ÜST"
         (Some {| ResultTracker.fulltime_home := Some 2;
                  ResultTracker.fulltime_away := Some 1;
                  ResultTracker.halftime_home := Some 1;
                  ResultTracker.halftime_away := Some 0 |}) = "pending"
    /\ ApiFootball.check_prediction_result "İY 0.5 ÜST" 2 1 (Some 1) (Some 0) = Some true.
Proof.
  destruct (List.find (fun r => PyStr.mem "İY 0.5 ÜST" (predictions r))
                      GoldenRules.GOLDEN_RULES) as [rule |] eqn:Hfind;
    [| vm_compute in Hfind; discriminate].
  apply find_some in Hfind as [Hin Hmem].
  unfold PyStr.mem in Hmem. apply existsb_exists in Hmem as (p & Hp & Heq).
  apply String.eqb_eq in Heq. subst p.
  exists rule. split; [exact Hin |]. split; [exact Hp |].
  split; [| vm_compute; reflexivity].
  apply (tracker_leaves_halftime_bets_pending rule "İY 0.5 ÜST" _ Hin Hp);
    [reflexivity | discriminate].
Defined.

(** The invariant of the loop of [track_results]. *)
Lemma track_loop_invariant (w : ResultTracker.World)
      (pending : list ResultTracker.PendingRow) (c : ResultTracker.Counters) :
  let c' := ResultTracker.track_loop w pending c in
  ResultTracker.updated_count c
  = ResultTracker.won_count c + ResultTracker.lost_count c ->
  ResultTracker.updated_count c = Z.of_nat (List.length (ResultTracker.written c)) ->
  ResultTracker.updated_count c' = ResultTracker.won_count c' + ResultTracker.lost_count c'
  /\ ResultTracker.updated_count c' = Z.of_nat (List.length (ResultTracker.written c'))
  /\ ResultTracker.updated_count c' - ResultTracker.updated_count c
     <= Z.of_nat (List.length pending)
  /\ ResultTracker.won_count c <= ResultTracker.won_count c'
  /\ ResultTracker.lost_count c <= ResultTracker.lost_count c'
  /\ exists new,
       ResultTracker.written c' = ResultTracker.written c ++ new
       /\ Forall (fun wr =>
                    exists pred d,
                      In pred pending /\ fst wr = ResultTracker.row_id pred
                      /\ ResultTracker.get_match_by_teams_and_date w
                           (ResultTracker.row_home_team pred)
                           (ResultTracker.row_away_team pred)
                           (ResultTracker.row_match_date pred) = Some d
                      /\ snd wr = ResultTracker.check_prediction_result
                                    (ResultTracker.row_prediction pred) (Some d)
                      /\ (snd wr = "won" \/ snd wr = "lost")) new.
Proof.
  cbn zeta. revert c. induction pending as [| pred rest IH]; intros c Hsum Hlen.
  - cbn [ResultTracker.track_loop List.length]. repeat split; try lia.
    exists []. rewrite app_nil_r. split; [reflexivity | constructor].
  - assert (Hskip :
              let c' := ResultTracker.track_loop w rest c in
              ResultTracker.updated_count c'
              = ResultTracker.won_count c' + ResultTracker.lost_count c'
              /\ ResultTracker.updated_count c'
                 = Z.of_nat (List.length (ResultTracker.written c'))
              /\ ResultTracker.updated_count c' - ResultTracker.updated_count c
                 <= Z.of_nat (List.length (pred :: rest))
              /\ ResultTracker.won_count c <= ResultTracker.won_count c'
              /\ ResultTracker.lost_count c <= ResultTracker.lost_count c'
              /\ exists new,
                   ResultTracker.written c' = ResultTracker.written c ++ new
                   /\ Forall (fun wr =>
                                exists pred0 d,
                                  In pred0 (pred :: rest)
                                  /\ fst wr = ResultTracker.row_id pred0
                                  /\ ResultTracker.get_match_by_teams_and_date w
                                       (ResultTracker.row_home_team pred0)
                                       (ResultTracker.row_away_team pred0)
                                       (ResultTracker.row_match_date pred0) = Some d
                                  /\ snd wr = ResultTracker.check_prediction_result
                                                (ResultTracker.row_prediction pred0) (Some d)
                                  /\ (snd wr = "won" \/ snd wr = "lost")) new).
    { cbn zeta. destruct (IH c Hsum Hlen) as (H1 & H2 & H3 & H4 & H5 & new & H6 & H7).
      repeat split; try assumption; [cbn [List.length]; lia |].
      exists new. split; [exact H6 |].
      eapply Forall_impl; [exact H7 |].
      intros wr (p & d & Hp & Hrest). exists p, d. split; [right; exact Hp | exact Hrest]. }
    cbn [ResultTracker.track_loop].
    destruct (ResultTracker.get_match_by_teams_and_date w _ _ _) as [d |] eqn:Hfeed;
      [| exact Hskip].
    cbn zeta.
    destruct (tracker_result_cases (ResultTracker.row_prediction pred) (Some d))
      as [Hres | [Hres _]]; cbn zeta in Hres.
    + rewrite Hres. cbn [String.eqb Ascii.eqb Bool.eqb negb]. exact Hskip.
    + remember (ResultTracker.check_prediction_result
                  (ResultTracker.row_prediction pred) (Some d)) as result eqn:Hresult.
      destruct (negb _); [| exact Hskip].
      destruct (ResultTracker.update_prediction_result w _ _); [| exact Hskip].
      set (won' := if String.eqb result "won"
                   then ResultTracker.won_count c + 1 else ResultTracker.won_count c).
      set (lost' := if String.eqb result "won" then ResultTracker.lost_count c
                    else if String.eqb result "lost"
                         then ResultTracker.lost_count c + 1
                         else ResultTracker.lost_count c).
      assert (Hwl : won' + lost' = ResultTracker.won_count c + ResultTracker.lost_count c + 1
                    /\ ResultTracker.won_count c <= won'
                    /\ ResultTracker.lost_count c <= lost').
      { subst won' lost'. destruct Hres as [H | H]; rewrite H;
          cbn [String.eqb Ascii.eqb Bool.eqb andb]; lia. }
      clearbody won' lost'.
      match goal with
      | |- context [ResultTracker.track_loop w rest ?c1] =>
          destruct (IH c1) as (H1 & H2 & H3 & H4 & H5 & new & H6 & H7)
      end.
      * cbn [ResultTracker.updated_count ResultTracker.won_count
               ResultTracker.lost_count]. lia.
      * cbn [ResultTracker.updated_count ResultTracker.written].
        rewrite length_app. cbn [List.length]. lia.
      * cbn [ResultTracker.updated_count ResultTracker.won_count
               ResultTracker.lost_count ResultTracker.written] in H3, H4, H5, H6.
        split; [exact H1 |]. split; [exact H2 |].
        split; [cbn [List.length]; lia |].
        split; [lia |]. split; [lia |].
        exists ((ResultTracker.row_id pred, result) :: new).
        split; [rewrite H6, <- app_assoc; reflexivity |].
        constructor.
        -- exists pred, d. cbn [fst snd].
           split; [left; reflexivity |]. split; [reflexivity |].
           split; [exact Hfeed |]. split; [exact Hresult | exact Hres].
        -- eapply Forall_impl; [exact H7 |].
           intros wr (p & d' & Hp & Hrest). exists p, d'.
           split; [right; exact Hp | exact Hrest].
Qed.

(** X17.  The summary of [track_results]: every row counts as checked; the
    rows updated are those won plus those lost, and are as many as the
    updates that went through; every update writes 'won' or 'lost', the
    grade of a row of the batch on the match that the feed gave for it, and
    never 'pending'. *)
Theorem track_results_summary (w : ResultTracker.World)
        (pending : list ResultTracker.PendingRow) :
  let summary := fst (ResultTracker.track_results w pending) in
  let writes := snd (ResultTracker.track_results w pending) in
  ResultTracker.success summary = true
  /\ ResultTracker.checked summary = Z.of_nat (List.length pending)
  /\ ResultTracker.updated summary
     = ResultTracker.won summary + ResultTracker.lost summary
  /\ ResultTracker.updated summary = Z.of_nat (List.length writes)
  /\ 0 <= ResultTracker.won summary /\ 0 <= ResultTracker.lost summary
  /\ ResultTracker.updated summary <= ResultTracker.checked summary
  /\ Forall (fun wr =>
               exists pred d,
                 In pred pending /\ fst wr = ResultTracker.row_id pred
                 /\ ResultTracker.get_match_by_teams_and_date w
                      (ResultTracker.row_home_team pred)
                      (ResultTracker.row_away_team pred)
                      (ResultTracker.row_match_date pred) = Some d
                 /\ snd wr = ResultTracker.check_prediction_result
                               (ResultTracker.row_prediction pred) (Some d)
                 /\ (snd wr = "won" \/ snd wr = "lost")) writes.
Proof.
  cbn zeta. unfold ResultTracker.track_results.
  destruct pending as [| pred rest].
  - cbn. repeat split; try lia. constructor.
  - set (pending := pred :: rest).
    destruct (track_loop_invariant w pending
                {| ResultTracker.updated_count := 0; ResultTracker.won_count := 0;
                   ResultTracker.lost_count := 0; ResultTracker.written := [] |}
                eq_refl eq_refl)
      as (H1 & H2 & H3 & H4 & H5 & new & H6 & H7).
    cbn [ResultTracker.updated_count ResultTracker.won_count ResultTracker.lost_count
         ResultTracker.written app] in *.
    cbn [fst snd ResultTracker.success ResultTracker.checked ResultTracker.updated
         ResultTracker.won ResultTracker.lost].
    repeat split; try assumption; try lia.
    rewrite H6. exact H7.
Qed.

(** ** api_football.py: which candidate the fixture matcher returns *)

Lemma first_exact_candidate (home_team away_team : string)
      (fixtures : list ApiFootball.Fixture) :
  Forall (fun g => Spec.exact_match home_team away_team g = false) fixtures
  \/ exists pre f post,
       fixtures = pre ++ f :: post
       /\ Forall (fun g => Spec.exact_match home_team away_team g = false) pre
       /\ Spec.exact_match home_team away_team f = true.
Proof.
  induction fixtures as [| g rest IH].
  - left. constructor.
  - destruct (Spec.exact_match home_team away_team g) eqn:Hg.
    + right. exists [], g, rest. repeat split; [constructor | exact Hg].
    + destruct IH as [Hall | (pre & f & post & -> & Hpre & Hf)].
      * left. constructor; assumption.
      * right. exists (g :: pre), f, post. repeat split; [| exact Hf].
        constructor; assumption.
Qed.

Lemma eligible_scores_two (home_team away_team : string) (g : ApiFootball.Fixture) :
  Spec.eligible home_team away_team g = true ->
  2 <= Spec.summed_score home_team away_team g.
Proof.
  unfold Spec.eligible, Spec.summed_score. intros H.
  apply andb_true_iff in H as [Hh Ha].
  apply Z.leb_le in Hh. apply Z.leb_le in Ha. lia.
Qed.

(** X18.  The candidate that [match_fixture_by_teams] returns.  It is a
    fixture of the list.  If some candidate has both normalized names equal
    to the internal ones, the first such candidate is returned, whatever the
    scores of the others.  Otherwise the answer is the first of the eligible
    candidates (both sides score at least 1) with the highest summed score,
    and [None] exactly when no candidate is eligible. *)
Theorem match_fixture_by_teams_selection (fixtures : list ApiFootball.Fixture)
        (home_team away_team : string) :
  match ApiFootball.match_fixture_by_teams fixtures home_team away_team with
  | Some f =>
      exists pre post,
        fixtures = pre ++ f :: post
        /\ Forall (fun g => Spec.exact_match home_team away_team g = false) pre
        /\ (Spec.exact_match home_team away_team f = true
            \/ (Forall (fun g => Spec.exact_match home_team away_team g = false)
                       (f :: post)
                /\ Spec.eligible home_team away_team f = true
                /\ Forall (fun g => Spec.eligible home_team away_team g = true ->
                                    Spec.summed_score home_team away_team g
                                    < Spec.summed_score home_team away_team f) pre
                /\ Forall (fun g => Spec.eligible home_team away_team g = true ->
                                    Spec.summed_score home_team away_team g
                                    <= Spec.summed_score home_team away_team f) post))
  | None =>
      Forall (fun g => Spec.exact_match home_team away_team g = false
                       /\ Spec.eligible home_team away_team g = false) fixtures
  end.
Proof.
  change (ApiFootball.match_fixture_by_teams fixtures home_team away_team)
    with (Spec.match_loop_for home_team away_team fixtures None 0).
  destruct (first_exact_candidate home_team away_team fixtures)
    as [Hno | (pre & f & post & -> & Hpre & Hf)].
  - destruct (best_candidate_returned home_team away_team fixtures None 0 Hno)
      as [[-> Hall] | (pre & f & post & -> & -> & He & _ & Hbefore & Hafter)].
    + rewrite Forall_forall in Hno, Hall. apply Forall_forall. intros g Hg.
      split; [apply Hno; exact Hg |].
      destruct (Spec.eligible home_team away_team g) eqn:He; [| reflexivity].
      pose proof (eligible_scores_two _ _ _ He). pose proof (Hall g Hg He). lia.
    + exists pre, post. apply Forall_app in Hno as [Hpre Hpost].
      split; [reflexivity |]. split; [exact Hpre |]. right.
      repeat split; assumption.
  - rewrite (exact_match_returned home_team away_team pre post f None 0 Hpre Hf).
    exists pre, post. split; [reflexivity |]. split; [exact Hpre |]. left. exact Hf.
Qed.

(** ** api_football.py: what the grader reads *)

(** X19.  A text without the half-time marker ("İY" or "IY") is graded on
    the full-time score alone: the half-time scores, known or not, do not
    change the answer. *)
Theorem api_fulltime_needs_no_halftime (prediction : string) (home_score away_score : Z)
        (halftime_home halftime_away : option Z) :
  ApiFootball.has_halftime_marker prediction = false ->
  ApiFootball.check_prediction_result prediction home_score away_score
                                      halftime_home halftime_away
  = ApiFootball.check_prediction_result prediction home_score away_score None None.
Proof.
  intros Hmark. unfold ApiFootball.check_prediction_result,
    ApiFootball.check_both_scored_and_1x2.
  rewrite Hmark. cbn [andb]. reflexivity.
Qed.

Lemma api_fulltime_needs_no_halftime_witness :
  ApiFootball.check_prediction_result "MS 2.5 ÜST" 2 1 (Some 0) None
  = ApiFootball.check_prediction_result "MS 2.5 ÜST" 2 1 None None.
Proof.
  apply (api_fulltime_needs_no_halftime "MS 2.5 ÜST" 2 1 (Some 0) None).
  vm_compute. reflexivity.
Defined.

Lemma threshold_loop_graded (is_marker : string -> bool) (prediction : string)
      (value value' : Z) (parts : list string) :
  ApiFootball.threshold_loop is_marker prediction value parts = None
  <-> ApiFootball.threshold_loop is_marker prediction value' parts = None.
Proof.
  induction parts as [| part rest IH]; cbn [ApiFootball.threshold_loop]; [tauto |].
  destruct rest as [| next rest']; [tauto |].
  destruct (is_marker part); [| exact IH].
  destruct (ApiFootball.py_float next); [| exact IH].
  destruct (PyStr.contains "ÜST" prediction); [split; discriminate |].
  destruct (PyStr.contains "ALT" prediction); [split; discriminate | exact IH].
Qed.

Lemma scoped_loops_graded (is_scope : string -> bool) (prediction : string)
      (home away total home' away' total' : Z) :
  ApiFootball.scoped_loops is_scope prediction home away total = None
  <-> ApiFootball.scoped_loops is_scope prediction home' away' total' = None.
Proof.
  unfold ApiFootball.scoped_loops.
  destruct (PyStr.mem "EV" _); [apply threshold_loop_graded |].
  destruct (PyStr.mem "DEP" _); apply threshold_loop_graded.
Qed.

Lemma both_scored_and_1x2_graded (prediction : string)
      (home_score away_score home_score' away_score' : Z)
      (halftime halftime' : option (Z * Z)) :
  (halftime = None <-> halftime' = None) ->
  ApiFootball.check_both_scored_and_1x2 prediction home_score away_score halftime = None
  <-> ApiFootball.check_both_scored_and_1x2 prediction home_score' away_score' halftime'
      = None.
Proof.
  intros Hknown. unfold ApiFootball.check_both_scored_and_1x2.
  destruct (ApiFootball.has_halftime_marker prediction && ApiFootball.has_var prediction)%bool.
  - destruct halftime as [[hh ha] |], halftime' as [[hh' ha'] |].
    + split; discriminate.
    + exfalso. destruct Hknown as [_ H]. specialize (H eq_refl). discriminate.
    + exfalso. destruct Hknown as [H _]. specialize (H eq_refl). discriminate.
    + tauto.
  - destruct (ApiFootball.has_var prediction); [split; discriminate |].
    destruct (String.eqb prediction "1"); [split; discriminate |].
    destruct (String.eqb prediction "X"); [split; discriminate |].
    destruct (String.eqb prediction "2"); [split; discriminate | tauto].
Qed.

Lemma api_graded_known (prediction : string)
      (home_score away_score hh ha home_score' away_score' hh' ha' : Z) :
  ApiFootball.check_prediction_result prediction home_score away_score (Some hh) (Some ha)
  = None
  <-> ApiFootball.check_prediction_result prediction home_score' away_score'
                                          (Some hh') (Some ha') = None.
Proof.
  unfold ApiFootball.check_prediction_result. cbn zeta.
  set (r := if PyStr.contains "MS" prediction
            then ApiFootball.scoped_loops (String.eqb "MS") prediction
                   home_score away_score (home_score + away_score)
            else None).
  set (r' := if PyStr.contains "MS" prediction
             then ApiFootball.scoped_loops (String.eqb "MS") prediction
                    home_score' away_score' (home_score' + away_score')
             else None).
  assert (Hfirst : r = None <-> r' = None).
  { subst r r'. destruct (PyStr.contains "MS" prediction);
      [apply scoped_loops_graded | tauto]. }
  clearbody r r'.
  set (s := ApiFootball.scoped_loops
              (fun part => String.eqb part "İY" || String.eqb part "IY")%bool
              prediction hh ha (hh + ha)).
  set (s' := ApiFootball.scoped_loops
               (fun part => String.eqb part "İY" || String.eqb part "IY")%bool
               prediction hh' ha' (hh' + ha')).
  assert (Hsecond : s = None <-> s' = None) by apply scoped_loops_graded.
  clearbody s s'.
  assert (Htail := both_scored_and_1x2_graded prediction home_score away_score
                     home_score' away_score' (Some (hh, ha)) (Some (hh', ha'))
                     ltac:(split; discriminate)).
  destruct r as [b |], r' as [b' |].
  - split; discriminate.
  - exfalso. destruct Hfirst as [_ Hf]. specialize (Hf eq_refl). discriminate.
  - exfalso. destruct Hfirst as [Hf _]. specialize (Hf eq_refl). discriminate.
  - destruct (ApiFootball.has_halftime_marker prediction); [| exact Htail].
    destruct s as [c |], s' as [c' |].
    + split; discriminate.
    + exfalso. destruct Hsecond as [_ Hf]. specialize (Hf eq_refl). discriminate.
    + exfalso. destruct Hsecond as [Hf _]. specialize (Hf eq_refl). discriminate.
    + exact Htail.
Qed.

Lemma api_graded_unknown (prediction : string)
      (home_score away_score home_score' away_score' : Z)
      (halftime_home halftime_away halftime_home' halftime_away' : option Z) :
  halftime_home = None \/ halftime_away = None ->
  halftime_home' = None \/ halftime_away' = None ->
  ApiFootball.check_prediction_result prediction home_score away_score
                                      halftime_home halftime_away = None
  <-> ApiFootball.check_prediction_result prediction home_score' away_score'
                                          halftime_home' halftime_away' = None.
Proof.
  intros H H'.
  assert (E : forall x y : option Z,
             x = None \/ y = None ->
             match x, y with
             | Some hh, Some ha => Some (hh, ha)
             | _, _ => None
             end = None).
  { intros [x |] [y |] [Hx | Hy]; congruence || reflexivity. }
  unfold ApiFootball.check_prediction_result. cbn zeta.
  rewrite (E _ _ H), (E _ _ H').
  set (r := if PyStr.contains "MS" prediction
            then ApiFootball.scoped_loops (String.eqb "MS") prediction
                   home_score away_score (home_score + away_score)
            else None).
  set (r' := if PyStr.contains "MS" prediction
             then ApiFootball.scoped_loops (String.eqb "MS") prediction
                    home_score' away_score' (home_score' + away_score')
             else None).
  assert (Hfirst : r = None <-> r' = None).
  { subst r r'. destruct (PyStr.contains "MS" prediction);
      [apply scoped_loops_graded | tauto]. }
  clearbody r r'.
  destruct r as [b |], r' as [b' |].
  - split; discriminate.
  - exfalso. destruct Hfirst as [_ Hf]. specialize (Hf eq_refl). discriminate.
  - exfalso. destruct Hfirst as [Hf _]. specialize (Hf eq_refl). discriminate.
  - destruct (ApiFootball.has_halftime_marker prediction); [tauto |].
    apply both_scored_and_1x2_graded. tauto.
Qed.

(** X20.  Whether [check_prediction_result] grades a bet (answers [True] or
    [False] rather than [None]) is decided by the text of the bet and by
    whether both half-time scores are known; the scores themselves never
    make a bet ungraded. *)
Theorem api_graded_by_text (prediction : string)
        (home_score away_score home_score' away_score' : Z)
        (halftime_home halftime_away halftime_home' halftime_away' : option Z) :
  (halftime_home = None \/ halftime_away = None
   <-> halftime_home' = None \/ halftime_away' = None) ->
  ApiFootball.check_prediction_result prediction home_score away_score
                                      halftime_home halftime_away = None
  <-> ApiFootball.check_prediction_result prediction home_score' away_score'
                                          halftime_home' halftime_away' = None.
Proof.
  intros Hknown.
  destruct halftime_home as [hh |], halftime_away as [ha |].
  - destruct halftime_home' as [hh' |], halftime_away' as [ha' |].
    + apply api_graded_known.
    + exfalso. destruct Hknown as [_ H].
      destruct (H (or_intror eq_refl)); discriminate.
    + exfalso. destruct Hknown as [_ H].
      destruct (H (or_introl eq_refl)); discriminate.
    + exfalso. destruct Hknown as [_ H].
      destruct (H (or_introl eq_refl)); discriminate.
  - apply api_graded_unknown; [right; reflexivity |].
    apply Hknown. right. reflexivity.
  - apply api_graded_unknown; [left; reflexivity |].
    apply Hknown. left. reflexivity.
  - apply api_graded_unknown; [left; reflexivity |].
    apply Hknown. left. reflexivity.
Qed.

Lemma api_graded_by_text_witness :
  ApiFootball.check_prediction_result "İY 0.5 ÜST" 2 1 (Some 1) None = None
  <-> ApiFootball.check_prediction_result "İY 0.5 ÜST" 0 0 None None = None.
Proof.
  apply (api_graded_by_text "İY 0.5 ÜST" 2 1 0 0 (Some 1) None None None).
  split; intros _; [left | right]; reflexivity.
Defined.

(** X21.  With both half-time scores known, [check_prediction_result]
    grades every bet of the shipped catalog on every score, except the two
    texts "EV MS 0.5 ÜST" and "İY SKOR 1-1", which it never grades. *)
Theorem api_grades_catalog (rule : GoldenRule) (prediction : string)
        (home_score away_score hh ha : Z) :
  In rule GoldenRules.GOLDEN_RULES ->
  In prediction (predictions rule) ->
  ApiFootball.check_prediction_result prediction home_score away_score
                                      (Some hh) (Some ha) = None
  <-> prediction = "EV MS 0.5 ÜST" \/ prediction = "İY SKOR 1-1".
Proof.
  intros Hrule Hpred.
  rewrite (api_graded_known prediction home_score away_score hh ha 0 0 0 0).
  assert (Hb : forallb
                 (fun r =>
                    forallb
                      (fun p =>
                         Bool.eqb
                           match ApiFootball.check_prediction_result
                                   p 0 0 (Some 0) (Some 0) with
                           | Some _ => false
                           | None => true
                           end
                           (String.eqb p "EV MS 0.5 ÜST" || String.eqb p "İY SKOR 1-1"))
                      (predictions r))
                 GoldenRules.GOLDEN_RULES = true)
    by (vm_compute; reflexivity).
  rewrite forallb_forall in Hb. specialize (Hb rule Hrule).
  rewrite forallb_forall in Hb. specialize (Hb prediction Hpred).
  apply Bool.eqb_prop in Hb.
  destruct (ApiFootball.check_prediction_result prediction 0 0 (Some 0) (Some 0)).
  - symmetry in Hb. apply orb_false_iff in Hb as [H1 H2].
    apply String.eqb_neq in H1. apply String.eqb_neq in H2.
    split; [discriminate | intros [H | H]; contradiction].
  - symmetry in Hb. apply orb_true_iff in Hb.
    split; [intros _ | reflexivity].
    destruct Hb as [H | H]; apply String.eqb_eq in H; [left | right]; exact H.
Qed.

Lemma api_grades_catalog_witness :
  exists rule,
    In rule GoldenRules.GOLDEN_RULES /\ In "İY SKOR 1-1" (predictions rule)
    /\ ApiFootball.check_prediction_result "İY SKOR 1-1" 1 1 (Some 1) (Some 1) = None.
Proof.
  destruct (List.find (fun r => PyStr.mem "İY SKOR 1-1" (predictions r))
                      GoldenRules.GOLDEN_RULES) as [rule |] eqn:Hfind;
    [| vm_compute in Hfind; discriminate].
  apply find_some in Hfind as [Hin Hmem].
  unfold PyStr.mem in Hmem. apply existsb_exists in Hmem as (p & Hp & Heq).
  apply String.eqb_eq in Heq. subst p.
  exists rule. split; [exact Hin |]. split; [exact Hp |].
  apply (api_grades_catalog rule "İY SKOR 1-1" 1 1 1 1 Hin Hp).
  right. reflexivity.
Defined.

(** ** The two graders on the bets of the catalog *)

(** [value > k + 0.5] on an integer value. *)
Lemma Qltb_half (k v : Z) :
  Qltb ((10 * k + 5) # 10) (inject_Z v) = (k + 1 <=? v).
Proof.
  unfold Qltb, Qle_bool, inject_Z. cbn [Qnum Qden].
  destruct (Z.leb_spec (v * 10) ((10 * k + 5) * 1)), (Z.leb_spec (k + 1) v);
    cbn [negb]; reflexivity || lia.
Qed.

(** X22.  The tracker's grader against [api_football]'s, on a finished
    match whose half-time score is known, [True] read as 'won', [False] as
    'lost' and [None] as 'pending'.  Of the bets of the shipped catalog the
    two agree on every score exactly for the totals "MS 0.5 ÜST" to
    "MS 3.5 ÜST", for "KG VAR" and "MS KG VAR", and for "İY SKOR 1-1", which
    neither grades; for every other bet of the catalog some score makes
    them differ. *)
Theorem graders_on_catalog (rule : GoldenRule) (prediction : string) :
  In rule GoldenRules.GOLDEN_RULES ->
  In prediction (predictions rule) ->
  (forall home_score away_score hh ha : Z,
      ResultTracker.check_prediction_result prediction
        (Some {| ResultTracker.fulltime_home := Some home_score;
                 ResultTracker.fulltime_away := Some away_score;
                 ResultTracker.halftime_home := Some hh;
                 ResultTracker.halftime_away := Some ha |})
      = match ApiFootball.check_prediction_result prediction home_score away_score
                                                  (Some hh) (Some ha) with
        | Some true => "won"
        | Some false => "lost"
        | None => "pending"
        end)
  <-> In prediction ["MS 0.5 ÜST"; "MS 1.5 ÜST"; "MS 2.5 ÜST"; "MS 3.5 ÜST";
                     "KG VAR"; "MS KG VAR"; "İY SKOR 1-1"].
Proof.
  intros Hrule Hpred. split.
  - intros Hagree.
    assert (Hb : forallb
                   (fun r =>
                      forallb
                        (fun p =>
                           PyStr.mem p ["MS 0.5 ÜST"; "MS 1.5 ÜST"; "MS 2.5 ÜST";
                                        "MS 3.5 ÜST"; "KG VAR"; "MS KG VAR";
                                        "İY SKOR 1-1"]
                           || existsb
                                (fun t : Z * Z * Z * Z =>
                                   let '(h, a, hh, ha) := t in
                                   negb
                                     (String.eqb
                                        (ResultTracker.check_prediction_result p
                                           (Some {| ResultTracker.fulltime_home := Some h;
                                                    ResultTracker.fulltime_away := Some a;
                                                    ResultTracker.halftime_home := Some hh;
                                                    ResultTracker.halftime_away := Some ha |}))
                                        match ApiFootball.check_prediction_result
                                                p h a (Some hh) (Some ha) with
                                        | Some true => "won"
                                        | Some false => "lost"
                                        | None => "pending"
                                        end))
                                [(1, 0, 1, 0); (2, 0, 0, 0); (0, 1, 0, 0);
                                 (0, 2, 0, 0); (1, 1, 0, 0)])%bool
                        (predictions r))
                   GoldenRules.GOLDEN_RULES = true)
      by (vm_compute; reflexivity).
    rewrite forallb_forall in Hb. specialize (Hb rule Hrule).
    rewrite forallb_forall in Hb. specialize (Hb prediction Hpred).
    apply orb_true_iff in Hb as [Hb | Hb].
    + unfold PyStr.mem in Hb. apply existsb_exists in Hb as (p & Hp & Heq).
      apply String.eqb_eq in Heq. subst p. exact Hp.
    + exfalso. apply existsb_exists in Hb as ([[[h a] hh] ha] & _ & Hne).
      apply negb_true_iff in Hne. rewrite (Hagree h a hh ha) in Hne.
      rewrite String.eqb_refl in Hne. discriminate.
  - intros Hin home_score away_score hh ha.
    repeat (destruct Hin as [<- | Hin]); [| | | | | | | destruct Hin].
    + change (ResultTracker.won_if (1 <=? home_score + away_score)
              = match Some (Qltb ((10 * 0 + 5) # 10) (inject_Z (home_score + away_score)))
                with Some true => "won" | Some false => "lost" | None => "pending" end).
      rewrite Qltb_half. change (0 + 1) with 1. destruct (1 <=? _); reflexivity.
    + change (ResultTracker.won_if (2 <=? home_score + away_score)
              = match Some (Qltb ((10 * 1 + 5) # 10) (inject_Z (home_score + away_score)))
                with Some true => "won" | Some false => "lost" | None => "pending" end).
      rewrite Qltb_half. change (1 + 1) with 2. destruct (2 <=? _); reflexivity.
    + change (ResultTracker.won_if (3 <=? home_score + away_score)
              = match Some (Qltb ((10 * 2 + 5) # 10) (inject_Z (home_score + away_score)))
                with Some true => "won" | Some false => "lost" | None => "pending" end).
      rewrite Qltb_half. change (2 + 1) with 3. destruct (3 <=? _); reflexivity.
    + change (ResultTracker.won_if (4 <=? home_score + away_score)
              = match Some (Qltb ((10 * 3 + 5) # 10) (inject_Z (home_score + away_score)))
                with Some true => "won" | Some false => "lost" | None => "pending" end).
      rewrite Qltb_half. change (3 + 1) with 4. destruct (4 <=? _); reflexivity.
    + change (ResultTracker.won_if ((0 <? home_score) && (0 <? away_score))
              = match Some ((0 <? home_score) && (0 <? away_score))%bool
                with Some true => "won" | Some false => "lost" | None => "pending" end).
      destruct (_ && _)%bool; reflexivity.
    + change (ResultTracker.won_if ((0 <? home_score) && (0 <? away_score))
              = match Some ((0 <? home_score) && (0 <? away_score))%bool
                with Some true => "won" | Some false => "lost" | None => "pending" end).
      destruct (_ && _)%bool; reflexivity.
    + reflexivity.
Qed.

Lemma graders_on_catalog_witness :
  exists rule,
    In rule GoldenRules.GOLDEN_RULES /\ In "MS 2.5 ÜST" (predictions rule)
    /\ forall home_score away_score hh ha : Z,
         ResultTracker.check_prediction_result "MS 2.5 ÜST"
           (Some {| ResultTracker.fulltime_home := Some home_score;
                    ResultTracker.fulltime_away := Some away_score;
                    ResultTracker.halftime_home := Some hh;
                    ResultTracker.halftime_away := Some ha |})
         = match ApiFootball.check_prediction_result "MS 2.5 ÜST" home_score away_score
                                                     (Some hh) (Some ha) with
           | Some true => "won"
           | Some false => "lost"
           | None => "pending"
           end.
Proof.
  destruct (List.find (fun r => PyStr.mem "MS 2.5 ÜST" (predictions r))
                      GoldenRules.GOLDEN_RULES) as [rule |] eqn:Hfind;
    [| vm_compute in Hfind; discriminate].
  apply find_some in Hfind as [Hin Hmem].
  unfold PyStr.mem in Hmem. apply existsb_exists in Hmem as (p & Hp & Heq).
  apply String.eqb_eq in Heq. subst p.
  exists rule. split; [exact Hin |]. split; [exact Hp |].
  apply (proj2 (graders_on_catalog rule "MS 2.5 ÜST" Hin Hp)).
  right. right. left. reflexivity.
Defined.

(** ** sandbox_evaluator.py: the metrics and what a test can recommend *)

Lemma predictions_of_length (results : list (option Sandbox.Simulated)) :
  (List.length (Sandbox.predictions_of results) <= List.length results)%nat.
Proof.
  unfold Sandbox.predictions_of.
  induction results as [| r results IH]; cbn [flat_map List.length]; [lia |].
  rewrite length_app.
  destruct r as [x |]; [destruct (Sandbox.predicted x) |]; cbn [List.length]; lia.
Qed.

Lemma count_labels_bound (l : list Sandbox.Simulated) :
  0 <= Sandbox.count_label "won" l
  /\ 0 <= Sandbox.count_label "lost" l
  /\ Sandbox.count_label "won" l + Sandbox.count_label "lost" l
     <= Z.of_nat (List.length l).
Proof.
  unfold Sandbox.count_label.
  induction l as [| r l IH]; cbn [List.filter List.length]; [lia |].
  destruct (String.eqb (Sandbox.result_label r) "won") eqn:Hw.
  - apply String.eqb_eq in Hw. rewrite Hw.
    change (String.eqb "won" "lost") with false. cbn [List.length]. lia.
  - destruct (String.eqb (Sandbox.result_label r) "lost"); cbn [List.length]; lia.
Qed.

Lemma win_rate_range (wins total : Z) :
  0 <= wins <= total -> (0 <= Sandbox.win_rate wins total <= 100)%Q.
Proof.
  intros [Hw Ht]. unfold Sandbox.win_rate.
  destruct (Z.ltb_spec 0 total) as [Hpos | Hle].
  - destruct total as [| t | t]; try lia.
    unfold Qle, Qdiv, Qmult, Qinv, inject_Z. cbn [Qnum Qden Z.mul Pos.mul].
    split; nia.
  - split; unfold Qle; cbn; lia.
Qed.

(** The recommendation is one of the four labels; the last two need a
    significant test and a rate above 70. *)
Lemma recommendation_cases (sample_size : Z) (win_rate_delta : Q)
      (is_significant : bool) (win_rate : Q) :
  let label := fst (Sandbox._generate_recommendation sample_size win_rate_delta
                      is_significant win_rate) in
  (label = "insufficient_data" /\ sample_size < Sandbox.min_sample_size)
  \/ (label = "reject" /\ Sandbox.min_sample_size <= sample_size)
  \/ (label = "approve" /\ Sandbox.min_sample_size <= sample_size
      /\ is_significant = true /\ (5 < win_rate_delta)%Q /\ (75 < win_rate)%Q)
  \/ (label = "needs_tuning" /\ Sandbox.min_sample_size <= sample_size
      /\ is_significant = true /\ (0 < win_rate_delta)%Q /\ (70 < win_rate)%Q).
Proof.
  cbn zeta. unfold Sandbox._generate_recommendation.
  destruct (Z.ltb_spec sample_size Sandbox.min_sample_size) as [Hlt | Hge].
  - left. split; [reflexivity | exact Hlt].
  - right. destruct is_significant; cbn [negb]; [| left; split; [reflexivity | exact Hge]].
    destruct (Qgtb win_rate_delta 5 && Qgtb win_rate 75)%bool eqn:Ha.
    + right. left. apply andb_true_iff in Ha as [H1 H2].
      apply Qgtb_lt in H1. apply Qgtb_lt in H2. repeat split; assumption.
    + destruct (Qgtb win_rate_delta 0 && Qgtb win_rate 70)%bool eqn:Hn.
      * right. right. apply andb_true_iff in Hn as [H1 H2].
        apply Qgtb_lt in H1. apply Qgtb_lt in H2. repeat split; assumption.
      * left. split; [reflexivity | exact Hge].
Qed.

(** X23.  The counts and rates of [_calculate_test_metrics], whatever the
    p-value of the test: wins and losses are counted among the predictions
    and the predictions among the matches, both rates lie between 0 and
    100 and their difference between -100 and 100, and a test counts as
    significant only when the candidate and the baseline both have at least
    30 predictions. *)
Theorem metrics_invariants (proportion_test : Z -> Z -> Q -> Q)
        (candidate_results baseline_results : list (option Sandbox.Simulated)) :
  let r := Sandbox._calculate_test_metrics proportion_test
             candidate_results baseline_results in
  Sandbox.total_matches r = Z.of_nat (List.length candidate_results)
  /\ 0 <= Sandbox.candidate_wins r /\ 0 <= Sandbox.candidate_losses r
  /\ Sandbox.candidate_wins r + Sandbox.candidate_losses r
     <= Sandbox.candidate_predictions r
  /\ Sandbox.candidate_predictions r <= Sandbox.total_matches r
  /\ 0 <= Sandbox.baseline_wins r /\ 0 <= Sandbox.baseline_losses r
  /\ Sandbox.baseline_wins r + Sandbox.baseline_losses r
     <= Sandbox.baseline_predictions r
  /\ Sandbox.baseline_predictions r <= Z.of_nat (List.length baseline_results)
  /\ (0 <= Sandbox.candidate_win_rate r <= 100)%Q
  /\ (0 <= Sandbox.baseline_win_rate r <= 100)%Q
  /\ (-100 <= Sandbox.win_rate_delta r <= 100)%Q
  /\ (Sandbox.is_significant r = true ->
      30 <= Sandbox.candidate_predictions r /\ 30 <= Sandbox.baseline_predictions r).
Proof.
  cbn zeta. unfold Sandbox._calculate_test_metrics.
  cbn [Sandbox.total_matches Sandbox.candidate_wins Sandbox.candidate_losses
       Sandbox.candidate_predictions Sandbox.baseline_wins Sandbox.baseline_losses
       Sandbox.baseline_predictions Sandbox.candidate_win_rate
       Sandbox.baseline_win_rate Sandbox.win_rate_delta Sandbox.is_significant].
  pose proof (predictions_of_length candidate_results) as Hc.
  pose proof (predictions_of_length baseline_results) as Hb.
  destruct (count_labels_bound (Sandbox.predictions_of candidate_results))
    as (Hcw & Hcl & Hcs).
  destruct (count_labels_bound (Sandbox.predictions_of baseline_results))
    as (Hbw & Hbl & Hbs).
  assert (Hcr := win_rate_range
                   (Sandbox.count_label "won" (Sandbox.predictions_of candidate_results))
                   (Z.of_nat (List.length (Sandbox.predictions_of candidate_results)))
                   ltac:(lia)).
  assert (Hbr := win_rate_range
                   (Sandbox.count_label "won" (Sandbox.predictions_of baseline_results))
                   (Z.of_nat (List.length (Sandbox.predictions_of baseline_results)))
                   ltac:(lia)).
  repeat match goal with |- _ /\ _ => split end; try lia; try tauto.
  - destruct Hcr as [H1 H2], Hbr as [H3 H4].
    apply (Qle_trans _ (0 - 100)); [unfold Qle; cbn; lia |].
    unfold Qminus. apply Qplus_le_compat; [exact H1 |]. apply Qopp_le_compat. exact H4.
  - destruct Hcr as [H1 H2], Hbr as [H3 H4].
    apply (Qle_trans _ (100 - 0)); [| unfold Qle; cbn; lia].
    unfold Qminus. apply Qplus_le_compat; [exact H2 |]. apply Qopp_le_compat. exact H3.
  - destruct (_ && _)%bool eqn:Hs; [| discriminate].
    apply andb_true_iff in Hs as [H1 H2]. apply Z.leb_le in H1. apply Z.leb_le in H2.
    unfold Sandbox.min_sample_size in H1, H2. intros _. split; assumption.
Qed.

Lemma significant_needs_samples (proportion_test : Z -> Z -> Q -> Q)
      (candidate_results baseline_results : list (option Sandbox.Simulated)) :
  let r := Sandbox._calculate_test_metrics proportion_test
             candidate_results baseline_results in
  Sandbox.is_significant r = true ->
  30 <= Sandbox.candidate_predictions r /\ 30 <= Sandbox.baseline_predictions r.
Proof.
  cbn zeta. unfold Sandbox._calculate_test_metrics.
  cbn [Sandbox.is_significant Sandbox.candidate_predictions Sandbox.baseline_predictions].
  destruct (_ && _)%bool eqn:Hs; [| discriminate].
  apply andb_true_iff in Hs as [H1 H2]. apply Z.leb_le in H1. apply Z.leb_le in H2.
  unfold Sandbox.min_sample_size in H1, H2. intros _. split; assumption.
Qed.

Lemma metrics_recommendation_cases (proportion_test : Z -> Z -> Q -> Q)
      (candidate_results baseline_results : list (option Sandbox.Simulated)) :
  let r := Sandbox._calculate_test_metrics proportion_test
             candidate_results baseline_results in
  (Sandbox.recommendation r = "insufficient_data"
   /\ Sandbox.candidate_predictions r < 30)
  \/ (Sandbox.recommendation r = "reject" /\ 30 <= Sandbox.candidate_predictions r)
  \/ (Sandbox.recommendation r = "approve" /\ 30 <= Sandbox.candidate_predictions r
      /\ Sandbox.is_significant r = true
      /\ (5 < Sandbox.win_rate_delta r)%Q /\ (75 < Sandbox.candidate_win_rate r)%Q)
  \/ (Sandbox.recommendation r = "needs_tuning" /\ 30 <= Sandbox.candidate_predictions r
      /\ Sandbox.is_significant r = true
      /\ (0 < Sandbox.win_rate_delta r)%Q /\ (70 < Sandbox.candidate_win_rate r)%Q).
Proof.
  cbn zeta.
  destruct (test_metrics_recommendation proportion_test candidate_results
              baseline_results) as [Hrec _].
  cbn zeta in Hrec. rewrite Hrec. apply recommendation_cases.
Qed.


(** ** sandbox_evaluator.py: candidates that a test cannot approve *)

Lemma predictions_of_none {A} (f : A -> option Sandbox.Simulated) (l : list A) :
  (forall a, f a = None) -> Sandbox.predictions_of (map f l) = [].
Proof.
  intros Hf. unfold Sandbox.predictions_of.
  induction l as [| a l IH]; cbn [map flat_map]; [reflexivity |].
  rewrite Hf. exact IH.
Qed.

Lemma candidate_without_conditions (candidate : Sandbox.CandidateRule)
      (m : Sandbox.HistoricalMatch) :
  Sandbox.rule_type candidate <> "json_conditions"
  \/ Sandbox.conditions candidate = None
  \/ (exists c, Sandbox.conditions candidate = Some c
                /\ Sandbox.conditions_empty c = true) ->
  Sandbox._evaluate_candidate_on_match candidate m = None.
Proof.
  intros H. unfold Sandbox._evaluate_candidate_on_match.
  destruct (String.eqb_spec (Sandbox.rule_type candidate) "json_conditions")
    as [Ht | Ht]; [| reflexivity].
  destruct H as [H | [H | (c & H & Hc)]]; [contradiction | |];
    rewrite H; cbn [Sandbox._check_conditions negb]; [reflexivity |].
  rewrite Hc. reflexivity.
Qed.

Lemma ungraded_prediction_type (prediction_type : string) (home_score away_score : Z) :
  ~ In prediction_type ["MS 2.5 ÜST"; "MS 2.5 ALT"; "KG VAR"] ->
  Sandbox._evaluate_prediction_outcome prediction_type home_score away_score = "unknown".
Proof.
  intros Hnot. unfold Sandbox._evaluate_prediction_outcome. cbn zeta.
  destruct (String.eqb_spec prediction_type "MS 2.5 ÜST") as [-> | _];
    [exfalso; apply Hnot; left; reflexivity |].
  destruct (String.eqb_spec prediction_type "MS 2.5 ALT") as [-> | _];
    [exfalso; apply Hnot; right; left; reflexivity |].
  destruct (String.eqb prediction_type "İY 0.5 ÜST"); [reflexivity |].
  destruct (String.eqb_spec prediction_type "KG VAR") as [-> | _];
    [exfalso; apply Hnot; right; right; left; reflexivity | reflexivity].
Qed.

Lemma ungraded_candidate_wins (candidate : Sandbox.CandidateRule)
      (matches : list Sandbox.HistoricalMatch) :
  ~ In (Sandbox.prediction_type candidate) ["MS 2.5 ÜST"; "MS 2.5 ALT"; "KG VAR"] ->
  Sandbox.count_label "won"
    (Sandbox.predictions_of
       (map (Sandbox._evaluate_candidate_on_match candidate) matches)) = 0
  /\ Sandbox.count_label "lost"
       (Sandbox.predictions_of
          (map (Sandbox._evaluate_candidate_on_match candidate) matches)) = 0.
Proof.
  intros Hnot. unfold Sandbox.count_label, Sandbox.predictions_of.
  induction matches as [| m matches [IHw IHl]]; [split; reflexivity |].
  cbn [map flat_map]. unfold Sandbox._evaluate_candidate_on_match at 1 3.
  destruct (String.eqb (Sandbox.rule_type candidate) "json_conditions");
    [| split; assumption].
  destruct (negb _); [split; assumption |].
  cbn [Sandbox.predicted app List.filter Sandbox.result_label].
  rewrite (ungraded_prediction_type _ _ _ Hnot).
  change (String.eqb "unknown" "won") with false.
  change (String.eqb "unknown" "lost") with false.
  split; assumption.
Qed.

Lemma win_rate_zero (total : Z) : (Sandbox.win_rate 0 total == 0)%Q.
Proof.
  unfold Sandbox.win_rate. destruct (0 <? total); [| reflexivity].
  unfold Qeq, Qdiv, Qmult. cbn [Qnum inject_Z]. lia.
Qed.

(** X25.  Candidates that [test_candidate_rule] can never approve, whatever
    the matches and the p-value of the test: the answer is
    'insufficient_data' or 'reject' when the candidate is not of type
    'json_conditions' or has no conditions (then always
    'insufficient_data'), when its prediction type is not one of the three
    that the simulation grades ("MS 2.5 ÜST", "MS 2.5 ALT", "KG VAR"), or
    when the baseline is neither 'golden_rules' nor 'specific_rule'. *)
Theorem test_candidate_rule_never_approves (proportion_test : Z -> Z -> Q -> Q)
        (candidate : Sandbox.CandidateRule) (matches : list Sandbox.HistoricalMatch)
        (baseline_type : string) (baseline_rule_id : option Z) :
  (Sandbox.rule_type candidate <> "json_conditions"
   \/ Sandbox.conditions candidate = None
   \/ (exists c, Sandbox.conditions candidate = Some c
                 /\ Sandbox.conditions_empty c = true))
  \/ ~ In (Sandbox.prediction_type candidate) ["MS 2.5 ÜST"; "MS 2.5 ALT"; "KG VAR"]
  \/ ~ In baseline_type ["golden_rules"; "specific_rule"] ->
  In (Sandbox.tested_recommendation
        (Sandbox.test_candidate_rule proportion_test candidate matches
           baseline_type baseline_rule_id))
     ["insufficient_data"; "reject"]
  /\ (Sandbox.rule_type candidate <> "json_conditions"
      \/ Sandbox.conditions candidate = None
      \/ (exists c, Sandbox.conditions candidate = Some c
                    /\ Sandbox.conditions_empty c = true) ->
      Sandbox.tested_recommendation
        (Sandbox.test_candidate_rule proportion_test candidate matches
           baseline_type baseline_rule_id) = "insufficient_data").
Proof.
  intros H. unfold Sandbox.test_candidate_rule.
  destruct (Z.of_nat (List.length matches) <? Sandbox.min_sample_size);
    [split; [left; reflexivity | reflexivity] |].
  cbn [Sandbox.tested_recommendation].
  set (candidate_results := map (Sandbox._evaluate_candidate_on_match candidate) matches).
  set (baseline_results :=
         map (Sandbox.baseline_on_match baseline_type baseline_rule_id) matches).
  assert (Hnone :
            Sandbox.rule_type candidate <> "json_conditions"
            \/ Sandbox.conditions candidate = None
            \/ (exists c, Sandbox.conditions candidate = Some c
                          /\ Sandbox.conditions_empty c = true) ->
            Sandbox.recommendation
              (Sandbox._calculate_test_metrics proportion_test candidate_results
                 baseline_results) = "insufficient_data").
  { intros Hc.
    assert (Hp : Sandbox.predictions_of candidate_results = []).
    { apply predictions_of_none. intros m.
      apply candidate_without_conditions. exact Hc. }
    destruct (metrics_recommendation_cases proportion_test candidate_results
                baseline_results)
      as [[Hr _] | [[_ Hn] | [(_ & Hn & _) | (_ & Hn & _)]]];
      cbn zeta in *; [exact Hr | | |];
      exfalso; revert Hn; unfold Sandbox._calculate_test_metrics;
      cbn [Sandbox.candidate_predictions]; rewrite Hp; cbn [List.length]; lia. }
  split; [| exact Hnone].
  destruct H as [Hc | [Hpt | Hbt]].
  - rewrite (Hnone Hc). left. reflexivity.
  - destruct (ungraded_candidate_wins candidate matches Hpt) as [Hw _].
    fold candidate_results in Hw.
    destruct (metrics_recommendation_cases proportion_test candidate_results
                baseline_results)
      as [[Hr _] | [[Hr _] | [(_ & _ & _ & _ & Hrate) | (_ & _ & _ & _ & Hrate)]]];
      cbn zeta in *.
    + rewrite Hr. left. reflexivity.
    + rewrite Hr. right. left. reflexivity.
    + exfalso. revert Hrate. unfold Sandbox._calculate_test_metrics.
      cbn [Sandbox.candidate_win_rate]. rewrite Hw, win_rate_zero.
      unfold Qlt. cbn. lia.
    + exfalso. revert Hrate. unfold Sandbox._calculate_test_metrics.
      cbn [Sandbox.candidate_win_rate]. rewrite Hw, win_rate_zero.
      unfold Qlt. cbn. lia.
  - assert (Hb : Sandbox.predictions_of baseline_results = []).
    { apply predictions_of_none. intros m. unfold Sandbox.baseline_on_match.
      destruct (String.eqb_spec baseline_type "golden_rules") as [-> | _];
        [exfalso; apply Hbt; left; reflexivity |].
      destruct (String.eqb_spec baseline_type "specific_rule") as [-> | _];
        [exfalso; apply Hbt; right; left; reflexivity | reflexivity]. }
    pose proof (significant_needs_samples proportion_test candidate_results
                  baseline_results) as Hsig.
    destruct (metrics_recommendation_cases proportion_test candidate_results
                baseline_results)
      as [[Hr _] | [[Hr _] | [(_ & _ & Hs & _) | (_ & _ & Hs & _)]]];
      cbn zeta in *.
    + rewrite Hr. left. reflexivity.
    + rewrite Hr. right. left. reflexivity.
    + exfalso. destruct (Hsig Hs) as [_ Hn]. revert Hn.
      unfold Sandbox._calculate_test_metrics.
      cbn [Sandbox.baseline_predictions]. rewrite Hb. cbn [List.length]. lia.
    + exfalso. destruct (Hsig Hs) as [_ Hn]. revert Hn.
      unfold Sandbox._calculate_test_metrics.
      cbn [Sandbox.baseline_predictions]. rewrite Hb. cbn [List.length]. lia.
Qed.

Lemma test_candidate_rule_never_approves_witness :
  In (Sandbox.tested_recommendation
        (Sandbox.test_candidate_rule (fun _ _ _ => 0%Q)
           {| Sandbox.rule_type := "json_conditions";
              Sandbox.prediction_type := "İY 0.5 ÜST";
              Sandbox.conditions :=
                Some {| Sandbox.cond_home_odds := None;
                        Sandbox.cond_away_odds := None;
                        Sandbox.cond_leagues := Some ["Super Lig"];
                        Sandbox.other_keys := false |} |}
           (List.repeat
              {| Sandbox.hm_home_odds := Some 1.8%Q; Sandbox.hm_away_odds := Some 4.2%Q;
                 Sandbox.hm_league := Some "Super Lig";
                 Sandbox.hm_home_score := 2; Sandbox.hm_away_score := 1;
                 Sandbox.hm_golden_rule_id := Some 30;
                 Sandbox.hm_actual_outcome := Some false |} 40)
           "golden_rules" None))
     ["insufficient_data"; "reject"].
Proof.
  refine (proj1 (test_candidate_rule_never_approves _ _ _ _ _ _)).
  right. left. cbn [Sandbox.prediction_type In].
  intros [H | [H | [H | H]]]; discriminate || exact H.
Defined.

(** ** learning_engine.py: saving suggestions *)






(** ** learning_engine.py and sandbox_evaluator.py: the proportion test *)

Lemma proportion_test_se_sym (total : Z) (p : R) :
  ((1 - p) * (1 - (1 - p)) / IZR total = p * (1 - p) / IZR total)%R.
Proof. unfold Rdiv. ring. Qed.

(** X27.  [_proportion_test], for an expected proportion between 0 and 1.
    It answers 1, never significant, for an empty sample and for an
    expected proportion of exactly 0 or 1, where the standard error is 0.
    It is two-sided: the wins against the expected proportion get the
    p-value of the losses against its complement.  If the distribution
    function lies between 1/2 and 1 on the non-negative numbers the answer
    lies between 0 and 1, and if it is 1/2 at 0 an observed proportion that
    equals the expected one gets 1. *)
Theorem proportion_test_properties (norm_cdf : R -> R) (successes total : Z)
        (expected_proportion : R) :
  (0 <= expected_proportion <= 1)%R ->
  0 <= total ->
  (total = 0 \/ expected_proportion = 0%R \/ expected_proportion = 1%R ->
   Learning._proportion_test norm_cdf successes total expected_proportion = 1%R)
  /\ Learning._proportion_test norm_cdf successes total expected_proportion
     = Learning._proportion_test norm_cdf (total - successes) total
         (1 - expected_proportion)%R
  /\ ((forall x, (0 <= x)%R -> (1 / 2 <= norm_cdf x <= 1)%R) ->
      (0 <= Learning._proportion_test norm_cdf successes total expected_proportion
       <= 1)%R)
  /\ (norm_cdf 0%R = (1 / 2)%R ->
      IZR successes = (expected_proportion * IZR total)%R ->
      Learning._proportion_test norm_cdf successes total expected_proportion = 1%R).
Proof.
  intros Hp Htotal. unfold Learning._proportion_test.
  destruct (Z.eqb_spec total 0) as [-> | Hne].
  - repeat split; try reflexivity; intros; lra.
  - assert (Hn : IZR total <> 0%R) by (apply not_0_IZR; exact Hne).
    cbn zeta. rewrite proportion_test_se_sym.
    split; [| split; [| split]].
    + intros [H | [H | H]]; [contradiction | |];
        destruct (Req_dec_T _ 0%R) as [_ | Hse]; try reflexivity;
        exfalso; apply Hse; rewrite H.
      * replace (0 * (1 - 0) / IZR total)%R with 0%R by (unfold Rdiv; ring).
        apply sqrt_0.
      * replace (1 * (1 - 1) / IZR total)%R with 0%R by (unfold Rdiv; ring).
        apply sqrt_0.
    + destruct (Req_dec_T _ 0%R) as [_ | Hse]; [reflexivity |].
      f_equal. f_equal. f_equal.
      rewrite minus_IZR.
      replace ((IZR total - IZR successes) / IZR total - (1 - expected_proportion))%R
        with (- (IZR successes / IZR total - expected_proportion))%R
        by (field; exact Hn).
      unfold Rdiv. rewrite Ropp_mult_distr_l_reverse. symmetry. apply Rabs_Ropp.
    + intros Hcdf. destruct (Req_dec_T _ 0%R) as [_ | Hse]; [lra |].
      match goal with
      | |- context [norm_cdf ?x] => specialize (Hcdf x (Rabs_pos _))
      end.
      lra.
    + intros Hzero Hobs. destruct (Req_dec_T _ 0%R) as [_ | Hse]; [reflexivity |].
      replace (IZR successes / IZR total - expected_proportion)%R with 0%R
        by (rewrite Hobs; field; exact Hn).
      unfold Rdiv. rewrite Rmult_0_l, Rabs_R0, Hzero. lra.
Qed.

Lemma proportion_test_properties_witness :
  Learning._proportion_test (fun _ => (1 / 2)%R) 24 30 (4 / 5)%R
  = Learning._proportion_test (fun _ => (1 / 2)%R) (30 - 24) 30 (1 - 4 / 5)%R.
Proof.
  refine (proj1 (proj2 (proportion_test_properties (fun _ => (1 / 2)%R) 24 30
                          (4 / 5)%R _ _))).
  - lra.
  - lia.
Defined.

(** ** api_football.py and live_score_updater.py: finished matches *)

Lemma finished_statuses (fixture : Feed.FeedFixture) :
  Feed.is_finished (Feed.get_match_status fixture) = true
  <-> In (Feed.status_short fixture) ["FT"; "AET"; "PEN"; "BT"].
Proof.
  unfold Feed.get_match_status. cbn [Feed.is_finished].
  rewrite bool_decide_eq_true. unfold Feed.status_map. cbn [Feed.status_get].
  generalize (Feed.status_short fixture). intros st.
  repeat match goal with
         | |- context [String.eqb st ?k] =>
             destruct (String.eqb_spec st k) as [-> | ?]
         end;
    cbn [In]; split; intros H; try discriminate; try (clear H; auto 10; fail);
    repeat (destruct H as [H | H]; [discriminate || congruence |]); try destruct H.
Qed.

Lemma live_not_finished (fixture : Feed.FeedFixture) :
  Feed.is_live (Feed.get_match_status fixture) = true ->
  Feed.is_finished (Feed.get_match_status fixture) = false.
Proof.
  unfold Feed.get_match_status. cbn [Feed.is_live Feed.is_finished].
  rewrite bool_decide_eq_true, bool_decide_eq_false. intros ->. discriminate.
Qed.

Lemma feed_match_loop_teams (home_norm away_norm : string)
      (home_words away_words : gset string) (fixtures : list Feed.FeedFixture)
      (best_match : option Feed.FeedFixture) (best_score : Z) :
  option_map Feed.teams
    (Feed.match_loop home_norm away_norm home_words away_words fixtures
                     best_match best_score)
  = ApiFootball.match_loop home_norm away_norm home_words away_words
      (map Feed.teams fixtures) (option_map Feed.teams best_match) best_score.
Proof.
  revert best_match best_score.
  induction fixtures as [| fixture rest IH]; intros best_match best_score;
    cbn [Feed.match_loop ApiFootball.match_loop map]; [reflexivity |].
  cbn zeta. destruct (_ && _)%bool; [reflexivity |].
  destruct (_ && _)%bool; [| apply IH].
  destruct (best_score <? _); apply IH.
Qed.

Lemma feed_match_loop_member (home_norm away_norm : string)
      (home_words away_words : gset string) (fixtures : list Feed.FeedFixture)
      (best_match : option Feed.FeedFixture) (best_score : Z) (f : Feed.FeedFixture) :
  Feed.match_loop home_norm away_norm home_words away_words fixtures
                  best_match best_score = Some f ->
  In f fixtures \/ best_match = Some f.
Proof.
  revert best_match best_score.
  induction fixtures as [| fixture rest IH]; intros best_match best_score;
    cbn [Feed.match_loop]; [intros ->; right; reflexivity |].
  cbn zeta. destruct (_ && _)%bool; [intros [= ->]; left; left; reflexivity |].
  destruct (_ && _)%bool.
  - destruct (best_score <? _); intros H; apply IH in H as [H | H].
    + left. right. exact H.
    + injection H as ->. left. left. reflexivity.
    + left. right. exact H.
    + right. exact H.
  - intros H. apply IH in H as [H | H]; [left; right; exact H | right; exact H].
Qed.

Lemma feed_match_member (fixtures : list Feed.FeedFixture) (home_team away_team : string)
      (f : Feed.FeedFixture) :
  Feed.match_fixture_by_teams fixtures home_team away_team = Some f ->
  In f fixtures
  /\ ApiFootball.match_fixture_by_teams (map Feed.teams fixtures) home_team away_team
     = Some (Feed.teams f).
Proof.
  unfold Feed.match_fixture_by_teams, ApiFootball.match_fixture_by_teams. intros H.
  split.
  - apply feed_match_loop_member in H as [H | H]; [exact H | discriminate].
  - rewrite <- (feed_match_loop_teams _ _ _ _ fixtures None 0), H. reflexivity.
Qed.

(** X28.  What [get_match_by_teams_and_date] hands to the tracker.  It
    answers only for a fixture of the date's list, the one that
    [match_fixture_by_teams] selects by its two names, and only if the
    status of that fixture is FT, AET, PEN or BT; both full-time scores of
    the answer are known, a goal count that the feed gives as null being
    read as 0. *)
Theorem feed_match_data (get_fixtures_by_date : string -> list Feed.FeedFixture)
        (home_team away_team match_date : string) (d : ResultTracker.MatchData) :
  Feed.get_match_by_teams_and_date get_fixtures_by_date home_team away_team match_date
  = Some d ->
  exists f,
    In f (get_fixtures_by_date (Feed.date_str_of match_date))
    /\ ApiFootball.match_fixture_by_teams
         (map Feed.teams (get_fixtures_by_date (Feed.date_str_of match_date)))
         home_team away_team = Some (Feed.teams f)
    /\ In (Feed.status_short f) ["FT"; "AET"; "PEN"; "BT"]
    /\ ResultTracker.fulltime_home d = Some (default 0 (Feed.goals_home f))
    /\ ResultTracker.fulltime_away d = Some (default 0 (Feed.goals_away f))
    /\ ResultTracker.halftime_home d
       = match Feed.halftime f with Some h => fst h | None => None end
    /\ ResultTracker.halftime_away d
       = match Feed.halftime f with Some h => snd h | None => None end.
Proof.
  unfold Feed.get_match_by_teams_and_date. cbn zeta.
  set (fixtures := get_fixtures_by_date (Feed.date_str_of match_date)).
  intros H.
  assert (H' : match Feed.match_fixture_by_teams fixtures home_team away_team with
               | Some m =>
                   if negb (Feed.is_finished (Feed.get_match_status m)) then None
                   else Some {| ResultTracker.fulltime_home :=
                                  Some (Feed.home_score (Feed.get_match_status m));
                                ResultTracker.fulltime_away :=
                                  Some (Feed.away_score (Feed.get_match_status m));
                                ResultTracker.halftime_home :=
                                  Feed.halftime_home (Feed.get_match_status m);
                                ResultTracker.halftime_away :=
                                  Feed.halftime_away (Feed.get_match_status m) |}
               | None => None
               end = Some d).
  { destruct fixtures; [discriminate | exact H]. }
  clear H.
  destruct (Feed.match_fixture_by_teams fixtures home_team away_team) as [f |] eqn:Hm;
    [| discriminate].
  destruct (Feed.is_finished (Feed.get_match_status f)) eqn:Hfin; [| discriminate].
  cbn [negb] in H'. injection H' as <-.
  apply feed_match_member in Hm as [Hin Hteams].
  apply finished_statuses in Hfin.
  exists f. repeat split; assumption || reflexivity.
Qed.

Lemma feed_match_data_witness :
  Feed.get_match_by_teams_and_date
    (fun _ => [ {| Feed.teams := {| ApiFootball.fixture_id := 1;
                                    ApiFootball.home_name := "GALATASARAY";
                                    ApiFootball.away_name := "FENERBAHCE" |};
                   Feed.status_short := "FT"; Feed.elapsed := Some 90;
                   Feed.goals_home := None; Feed.goals_away := None;
                   Feed.halftime := None |} ])
    "Galatasaray SK" "Fenerbahçe" "2025-03-01T19:00:00"
  = Some {| ResultTracker.fulltime_home := Some 0; ResultTracker.fulltime_away := Some 0;
            ResultTracker.halftime_home := None; ResultTracker.halftime_away := None |}
  /\ exists f,
       In (Feed.status_short f) ["FT"; "AET"; "PEN"; "BT"]
       /\ Some 0 = Some (default 0 (Feed.goals_home f)).
Proof.
  assert (H : Feed.get_match_by_teams_and_date
                (fun _ => [ {| Feed.teams := {| ApiFootball.fixture_id := 1;
                                                ApiFootball.home_name := "GALATASARAY";
                                                ApiFootball.away_name := "FENERBAHCE" |};
                               Feed.status_short := "FT"; Feed.elapsed := Some 90;
                               Feed.goals_home := None; Feed.goals_away := None;
                               Feed.halftime := None |} ])
                "Galatasaray SK" "Fenerbahçe" "2025-03-01T19:00:00"
              = Some {| ResultTracker.fulltime_home := Some 0;
                        ResultTracker.fulltime_away := Some 0;
                        ResultTracker.halftime_home := None;
                        ResultTracker.halftime_away := None |})
    by (vm_compute; reflexivity).
  split; [exact H |].
  destruct (feed_match_data _ _ _ _ _ H) as (f & _ & _ & Hst & Hh & _).
  exists f. split; [exact Hst | exact Hh].
Defined.

Lemma count_flag_filter (flag : Feed.Opp -> bool) (opportunities : list Feed.Opp)
      (count : Z) :
  Feed.count_flag flag opportunities count
  = count + Z.of_nat (List.length (List.filter flag opportunities)).
Proof.
  revert count. induction opportunities as [| opp rest IH]; intros count;
    cbn [Feed.count_flag List.filter List.length]; [lia |].
  rewrite IH. destruct (flag opp); cbn [List.length]; lia.
Qed.

Lemma enriched_flags (all_fixtures : list Feed.FeedFixture) (opp : Feed.Opp) :
  let opp' := Feed.enrich_opportunity all_fixtures opp in
  (Feed.opp_is_live opp' = true -> Feed.opp_is_finished opp' = false)
  /\ (Feed.opp_is_finished opp' = true
      <-> exists f,
            Feed.match_fixture_by_teams all_fixtures (Feed.ev_sahibi opp)
                                        (Feed.deplasman opp) = Some f
            /\ In (Feed.status_short f) ["FT"; "AET"; "PEN"; "BT"]).
Proof.
  cbn zeta. unfold Feed.enrich_opportunity.
  destruct (Feed.match_fixture_by_teams all_fixtures _ _) as [f |];
    cbn [Feed.opp_is_live Feed.opp_is_finished].
  - split; [apply live_not_finished |].
    rewrite finished_statuses. split.
    + intros H. exists f. split; [reflexivity | exact H].
    + intros (f' & [= <-] & H). exact H.
  - split; [discriminate |]. split; [discriminate |].
    intros (f' & Hf & _). discriminate.
Qed.

Lemma has_active_matches_false (opportunities : list Feed.Opp) :
  Feed.has_active_matches opportunities = false
  <-> Forall (fun opp => Feed.opp_is_live opp = false /\ Feed.opp_is_finished opp = true)
             opportunities.
Proof.
  induction opportunities as [| opp rest IH]; cbn [Feed.has_active_matches].
  - split; [constructor | reflexivity].
  - destruct (Feed.opp_is_live opp) eqn:Hl.
    + split; [discriminate |]. intros H. inversion H as [| ? ? [Hx _] _]. congruence.
    + destruct (Feed.opp_is_finished opp) eqn:Hf; cbn [negb].
      * rewrite IH. split.
        -- intros H. constructor; [split; assumption | exact H].
        -- intros H. inversion H. assumption.
      * split; [discriminate |]. intros H. inversion H as [| ? ? [_ Hx] _]. congruence.
Qed.

(** X29.  When the live-score updater stops asking the feed.
    [update_live_scores] makes no request exactly when the file is empty or
    every opportunity in it is flagged finished and not live, and two
    requests otherwise; it never counts more live and finished matches than
    there are opportunities.  After an update every opportunity is flagged
    finished and not live exactly when each one resolves to a fixture of
    the feed whose status is FT, AET, PEN or BT: one opportunity that is
    missing from the feed, postponed or cancelled keeps the updater asking. *)
Theorem updater_stops_when_all_finished (loaded : list Feed.Opp)
        (fixtures live_fixtures : list Feed.FeedFixture) (save_ok : bool) :
  let out := Feed.update_live_scores loaded fixtures live_fixtures save_ok in
  let updated := Feed.enrich_opportunities_with_scores fixtures live_fixtures loaded in
  (Feed.api_calls (fst out) = 0
   <-> Forall (fun opp => Feed.opp_is_live opp = false
                          /\ Feed.opp_is_finished opp = true) loaded)
  /\ (Feed.api_calls (fst out) = 0 \/ Feed.api_calls (fst out) = 2)
  /\ (Feed.api_calls (fst out) = 0 ->
      Feed.skipped (fst out) = true /\ Feed.success (fst out) = true /\ snd out = None)
  /\ (Feed.api_calls (fst out) = 2 ->
      Feed.skipped (fst out) = false /\ Feed.success (fst out) = save_ok
      /\ snd out = if save_ok then Some updated else None)
  /\ Feed.total_opportunities (fst out) = Z.of_nat (List.length loaded)
  /\ 0 <= Feed.live_matches (fst out) /\ 0 <= Feed.finished_matches (fst out)
  /\ Feed.live_matches (fst out) + Feed.finished_matches (fst out)
     <= Feed.total_opportunities (fst out)
  /\ (Feed.has_active_matches updated = false
      <-> Forall (fun opp =>
                    exists f,
                      Feed.match_fixture_by_teams (fixtures ++ live_fixtures)
                        (Feed.ev_sahibi opp) (Feed.deplasman opp) = Some f
                      /\ In (Feed.status_short f) ["FT"; "AET"; "PEN"; "BT"])
                 loaded).
Proof.
  cbn zeta.
  assert (Hcount : forall l : list Feed.Opp,
             Forall (fun opp => Feed.opp_is_live opp = true ->
                                Feed.opp_is_finished opp = false) l ->
             (List.length (List.filter Feed.opp_is_live l)
              + List.length (List.filter Feed.opp_is_finished l)
              <= List.length l)%nat).
  { induction 1 as [| opp l Hopp _ IH]; cbn [List.filter List.length]; [lia |].
    destruct (Feed.opp_is_live opp).
    - rewrite (Hopp eq_refl). cbn [List.length]. lia.
    - destruct (Feed.opp_is_finished opp); cbn [List.length]; lia. }
  assert (Hflags : Forall (fun opp => Feed.opp_is_live opp = true ->
                                      Feed.opp_is_finished opp = false)
                          (Feed.enrich_opportunities_with_scores fixtures live_fixtures
                                                                 loaded)).
  { unfold Feed.enrich_opportunities_with_scores. cbn zeta.
    apply Forall_forall. intros opp' Hin. apply list_elem_of_In, in_map_iff in Hin
      as (opp & <- & _).
    apply (proj1 (enriched_flags (fixtures ++ live_fixtures) opp)). }
  assert (Hlen : List.length (Feed.enrich_opportunities_with_scores fixtures live_fixtures
                                                                  loaded)
                 = List.length loaded).
  { unfold Feed.enrich_opportunities_with_scores. cbn zeta. apply length_map. }
  assert (Hlast :
            Feed.has_active_matches
              (Feed.enrich_opportunities_with_scores fixtures live_fixtures loaded) = false
            <-> Forall (fun opp =>
                          exists f,
                            Feed.match_fixture_by_teams (fixtures ++ live_fixtures)
                              (Feed.ev_sahibi opp) (Feed.deplasman opp) = Some f
                            /\ In (Feed.status_short f) ["FT"; "AET"; "PEN"; "BT"])
                       loaded).
  { rewrite has_active_matches_false.
    unfold Feed.enrich_opportunities_with_scores. cbn zeta.
    rewrite Forall_map. apply Forall_iff. intros opp. cbn beta.
    destruct (enriched_flags (fixtures ++ live_fixtures) opp) as [Hl Hf].
    cbn zeta in Hl, Hf. rewrite <- Hf. split; [tauto |].
    intros H. split; [| exact H].
    destruct (Feed.opp_is_live _) eqn:E; [| reflexivity].
    rewrite (Hl eq_refl) in H. discriminate. }
  unfold Feed.update_live_scores. destruct loaded as [| opp rest].
  - cbn [fst snd Feed.api_calls Feed.skipped Feed.success Feed.total_opportunities
         Feed.live_matches Feed.finished_matches List.length].
    repeat split; try lia; try constructor; try discriminate; exact (proj1 Hlast) || exact (proj2 Hlast) || idtac.
  - set (loaded := opp :: rest) in *.
    destruct (Feed.has_active_matches loaded) eqn:Hact; cbn [negb].
    + cbn [fst snd Feed.api_calls Feed.skipped Feed.success Feed.total_opportunities
           Feed.live_matches Feed.finished_matches].
      rewrite !count_flag_filter.
      specialize (Hcount _ Hflags). rewrite Hlen in Hcount.
      split; [split; [discriminate |] |].
      { intros H. apply has_active_matches_false in H. congruence. }
      split; [right; reflexivity |]. split; [discriminate |].
      split; [intros _; repeat split |]. split; [reflexivity |].
      split; [lia |]. split; [lia |]. split; [lia | exact Hlast].
    + cbn [fst snd Feed.api_calls Feed.skipped Feed.success Feed.total_opportunities
           Feed.live_matches Feed.finished_matches].
      split; [split; [intros _; apply has_active_matches_false; exact Hact
                     | reflexivity] |].
      split; [left; reflexivity |]. split; [intros _; repeat split |].
      split; [discriminate |]. split; [reflexivity |].
      split; [lia |]. split; [lia |]. split; [lia | exact Hlast].
Qed.
